(** * Settlement-prediction pipeline of fairmediator.ai

    A shallow embedding of
      backend/src/ml_models/settlement_predictor/data/clean_data.py
      backend/src/ml_models/settlement_predictor/training/feature_engineering.py
      backend/src/ml_models/settlement_predictor/training/train_model.py
      backend/src/ml_models/settlement_predictor/serving/predict_api.py

    Conventions.
    - A float64 cell is the rational number it denotes ([Q], exact
      arithmetic); NaN is the missing value [None].  The transcendental
      functions of numpy ([log1p], [expm1], the square root inside [np.std])
      are the real functions of the Standard Library, applied to the
      injection [Q2R] of such a cell.
    - The damages of a query are not cleaned, so the frame built from a
      query also holds the non-finite results of [np.log1p] ([Cell]).
    - A Python exception is [Raise msg]; a function that can raise returns
      a [result].
    - Two things depend on the process and are parameters: Python's salted
      [hash], and whether the trees of the installed scikit-learn take NaN
      ([trees_accept_nan]: they do from version 1.3 on).
    - A pandas DataFrame is the list of its rows; a row is a record with
      one field per column the pipeline reads or writes. *)

From Stdlib Require Import QArith ZArith List String Ascii Bool Lia Psatz.
From Stdlib Require Import Reals Qreals Sorted.
Import ListNotations.

Set Implicit Arguments.

(** ** Python values shared by the four source files *)

Inductive result (A : Type) : Type :=
| Ok (a : A)
| Raise (exn : string).
Arguments Ok {A} a.
Arguments Raise {A} exn.

Definition bind {A B : Type} (r : result A) (k : A -> result B) : result B :=
  match r with
  | Ok a => k a
  | Raise e => Raise e
  end.

Notation "x <- r ;; k" := (bind r (fun x => k))
  (at level 61, r at next level, right associativity).

(** [x < y] on float cells, as a boolean. *)
Definition Qltb (x y : Q) : bool := negb (Qle_bool y x).

(** [d.get(k)] on a dict written as a literal with string keys. *)
Fixpoint dict_get {V : Type} (d : list (string * V)) (k : string) : option V :=
  match d with
  | [] => None
  | (k', v) :: d' => if String.eqb k k' then Some v else dict_get d' k
  end.

(** [d.get(k, default)]. *)
Definition dict_get_default {V : Type} (d : list (string * V)) (k : string) (default : V) : V :=
  match dict_get d k with
  | Some v => v
  | None => default
  end.

(** [x in xs] for a list of strings. *)
Definition str_in (x : string) (xs : list string) : bool :=
  existsb (String.eqb x) xs.

(** [sep.join(xs)]. *)
Fixpoint join (sep : string) (xs : list string) : string :=
  match xs with
  | [] => EmptyString
  | [x] => x
  | x :: xs' => (x ++ sep ++ join sep xs')%string
  end.

(** [str.lower()] on the ASCII letters. *)
Definition lower_ascii (c : ascii) : ascii :=
  let n := nat_of_ascii c in
  if (Nat.leb 65 n && Nat.leb n 90)%bool then ascii_of_nat (n + 32) else c.

Fixpoint lower (s : string) : string :=
  match s with
  | EmptyString => EmptyString
  | String c s' => String (lower_ascii c) (lower s')
  end.

(** [np.log1p]: ln(1+x) where that is a finite number, i.e. for x > -1
    (the float result is -inf at -1 and NaN below; both are [None]). *)
Definition log1p (x : Q) : option R :=
  if Qltb (-1) x then Some (ln (1 + Q2R x)) else None.

(** [np.expm1]. *)
Definition expm1 (x : R) : R := (exp x - 1)%R.

(** ** clean_data.py : SettlementDataCleaner *)

Module Cleaner.

Local Open Scope Q_scope.

(** A parsed calendar date (what [pd.to_datetime] yields for the cell). *)
Record Date : Type := { year : Z; month : Z; day : Z }.

(** A cell of the [amount] column: missing (None / NaN), a finite number
    (or text that reads as one), or text that [pd.to_numeric] cannot read.
    Infinite amounts, which the outlier filter removes, are not
    represented. *)
Inductive AmountCell : Type :=
| AmountNull
| AmountNum (q : Q)
| AmountText (s : string).

(** A cell of the [whistleblower] column. *)
Inductive WhistleCell : Type :=
| WNull
| WBool (b : bool)
| WInt (z : Z).

(** One row of [self.data].  The first seven columns come from the file;
    the others are written by the cleaning steps ([None] is NaN / NaT).
    The [date] cell holds the date the text denotes, [None] when it is
    missing or unparseable.  [log_amount] and [fraud_severity], which
    [create_features] writes from [amount_2024] and [fraud_type] of the same
    row, are the functions [log_amount] and [fraud_severity] below. *)
Record Row : Type := {
  defendant : option string;
  amount : AmountCell;
  date : option Date;
  fraud_type : option string;
  industry : option string;
  jurisdiction : option string;
  whistleblower : WhistleCell;
  settlement_date : option Date;
  settlement_year : option Z;
  amount_2024 : option Q;
  fraud_type_code : option Z;
  industry_code : option Z;
  jurisdiction_code : option Z;
  defendant_size : option Z
}.

Definition DataFrame : Type := list Row.

(** *** clean_amounts *)

Definition isna_amount (c : AmountCell) : bool :=
  match c with AmountNull => true | _ => false end.

(** [pd.to_numeric(.., errors='coerce')]. *)
Definition to_numeric (c : AmountCell) : AmountCell :=
  match c with
  | AmountText _ => AmountNull
  | _ => c
  end.

Definition with_amount (a : AmountCell) (r : Row) : Row :=
  {| defendant := defendant r; amount := a; date := date r;
     fraud_type := fraud_type r; industry := industry r;
     jurisdiction := jurisdiction r; whistleblower := whistleblower r;
     settlement_date := settlement_date r; settlement_year := settlement_year r;
     amount_2024 := amount_2024 r; fraud_type_code := fraud_type_code r;
     industry_code := industry_code r; jurisdiction_code := jurisdiction_code r;
     defendant_size := defendant_size r |}.

(** [(amount > 1_000_000_000) | (amount < 10_000)]; both comparisons are
    False on NaN. *)
Definition outlier (c : AmountCell) : bool :=
  match c with
  | AmountNum a => Qltb 1000000000 a || Qltb a 10000
  | _ => false
  end.

(** The statistics kept in [self.stats] and the log lines do not change the
    frame and are left out. *)
Definition clean_amounts (data : DataFrame) : DataFrame :=
  let data := filter (fun r => negb (isna_amount (amount r))) data in
  let data := map (fun r => with_amount (to_numeric (amount r)) r) data in
  filter (fun r => negb (outlier (amount r))) data.

(** *** clean_dates and _adjust_for_inflation *)

Definition cpi_multipliers : list (Z * Q) :=
  [ (2024%Z, 1.00); (2023%Z, 1.04); (2022%Z, 1.12); (2021%Z, 1.17);
    (2020%Z, 1.21); (2019%Z, 1.24); (2018%Z, 1.28); (2017%Z, 1.31);
    (2016%Z, 1.34); (2015%Z, 1.34); (2014%Z, 1.37); (2013%Z, 1.40);
    (2012%Z, 1.43); (2011%Z, 1.47); (2010%Z, 1.51) ].

Fixpoint cpi_get (d : list (Z * Q)) (y : Z) (default : Q) : Q :=
  match d with
  | [] => default
  | (y', m) :: d' => if Z.eqb y y' then m else cpi_get d' y default
  end.

Definition multiplier (y : Z) : Q := cpi_get cpi_multipliers y 1.5.

(** The float in an amount cell after [to_numeric] (NaN is [None]). *)
Definition amount_value (c : AmountCell) : option Q :=
  match c with
  | AmountNum a => Some a
  | _ => None
  end.

Definition _adjust_for_inflation (amount : option Q) (y : Z) : option Q :=
  option_map (fun a => a * multiplier y) amount.

Definition with_dates (d : Date) (r : Row) : Row :=
  {| defendant := defendant r; amount := amount r; date := date r;
     fraud_type := fraud_type r; industry := industry r;
     jurisdiction := jurisdiction r; whistleblower := whistleblower r;
     settlement_date := Some d; settlement_year := Some (year d);
     amount_2024 := _adjust_for_inflation (amount_value (amount r)) (year d);
     fraud_type_code := fraud_type_code r;
     industry_code := industry_code r; jurisdiction_code := jurisdiction_code r;
     defendant_size := defendant_size r |}.

(** Rows whose date is NaT are removed; the others get [settlement_date],
    [settlement_year] and [amount_2024]. *)
Fixpoint clean_dates (data : DataFrame) : DataFrame :=
  match data with
  | [] => []
  | r :: data' =>
      match date r with
      | None => clean_dates data'
      | Some d => with_dates d r :: clean_dates data'
      end
  end.

(** *** encode_categories *)

Definition fraud_type_mapping : list (string * Z) :=
  [ ("healthcare"%string, 0%Z); ("defense"%string, 1%Z); ("covid"%string, 2%Z);
    ("procurement"%string, 3%Z); ("grant"%string, 4%Z); ("housing"%string, 5%Z);
    ("education"%string, 6%Z); ("other"%string, 7%Z) ].

Definition industry_mapping : list (string * Z) :=
  [ ("healthcare"%string, 0%Z); ("defense_contractor"%string, 1%Z);
    ("pharmaceutical"%string, 2%Z); ("technology"%string, 3%Z);
    ("construction"%string, 4%Z); ("education"%string, 5%Z);
    ("financial"%string, 6%Z); ("other"%string, 7%Z) ].

Definition fillna (default : string) (c : option string) : string :=
  match c with
  | Some s => s
  | None => default
  end.

(** [pd.Categorical(column)]: the categories are the distinct values in
    sorted order, the code of a value is its position among them. *)
Fixpoint insert_sorted (s : string) (l : list string) : list string :=
  match l with
  | [] => [s]
  | x :: l' => if String.leb s x then s :: l else x :: insert_sorted s l'
  end.

Fixpoint sort_strings (l : list string) : list string :=
  match l with
  | [] => []
  | x :: l' => insert_sorted x (sort_strings l')
  end.

Definition categories (column : list string) : list string :=
  sort_strings (nodup string_dec column).

Fixpoint index_of (s : string) (l : list string) : option Z :=
  match l with
  | [] => None
  | x :: l' =>
      if String.eqb s x then Some 0%Z
      else option_map Z.succ (index_of s l')
  end.

Definition categorical_code (column : list string) (s : string) : option Z :=
  index_of s (categories column).

(** [fillna(False).astype(int)]. *)
Definition whistle_int (w : WhistleCell) : Z :=
  match w with
  | WNull => 0%Z
  | WBool b => if b then 1%Z else 0%Z
  | WInt z => z
  end.

Definition encode_row (jcolumn : list string) (r : Row) : Row :=
  let ft := fillna "other" (fraud_type r) in
  let ind := fillna "other" (industry r) in
  let j := fillna "Unknown" (jurisdiction r) in
  {| defendant := defendant r; amount := amount r; date := date r;
     fraud_type := Some ft; industry := Some ind;
     jurisdiction := Some j;
     whistleblower := WInt (whistle_int (whistleblower r));
     settlement_date := settlement_date r; settlement_year := settlement_year r;
     amount_2024 := amount_2024 r;
     fraud_type_code := dict_get fraud_type_mapping ft;
     industry_code := dict_get industry_mapping ind;
     jurisdiction_code := categorical_code jcolumn j;
     defendant_size := defendant_size r |}.

Definition encode_categories (data : DataFrame) : DataFrame :=
  let jcolumn := map (fun r => fillna "Unknown" (jurisdiction r)) data in
  map (encode_row jcolumn) data.

(** *** create_features *)

(** A bin edge of [pd.cut]: a number or [float('inf')]. *)
Inductive Edge : Type :=
| Fin (q : Q)
| Inf.

Definition gt_edge (x : Q) (e : Edge) : bool :=
  match e with Fin q => Qltb q x | Inf => false end.

Definition le_edge (x : Q) (e : Edge) : bool :=
  match e with Fin q => Qle_bool x q | Inf => true end.

(** [pd.cut(x, bins, labels)] with its defaults [right=True],
    [include_lowest=False]: the label of the interval (lo, hi] holding [x],
    NaN when no interval does. *)
Fixpoint cut (x : Q) (bins : list Edge) (labels : list Z) : option Z :=
  match bins, labels with
  | lo :: ((hi :: _) as bins'), lab :: labels' =>
      if gt_edge x lo && le_edge x hi then Some lab else cut x bins' labels'
  | _, _ => None
  end.

Definition size_bins : list Edge := [Fin 0; Fin 1000000; Fin 10000000; Inf].
Definition size_labels : list Z := [0%Z; 1%Z; 2%Z].

Definition cut_size (x : option Q) : option Z :=
  match x with
  | Some q => cut q size_bins size_labels
  | None => None
  end.

Definition with_size (r : Row) : Row :=
  {| defendant := defendant r; amount := amount r; date := date r;
     fraud_type := fraud_type r; industry := industry r;
     jurisdiction := jurisdiction r; whistleblower := whistleblower r;
     settlement_date := settlement_date r; settlement_year := settlement_year r;
     amount_2024 := amount_2024 r; fraud_type_code := fraud_type_code r;
     industry_code := industry_code r; jurisdiction_code := jurisdiction_code r;
     defendant_size := cut_size (amount_2024 r) |}.

Definition isna_size (r : Row) : bool :=
  match cut_size (amount_2024 r) with None => true | Some _ => false end.

(** [.astype(int)] on the categorical column raises when a label is NaN. *)
Definition create_features (data : DataFrame) : result DataFrame :=
  if existsb isna_size data
  then Raise "ValueError: Cannot convert float NaN to integer"
  else Ok (map with_size data).

Definition severity_weights : list (string * Q) :=
  [ ("healthcare"%string, 1.2); ("defense"%string, 1.5); ("covid"%string, 1.3);
    ("procurement"%string, 1.0); ("grant"%string, 0.8); ("housing"%string, 1.1);
    ("education"%string, 0.9); ("other"%string, 1.0) ].

Definition log_amount (r : Row) : option R :=
  match amount_2024 r with
  | Some a => log1p a
  | None => None
  end.

Definition fraud_severity (r : Row) : option R :=
  let w := match fraud_type r with
           | Some ft => dict_get_default severity_weights ft 1.0
           | None => 1.0
           end in
  option_map (fun l => (l * Q2R w)%R) (log_amount r).

(** *** remove_duplicates *)

Definition opt_string_eqb (a b : option string) : bool :=
  match a, b with
  | Some x, Some y => String.eqb x y
  | None, None => true
  | _, _ => false
  end.

Definition opt_Z_eqb (a b : option Z) : bool :=
  match a, b with
  | Some x, Some y => Z.eqb x y
  | None, None => true
  | _, _ => false
  end.

(** Equality of two amount cells as [drop_duplicates] sees them: equal
    numbers, or both missing. *)
Definition amount_eqb (a b : AmountCell) : bool :=
  match a, b with
  | AmountNum x, AmountNum y => Qeq_bool x y
  | AmountNull, AmountNull => true
  | AmountText s, AmountText s' => String.eqb s s'
  | _, _ => false
  end.

(** Same (defendant, amount, settlement_year). *)
Definition same_triple (r1 r2 : Row) : bool :=
  opt_string_eqb (defendant r1) (defendant r2)
  && amount_eqb (amount r1) (amount r2)
  && opt_Z_eqb (settlement_year r1) (settlement_year r2).

(** [drop_duplicates(subset=..)], keeping the first occurrence. *)
Fixpoint drop_duplicates (seen : list Row) (data : DataFrame) : DataFrame :=
  match data with
  | [] => []
  | r :: data' =>
      if existsb (same_triple r) seen then drop_duplicates seen data'
      else r :: drop_duplicates (r :: seen) data'
  end.

Definition remove_duplicates (data : DataFrame) : DataFrame :=
  drop_duplicates [] data.

(** *** validate_data *)

(** The columns of [self.data] once the five steps have run. *)
Definition columns : list string :=
  [ "defendant"; "amount"; "date"; "fraud_type"; "industry"; "jurisdiction";
    "whistleblower"; "settlement_date"; "settlement_year"; "amount_2024";
    "fraud_type_code"; "industry_code"; "jurisdiction_code"; "log_amount";
    "defendant_size"; "fraud_severity" ]%string.

Definition required_cols : list string :=
  [ "amount_2024"; "fraud_type_code"; "industry_code"; "jurisdiction_code";
    "whistleblower" ]%string.

Definition insufficient_data : string := "Insufficient data".
Definition missing_required_columns : string := "Missing required columns".
Definition negative_or_zero : string := "Negative or zero amounts found".

(** [(self.data['amount_2024'] <= 0).any()]; the comparison is False on NaN. *)
Definition nonpositive (r : Row) : bool :=
  match amount_2024 r with
  | Some a => Qle_bool a 0
  | None => false
  end.

(** The list [issues] that [validate_data] builds. *)
Definition issues (data : DataFrame) : list string :=
  ((if Nat.ltb (List.length data) 20 then [insufficient_data] else [])
   ++ (match filter (fun c => negb (str_in c columns)) required_cols with
       | [] => []
       | _ :: _ => [missing_required_columns]
       end)
   ++ (if existsb nonpositive data then [negative_or_zero] else []))%list.

Definition validate_data (data : DataFrame) : bool * list string :=
  match issues data with
  | [] => (true, [])
  | i :: rest => (false, i :: rest)
  end.

(** *** clean_all *)

(** The steps of [clean_all] up to the call of [validate_data]; the argument
    is the frame [load_data] read. *)
Definition clean_steps (data : DataFrame) : result DataFrame :=
  let data := clean_amounts data in
  let data := clean_dates data in
  let data := encode_categories data in
  data <- create_features data ;;
  Ok (remove_duplicates data).

Definition clean_all (data : DataFrame) : result DataFrame :=
  data <- clean_steps data ;;
  if fst (validate_data data) then Ok data
  else Raise "ValueError: Data validation failed. Check logs for details.".

End Cleaner.

(** ** feature_engineering.py : SettlementFeatureEngine *)

Module FeatureEngine.

Local Open Scope Z_scope.

(** A fitted [StandardScaler]: per-column mean and scale. *)
Record StandardScaler : Type := {
  mean_ : list Q;
  scale_ : list Q
}.

(** The engine owns a scaler, [None] until it is fitted or loaded. *)
Record SettlementFeatureEngine : Type := {
  scaler : option StandardScaler
}.

(** [SettlementFeatureEngine()]. *)
Definition new_engine : SettlementFeatureEngine := {| scaler := None |}.

(** A float cell of the one-row frame of a query: a finite number, NaN or
    an infinity. *)
Inductive Cell : Type :=
| Finite (x : R)
| NaN
| PosInf
| NegInf.

(** [np.log1p] on the damages of a query: minus infinity at -1, NaN
    below. *)
Definition log1p_cell (x : Q) : Cell :=
  match log1p x with
  | Some v => Finite v
  | None => if Qeq_bool x (-1) then NegInf else NaN
  end.

(** [cell * weight]. *)
Definition times (c : Cell) (weight : Q) : Cell :=
  match c with
  | Finite v => Finite (v * Q2R weight)
  | NaN => NaN
  | PosInf =>
      if Qltb 0 weight then PosInf else if Qltb weight 0 then NegInf else NaN
  | NegInf =>
      if Qltb 0 weight then NegInf else if Qltb weight 0 then PosInf else NaN
  end.

(** The one-row frame [create_prediction_input] builds: the dict literal
    and the [fraud_severity] column added after it. *)
Record Case : Type := {
  fraud_type_code : Z;
  industry_code : Z;
  jurisdiction_code : Z;
  whistleblower : Z;
  defendant_size : Z;
  settlement_year : Z;
  log_amount : Cell;
  fraud_severity : Cell
}.

(** The columns [create_features] adds. *)
Record Derived : Type := {
  industry_fraud_interaction : Z;
  years_since_2010 : Z;
  whistleblower_fraud_interaction : Z;
  jurisdiction_risk : Z;
  size_fraud_interaction : Z
}.

Definition create_features (c : Case) : Derived :=
  {| industry_fraud_interaction := industry_code c * fraud_type_code c;
     years_since_2010 := settlement_year c - 2010;
     whistleblower_fraud_interaction := whistleblower c * fraud_type_code c;
     jurisdiction_risk := jurisdiction_code c mod 3;
     size_fraud_interaction := defendant_size c * fraud_type_code c |}.

Definition feature_columns : list string :=
  [ "fraud_type_code"; "industry_code"; "jurisdiction_code"; "whistleblower";
    "defendant_size"; "settlement_year"; "fraud_severity";
    "industry_fraud_interaction"; "years_since_2010";
    "whistleblower_fraud_interaction"; "jurisdiction_risk";
    "size_fraud_interaction" ]%string.

(** The frame after [create_features], as a dict from column name to cell. *)
Definition frame (c : Case) (d : Derived) : list (string * Cell) :=
  [ ("fraud_type_code", Finite (IZR (fraud_type_code c)));
    ("industry_code", Finite (IZR (industry_code c)));
    ("jurisdiction_code", Finite (IZR (jurisdiction_code c)));
    ("whistleblower", Finite (IZR (whistleblower c)));
    ("defendant_size", Finite (IZR (defendant_size c)));
    ("settlement_year", Finite (IZR (settlement_year c)));
    ("log_amount", log_amount c);
    ("fraud_severity", fraud_severity c);
    ("industry_fraud_interaction", Finite (IZR (industry_fraud_interaction d)));
    ("years_since_2010", Finite (IZR (years_since_2010 d)));
    ("whistleblower_fraud_interaction",
      Finite (IZR (whistleblower_fraud_interaction d)));
    ("jurisdiction_risk", Finite (IZR (jurisdiction_risk d)));
    ("size_fraud_interaction", Finite (IZR (size_fraud_interaction d))) ]%string.

(** [data[self.feature_columns]]: the twelve cells in feature order. *)
Definition select (c : Case) (d : Derived) : list Cell :=
  map (fun name => dict_get_default (frame c d) name NaN) feature_columns.

(** [X.fillna(X.median())] on a one-row frame: the median of a column is
    its only cell, so a NaN cell is filled with NaN and every other cell is
    left as it is. *)
Definition fillna_median (x : Cell) : Cell :=
  match x with
  | NaN => NaN
  | _ => x
  end.

Definition is_infinite (x : Cell) : bool :=
  match x with
  | PosInf | NegInf => true
  | _ => false
  end.

(** [(x - mean_) / scale_], column by column; NaN stays NaN ([None]). *)
Fixpoint standardize (X : list Cell) (means scales : list Q)
  : list (option R) :=
  match X, means, scales with
  | x :: X', m :: means', s :: scales' =>
      match x with
      | Finite v => Some ((v - Q2R m) / Q2R s)%R
      | _ => None
      end :: standardize X' means' scales'
  | _, _, _ => []
  end.

(** [self.scaler.transform(X)]: sklearn raises on an unfitted scaler, on
    an infinite cell and on a wrong number of columns, in this order; it
    validates with [force_all_finite='allow-nan'], so a NaN cell is let
    through. *)
Definition scaler_transform (sc : option StandardScaler) (X : list Cell)
  : result (list (option R)) :=
  match sc with
  | None => Raise "NotFittedError: This StandardScaler instance is not fitted yet"
  | Some sc =>
      if existsb is_infinite X
      then Raise "ValueError: Input X contains infinity or a value too large for dtype('float64')."
      else if (Nat.eqb (List.length X) (List.length (mean_ sc))
               && Nat.eqb (List.length X) (List.length (scale_ sc)))%bool
      then Ok (standardize X (mean_ sc) (scale_ sc))
      else Raise "ValueError: X has a different number of features"
  end.

Definition transform_new_data (engine : SettlementFeatureEngine) (c : Case)
  : result (list (option R)) :=
  let d := create_features c in
  let X := select c d in
  let X := map fillna_median X in
  scaler_transform (scaler engine) X.

Definition fraud_type_mapping : list (string * Z) :=
  [ ("healthcare", 0); ("defense", 1); ("covid", 2); ("procurement", 3);
    ("grant", 4); ("housing", 5); ("education", 6); ("other", 7) ]%string.

Definition industry_mapping : list (string * Z) :=
  [ ("healthcare", 0); ("defense_contractor", 1); ("pharmaceutical", 2);
    ("technology", 3); ("construction", 4); ("education", 5);
    ("financial", 6); ("other", 7) ]%string.

Definition severity_weights : list (string * Q) :=
  [ ("healthcare", 1.2%Q); ("defense", 1.5%Q); ("covid", 1.3%Q);
    ("procurement", 1.0%Q); ("grant", 0.8%Q); ("housing", 1.1%Q);
    ("education", 0.9%Q); ("other", 1.0%Q) ]%string.

(** The [if / elif / else] on [damages_claimed]. *)
Definition estimate_defendant_size (damages_claimed : Q) : Z :=
  if Qltb damages_claimed 1000000 then 0
  else if Qltb damages_claimed 10000000 then 1
  else 2.

Section PythonHash.

(** Python's built-in [hash] on strings (salted per process). *)
Variable hash : string -> Z.

Definition hashed_jurisdiction_code (jurisdiction : string) : Z :=
  hash jurisdiction mod 50.

Definition prediction_case (fraud_type : string) (damages_claimed : Q)
    (industry jurisdiction : string) (whistleblower_present : bool)
    (settlement_year : Z) : Case :=
  let weight := dict_get_default severity_weights (lower fraud_type) 1.0%Q in
  {| fraud_type_code := dict_get_default fraud_type_mapping (lower fraud_type) 7;
     industry_code := dict_get_default industry_mapping (lower industry) 7;
     jurisdiction_code := hashed_jurisdiction_code jurisdiction;
     whistleblower := if whistleblower_present then 1 else 0;
     defendant_size := estimate_defendant_size damages_claimed;
     settlement_year := settlement_year;
     log_amount := log1p_cell damages_claimed;
     fraud_severity := times (log1p_cell damages_claimed) weight |}.

(** [create_prediction_input]: the case row, then [transform_new_data]
    (the call of [create_features] before it recomputes the same derived
    columns). *)
Definition create_prediction_input (engine : SettlementFeatureEngine)
    (fraud_type : string) (damages_claimed : Q)
    (industry jurisdiction : string) (whistleblower_present : bool)
    (settlement_year : Z) : result (list (option R)) :=
  transform_new_data engine
    (prediction_case fraud_type damages_claimed industry jurisdiction
       whistleblower_present settlement_year).

End PythonHash.

End FeatureEngine.

(** ** train_model.py : SettlementPredictor *)

Module Predictor.

Import FeatureEngine.

(** A fitted regression tree of the ensemble: [tree.predict(X)[0]] walks
    from the root, going left when the tested feature is at most the
    threshold, and returns the value of the leaf it reaches.  Where the
    tested feature is NaN, a tree that takes NaN goes to the side its node
    records as [missing_go_to_left]. *)
Inductive DecisionTree : Type :=
| Leaf (value : Q)
| Node (feature : nat) (threshold : Q) (missing_go_to_left : bool)
       (left right : DecisionTree).

Fixpoint tree_predict (t : DecisionTree) (X : list (option R)) : Q :=
  match t with
  | Leaf v => v
  | Node f th missing_go_to_left l r =>
      match nth f X (Some 0%R) with
      | Some x =>
          if Rle_dec x (Q2R th) then tree_predict l X else tree_predict r X
      | None =>
          if missing_go_to_left then tree_predict l X else tree_predict r X
      end
  end.

(** The row holds a NaN. *)
Definition has_nan (X : list (option R)) : bool :=
  existsb (fun x => match x with None => true | Some _ => false end) X.

(** [estimators_] of a fitted forest; sklearn refuses [n_estimators < 1],
    so there is a first tree. *)
Record Estimators : Type := {
  first_tree : DecisionTree;
  more_trees : list DecisionTree
}.

Definition trees (e : Estimators) : list DecisionTree :=
  first_tree e :: more_trees e.

(** [RandomForestRegressor]: the attribute [estimators_] exists only after
    [fit] ([None] before). *)
Record RandomForestRegressor : Type := {
  estimators_ : option Estimators
}.

Record SettlementPredictor : Type := {
  model : RandomForestRegressor;
  feature_engine : SettlementFeatureEngine
}.

(** [SettlementPredictor()]: an unfitted forest and a fresh engine. *)
Definition new_predictor : SettlementPredictor :=
  {| model := {| estimators_ := None |}; feature_engine := new_engine |}.

(** [load_model]: both attributes are replaced by the unpickled objects. *)
Definition load_model (p : SettlementPredictor) (m : RandomForestRegressor)
    (sc : option StandardScaler) : SettlementPredictor :=
  {| model := m; feature_engine := {| scaler := sc |} |}.

Local Open Scope Q_scope.

Fixpoint insert_Q (x : Q) (l : list Q) : list Q :=
  match l with
  | [] => [x]
  | y :: l' => if Qle_bool x y then x :: l else y :: insert_Q x l'
  end.

Fixpoint sort_Q (l : list Q) : list Q :=
  match l with
  | [] => []
  | x :: l' => insert_Q x (sort_Q l')
  end.

(** Linear interpolation in a sorted array [s] at the virtual index
    [pos / 100]: the index is split into its floor and its fractional part
    [gamma], and the result lies [gamma] of the way from the element at the
    floor to the next one (the last one at the end of the array). *)
Definition interpolate (s : list Q) (pos : Z) : Q :=
  let n := Z.of_nat (List.length s) in
  let lo := (pos / 100)%Z in
  let hi := Z.min (lo + 1) (n - 1) in
  let gamma := (pos mod 100)%Z # 100 in
  let below := nth (Z.to_nat lo) s 0 in
  let above := nth (Z.to_nat hi) s 0 in
  below + gamma * (above - below).

(** [np.percentile(a, q)] with the default method: linear interpolation in
    the sorted array at the virtual index q/100 * (n-1), kept here in
    hundredths. *)
Definition percentile (a : list Q) (q : Z) : Q :=
  let s := sort_Q a in
  let n := Z.of_nat (List.length s) in
  interpolate s (q * (n - 1)).

Definition sum_Q (a : list Q) : Q := fold_right Qplus 0 a.

Definition mean (a : list Q) : Q := sum_Q a / inject_Z (Z.of_nat (List.length a)).

(** [np.std(a)]: the square root of the mean squared deviation. *)
Definition variance (a : list Q) : Q :=
  let m := mean a in
  mean (map (fun x => (x - m) * (x - m)) a).

Definition std (a : list Q) : R := sqrt (Q2R (variance a)).

(** The dict [predict_settlement_range] returns. *)
Record Prediction : Type := {
  predicted_low : R;
  predicted_mid : R;
  predicted_high : R;
  confidence : R;
  input_damages : Q
}.

Section PythonHash.

Variable hash : string -> Z.

(** Whether [DecisionTreeRegressor.predict] takes a row holding NaN, which
    depends on the scikit-learn installed: from 1.3 on it does, before it
    raises a ValueError. *)
Variable trees_accept_nan : bool.

Definition predict_settlement_range (p : SettlementPredictor)
    (fraud_type : string) (damages_claimed : Q)
    (industry jurisdiction : string) (whistleblower_present : bool)
    (settlement_year : Z) : result Prediction :=
  X <- create_prediction_input hash (feature_engine p) fraud_type
         damages_claimed industry jurisdiction whistleblower_present
         settlement_year ;;
  match estimators_ (model p) with
  | None =>
      Raise "AttributeError: 'RandomForestRegressor' object has no attribute 'estimators_'"
  | Some e =>
      if has_nan X && negb trees_accept_nan
      then Raise "ValueError: Input X contains NaN."
      else
      let tree_predictions := map (fun tree => tree_predict tree X) (trees e) in
      let pred_25 := percentile tree_predictions 25 in
      let pred_50 := percentile tree_predictions 50 in
      let pred_75 := percentile tree_predictions 75 in
      let pred_std := std tree_predictions in
      Ok {| predicted_low := expm1 (Q2R pred_25);
            predicted_mid := expm1 (Q2R pred_50);
            predicted_high := expm1 (Q2R pred_75);
            confidence := (1 - Rmin (pred_std / 2) (1 / 2))%R;
            input_damages := damages_claimed |}
  end.

End PythonHash.

End Predictor.

(** ** predict_api.py : the FastAPI application *)

Module Serving.

Import FeatureEngine Predictor.

(** The pydantic model [PredictionRequest]. *)
Record PredictionRequest : Type := {
  fraud_type : string;
  damages_claimed : Q;
  industry : string;
  jurisdiction : string;
  whistleblower_present : bool;
  settlement_year : Z
}.

(** The [Field] constraints: [gt=0] on damages_claimed, [ge=2010] and
    [le=2030] on settlement_year. *)
Definition field_constraints (r : PredictionRequest) : bool :=
  Qltb 0 (damages_claimed r)
  && (2010 <=? settlement_year r)%Z && (settlement_year r <=? 2030)%Z.

(** What a handler answers: a body, or [HTTPException(status_code, detail)]. *)
Inductive Response (A : Type) : Type :=
| Body (a : A)
| HTTPException (status_code : Z) (detail : string).
Arguments Body {A} a.
Arguments HTTPException {A} status_code detail.

Definition status_code_of {A : Type} (r : Response A) : Z :=
  match r with
  | Body _ => 200%Z
  | HTTPException c _ => c
  end.

(** A file of the models directory: missing, unreadable by [joblib.load],
    or holding a pickled object. *)
Inductive File (A : Type) : Type :=
| Absent
| Unreadable
| Stored (a : A).
Arguments Absent {A}.
Arguments Unreadable {A}.
Arguments Stored {A} a.

Record ModelsDir : Type := {
  settlement_model_latest : File RandomForestRegressor;
  feature_scaler_latest : File (option StandardScaler)
}.

Definition exists_ {A : Type} (f : File A) : bool :=
  match f with Absent => false | _ => true end.

(** The startup hook: the value of the global [predictor] afterwards. *)
Definition load_model (dir : ModelsDir) : option SettlementPredictor :=
  let predictor := new_predictor in
  if exists_ (settlement_model_latest dir) && exists_ (feature_scaler_latest dir)
  then
    match settlement_model_latest dir, feature_scaler_latest dir with
    | Stored m, Stored sc => Some (Predictor.load_model predictor m sc)
    | _, _ => None
    end
  else Some predictor.

(** The body of [GET /], the timestamp left out. *)
Record HealthResponse : Type := {
  health_status : string;
  model_loaded : bool
}.

(** The handler of [GET /].  The dict is built entry by entry, [status]
    first: [predictor and predictor.model] takes the truth value of the
    forest, which is [len(self.estimators_)], an AttributeError on a forest
    that was never fitted and at least 1 on a fitted one.  [model_loaded]
    is [predictor is not None and hasattr(predictor, 'model')], and
    [SettlementPredictor.__init__] always sets [model]. *)
Definition health_check (predictor : option SettlementPredictor)
  : result HealthResponse :=
  match predictor with
  | None => Ok {| health_status := "model_not_loaded"; model_loaded := false |}
  | Some p =>
      match estimators_ (model p) with
      | None =>
          Raise "AttributeError: 'RandomForestRegressor' object has no attribute 'estimators_'"
      | Some _ => Ok {| health_status := "healthy"; model_loaded := true |}
      end
  end.

Definition valid_fraud_types : list string :=
  [ "healthcare"; "defense"; "covid"; "procurement"; "grant"; "housing";
    "education"; "other" ]%string.

Definition valid_industries : list string :=
  [ "healthcare"; "defense_contractor"; "pharmaceutical"; "technology";
    "construction"; "education"; "financial"; "other" ]%string.

(** One entry of the [results] list of the batch endpoint. *)
Record BatchItem : Type := {
  input : PredictionRequest;
  prediction : option Prediction;
  error : option string;
  status : string
}.

Record BatchResponse : Type := {
  total : nat;
  successful : nat;
  failed : nat;
  results : list BatchItem
}.

Section PythonHash.

Variable hash : string -> Z.
Variable trees_accept_nan : bool.

Definition call_predictor (p : SettlementPredictor) (req : PredictionRequest)
  : result Prediction :=
  predict_settlement_range hash trees_accept_nan p (fraud_type req)
    (damages_claimed req) (industry req) (jurisdiction req)
    (whistleblower_present req) (settlement_year req).

(** The handler of [POST /predict]. *)
Definition predict_settlement (predictor : option SettlementPredictor)
    (request : PredictionRequest) : Response Prediction :=
  match predictor with
  | None => HTTPException 503 "Model not loaded. Please train the model first."
  | Some p =>
      if negb (str_in (lower (fraud_type request)) valid_fraud_types)
      then HTTPException 400
             ("Invalid fraud_type. Must be one of: " ++ join ", " valid_fraud_types)
      else if negb (str_in (lower (industry request)) valid_industries)
      then HTTPException 400
             ("Invalid industry. Must be one of: " ++ join ", " valid_industries)
      else
        match call_predictor p request with
        | Ok prediction => Body prediction
        | Raise e => HTTPException 500 ("Prediction failed: " ++ e)
        end
  end.

(** The body of the batch loop, a [try / except] around the predictor: the
    entry appended to [results] for one request. *)
Definition batch_item (p : SettlementPredictor) (req : PredictionRequest)
  : BatchItem :=
  match call_predictor p req with
  | Ok prediction =>
      {| input := req; prediction := Some prediction; error := None;
         status := "success" |}
  | Raise e =>
      {| input := req; prediction := None; error := Some e;
         status := "failed" |}
  end.

(** The [for req in requests] loop: the results in request order, and the
    requests handed to the predictor. *)
Fixpoint batch_loop (p : SettlementPredictor) (requests : list PredictionRequest)
  : list BatchItem * list PredictionRequest :=
  match requests with
  | [] => ([], [])
  | req :: requests' =>
      let item := batch_item p req in
      let (items, calls) := batch_loop p requests' in
      (item :: items, req :: calls)
  end.

Definition count_status (s : string) (items : list BatchItem) : nat :=
  List.length (filter (fun r => String.eqb (status r) s) items).

(** The handler of [POST /batch-predict]; the second component lists the
    requests that reached the predictor. *)
Definition batch_predict (predictor : option SettlementPredictor)
    (requests : list PredictionRequest)
  : Response BatchResponse * list PredictionRequest :=
  match predictor with
  | None => (HTTPException 503 "Model not loaded", [])
  | Some p =>
      if Nat.ltb 100 (List.length requests)
      then (HTTPException 400 "Batch size limited to 100 predictions", [])
      else
        let (items, calls) := batch_loop p requests in
        (Body {| total := List.length requests;
                 successful := count_status "success" items;
                 failed := count_status "failed" items;
                 results := items |}, calls)
  end.

(** FastAPI checks the request body against the declared parameter type
    before it calls the handler, and answers 422 when a [Field] constraint
    fails on the body (or on any element of a list body). *)
Definition post_predict (predictor : option SettlementPredictor)
    (body : PredictionRequest) : Response Prediction :=
  if field_constraints body then predict_settlement predictor body
  else HTTPException 422 "Unprocessable Entity".

Definition post_batch_predict (predictor : option SettlementPredictor)
    (body : list PredictionRequest)
  : Response BatchResponse * list PredictionRequest :=
  if forallb field_constraints body then batch_predict predictor body
  else (HTTPException 422 "Unprocessable Entity", []).

End PythonHash.

End Serving.

(** ** Preconditions and sample inputs *)

Module Samples.

Import Cleaner.
Local Open Scope Q_scope.

(** A row as the file holds it: no derived column yet. *)
Definition raw_row (who : option string) (a : AmountCell) (d : option Date)
    (ft ind court : option string) (w : WhistleCell) : Row :=
  {| defendant := who; amount := a; date := d; fraud_type := ft;
     industry := ind; jurisdiction := court; whistleblower := w;
     settlement_date := None; settlement_year := None; amount_2024 := None;
     fraud_type_code := None; industry_code := None;
     jurisdiction_code := None; defendant_size := None |}.

Definition courts : list string :=
  [ "Southern District of New York"; "District of Columbia";
    "Northern District of California" ]%string.

(** Twenty settlements, one per year from 2005 to 2024. *)
Definition sample_row (i : nat) : Row :=
  raw_row (Some "Acme Health"%string)
    (AmountNum (inject_Z (25000 * (Z.of_nat i + 1))))
    (Some {| year := 2005 + Z.of_nat i; month := 6; day := 15 |})
    (Some (if Nat.even i then "healthcare" else "defense")%string)
    (Some "pharmaceutical"%string)
    (Some (nth (i mod 3) courts "Unknown"%string))
    (WBool (Nat.even i)).

Definition sample_table : DataFrame := map sample_row (seq 0 20).

(** A row that reached [create_features] with the given [amount_2024]. *)
Definition row_worth (a : Q) : Row :=
  {| defendant := Some "Acme Health"%string; amount := AmountNum a;
     date := Some {| year := 2024; month := 6; day := 15 |};
     fraud_type := Some "healthcare"%string;
     industry := Some "pharmaceutical"%string;
     jurisdiction := Some "District of Columbia"%string;
     whistleblower := WInt 1;
     settlement_date := Some {| year := 2024; month := 6; day := 15 |};
     settlement_year := Some 2024%Z; amount_2024 := Some a;
     fraud_type_code := Some 0%Z; industry_code := Some 2%Z;
     jurisdiction_code := Some 0%Z; defendant_size := None |}.

(** The [defendant_size] column [create_features] writes for these values
    of [amount_2024]. *)
Definition sizes_written (amounts : list Q) : result (list (option Z)) :=
  data <- create_features (map row_worth amounts) ;;
  Ok (map defendant_size data).

Definition row_in_court (court : string) : Row :=
  raw_row (Some "Acme Health"%string) (AmountNum 50000)
    (Some {| year := 2020; month := 6; day := 15 |})
    (Some "healthcare"%string) (Some "pharmaceutical"%string)
    (Some court) (WBool true).

(** The table the steps make of [sample_table]. *)
Definition sample_cleaned : DataFrame :=
  Eval vm_compute in
    match clean_steps sample_table with
    | Ok cleaned => cleaned
    | Raise _ => []
    end.

(** Two records of one settlement, filed under two courts, and a second
    settlement. *)
Definition table_with_duplicate : DataFrame :=
  [ row_in_court "District of Columbia";
    row_in_court "Northern District of California";
    raw_row (Some "Borealis Labs"%string) (AmountNum 75000)
      (Some {| year := 2021; month := 3; day := 1 |})
      (Some "grant"%string) (Some "technology"%string)
      (Some "Southern District of New York"%string) (WBool false) ].

End Samples.

(** An already-cleaned table (the precondition of idempotence), and what
    the steps make of the rows of such a table. *)
Module Clean.

Import Cleaner.
Local Open Scope Q_scope.

Definition present {A : Type} (c : option A) : bool :=
  match c with Some _ => true | None => false end.






(** What [clean_amounts] leaves in the amount column: NaN, or a number
    within the two bounds. *)
Definition amount_kept (c : AmountCell) : Prop :=
  c = AmountNull \/ exists a, c = AmountNum a /\ 10000 <= a /\ a <= 1000000000.


(** The rows that reach [validate_data]: a numeric amount within the
    bounds, the year of a parsed date, and the amount times the multiplier
    of that year. *)
Definition adjusted (r : Row) : Prop :=
  exists a y,
    amount r = AmountNum a /\ 10000 <= a /\ a <= 1000000000
    /\ settlement_year r = Some y
    /\ amount_2024 r = Some (a * multiplier y).


(** The jurisdiction column after [fillna('Unknown')]. *)
Definition filled_jurisdictions (data : DataFrame) : list string :=
  map (fun r => fillna "Unknown" (jurisdiction r)) data.


(** No two rows of the frame share their (defendant, amount,
    settlement_year). *)
Fixpoint distinct_triples (data : DataFrame) : bool :=
  match data with
  | [] => true
  | r :: data' => negb (existsb (same_triple r) data') && distinct_triples data'
  end.

End Clean.

(** Sample predictors, requests and model directories. *)
Module Cases.

Import FeatureEngine Predictor Serving.

(** A predictor that can answer: a fitted forest and a scaler fitted on
    the twelve feature columns. *)
Definition is_fitted (p : SettlementPredictor) : bool :=
  match estimators_ (model p), scaler (feature_engine p) with
  | Some _, Some sc =>
      Nat.eqb (List.length (mean_ sc)) 12
      && Nat.eqb (List.length (scale_ sc)) 12
  | _, _ => false
  end.

Definition unit_scaler : StandardScaler :=
  {| mean_ := repeat 0%Q 12; scale_ := repeat 1%Q 12 |}.

Definition sample_forest : RandomForestRegressor :=
  {| estimators_ :=
       Some {| first_tree := Node 4 (1 # 2) true (Leaf 12) (Leaf 15);
               more_trees := [Leaf 13; Node 0 3 false (Leaf 14) (Leaf 16)] |} |}.

Definition sample_predictor : SettlementPredictor :=
  {| model := sample_forest;
     feature_engine := {| scaler := Some unit_scaler |} |}.

Definition sample_request : PredictionRequest :=
  {| fraud_type := "healthcare"; damages_claimed := 10000000;
     industry := "pharmaceutical";
     jurisdiction := "Southern District of New York";
     whistleblower_present := true; settlement_year := 2024 |}.

(** The same case with a fraud type outside the vocabulary. *)
Definition unknown_fraud_request : PredictionRequest :=
  {| fraud_type := "bribery"; damages_claimed := 10000000;
     industry := "pharmaceutical";
     jurisdiction := "Southern District of New York";
     whistleblower_present := true; settlement_year := 2024 |}.

(** The same case with no damages. *)
Definition zero_damages_request : PredictionRequest :=
  {| fraud_type := "healthcare"; damages_claimed := 0;
     industry := "pharmaceutical";
     jurisdiction := "Southern District of New York";
     whistleblower_present := true; settlement_year := 2024 |}.

(** One hundred items, item #50 with [damages_claimed = 0]. *)
Definition batch_with_bad_item_50 : list PredictionRequest :=
  repeat sample_request 49 ++ [zero_damages_request] ++ repeat sample_request 50.

(** One hundred and one valid items. *)
Definition batch_of_101 : list PredictionRequest := repeat sample_request 101.

(** A stand-in for one process's [hash]. *)
Definition sample_hash (s : string) : Z := Z.of_nat (String.length s).

(** The models directory before any training run. *)
Definition empty_models_dir : ModelsDir :=
  {| settlement_model_latest := Absent; feature_scaler_latest := Absent |}.

End Cases.

(** ** Further notions about the cleaner *)

Module CleanerFacts.

Import Cleaner.
Local Open Scope Q_scope.

Definition is_text (c : AmountCell) : bool :=
  match c with AmountText _ => true | _ => false end.

(** A row whose amount is text that no number can be read from, and whose
    date parses: [to_numeric] turns the amount into NaN, the outlier filter
    and [clean_dates] keep the row. *)
Definition nan_amount_survives (r : Row) : bool :=
  is_text (amount r) && Clean.present (date r).

(** The frame handed to [create_features]. *)
Definition encoded (data : DataFrame) : DataFrame :=
  encode_categories (clean_dates (clean_amounts data)).

(** The frame handed to [validate_data] when [create_features] returns. *)
Definition deduplicated (data : DataFrame) : DataFrame :=
  remove_duplicates (map with_size (encoded data)).

(** [duplicated(keep='first')] read literally: a row is a duplicate when
    some earlier row of the frame, kept or not, has the same triple. *)
Fixpoint keep_firsts (earlier : list Row) (data : DataFrame) : DataFrame :=
  match data with
  | [] => []
  | r :: data' =>
      if existsb (same_triple r) earlier then keep_firsts (r :: earlier) data'
      else r :: keep_firsts (r :: earlier) data'
  end.

(** [s <= t] on Python strings. *)
Definition leb_true (s t : string) : Prop := String.leb s t = true.

(** The code [create_prediction_input] gives a fraud type and an industry. *)
Definition query_fraud_code (fraud_type : string) : Z :=
  dict_get_default FeatureEngine.fraud_type_mapping (lower fraud_type) 7%Z.

Definition query_industry_code (industry : string) : Z :=
  dict_get_default FeatureEngine.industry_mapping (lower industry) 7%Z.

(** The label of the right-closed bin holding a positive amount. *)
Definition size_of (a : Q) : Z :=
  if Qle_bool a 1000000 then 0%Z
  else if Qle_bool a 10000000 then 1%Z
  else 2%Z.

(** What a row of a table returned by [clean_all] looks like. *)
Definition cleaned_record (r : Row) : Prop :=
  exists a d ft ind j c w,
    amount r = AmountNum a /\ 10000 <= a /\ a <= 1000000000
    /\ date r = Some d /\ settlement_date r = Some d
    /\ settlement_year r = Some (year d)
    /\ amount_2024 r = Some (a * multiplier (year d))
    /\ 10000 <= a * multiplier (year d)
    /\ fraud_type r = Some ft
    /\ fraud_type_code r = dict_get fraud_type_mapping ft
    /\ industry r = Some ind
    /\ industry_code r = dict_get industry_mapping ind
    /\ jurisdiction r = Some j
    /\ jurisdiction_code r = Some c /\ (0 <= c)%Z
    /\ whistleblower r = WInt w
    /\ defendant_size r = Some (size_of (a * multiplier (year d))).

End CleanerFacts.

(** ** clean_data.py : the cleaner as an object *)

Module CleanerObject.

Import Cleaner.
Local Open Scope Q_scope.

(** The dict stored under [self.stats['amount']] ([None] is NaN). *)
Record AmountStatistics : Type := {
  stat_min : option Q;
  stat_max : option Q;
  stat_mean : option Q;
  stat_median : option Q;
  stat_std : option R
}.

(** The floats of the amount column, NaN skipped as pandas reductions do. *)
Definition numbers (data : DataFrame) : list Q :=
  flat_map (fun r => match amount r with AmountNum a => [a] | _ => [] end) data.

Fixpoint minimum (l : list Q) : option Q :=
  match l with
  | [] => None
  | x :: l' =>
      match minimum l' with
      | None => Some x
      | Some m => Some (if Qle_bool x m then x else m)
      end
  end.

Fixpoint maximum (l : list Q) : option Q :=
  match l with
  | [] => None
  | x :: l' =>
      match maximum l' with
      | None => Some x
      | Some m => Some (if Qle_bool m x then x else m)
      end
  end.

Definition count (l : list Q) : Q := inject_Z (Z.of_nat (List.length l)).

Definition average (l : list Q) : option Q :=
  match l with
  | [] => None
  | _ :: _ => Some (Predictor.sum_Q l / count l)
  end.

(** The middle element of the sorted values, or the mean of the two middle
    ones. *)
Definition middle (l : list Q) : option Q :=
  let s := Predictor.sort_Q l in
  let n := List.length s in
  match n with
  | O => None
  | S _ =>
      if Nat.even n
      then Some ((nth (n / 2 - 1) s 0 + nth (n / 2) s 0) / 2)
      else Some (nth (n / 2) s 0)
  end.

(** [Series.std()]: the sample standard deviation (n - 1 in the
    denominator), NaN below two values. *)
Definition deviation (l : list Q) : option R :=
  match average l with
  | None => None
  | Some m =>
      if Nat.ltb (List.length l) 2 then None
      else Some (sqrt (Q2R (Predictor.sum_Q (map (fun x => (x - m) * (x - m)) l)
                            / (count l - 1))))
  end.

Definition amount_statistics (data : DataFrame) : AmountStatistics :=
  let l := numbers data in
  {| stat_min := minimum l; stat_max := maximum l; stat_mean := average l;
     stat_median := middle l; stat_std := deviation l |}.

(** The attributes of a [SettlementDataCleaner]; [stats = None] is the
    empty dict of [__init__]. *)
Record SettlementDataCleaner : Type := {
  data : option DataFrame;
  cleaned_data : option DataFrame;
  stats : option AmountStatistics
}.

(** [SettlementDataCleaner()]. *)
Definition init : SettlementDataCleaner :=
  {| data := None; cleaned_data := None; stats := None |}.

(** A method: it may change the attributes and returns or raises; what it
    changed before raising stays changed. *)
Definition Method (A : Type) : Type :=
  SettlementDataCleaner -> SettlementDataCleaner * result A.

Definition and_then {A B : Type} (m : Method A) (k : A -> Method B) : Method B :=
  fun self =>
    match m self with
    | (self', Ok a) => k a self'
    | (self', Raise e) => (self', Raise e)
    end.

Notation "m >> k" := (and_then m (fun _ => k))
  (at level 62, right associativity).

Definition no_frame {A : Type} : result A :=
  Raise "TypeError: 'NoneType' object is not subscriptable".

(** [self.data = f(self.data)]. *)
Definition set_data (self : SettlementDataCleaner) (d : DataFrame)
  : SettlementDataCleaner :=
  {| data := Some d; cleaned_data := cleaned_data self; stats := stats self |}.

Definition clean_amounts : Method DataFrame :=
  fun self =>
    match data self with
    | None => (self, Raise "TypeError: object of type 'NoneType' has no len()")
    | Some d =>
        let d' := Cleaner.clean_amounts d in
        ({| data := Some d'; cleaned_data := cleaned_data self;
            stats := Some (amount_statistics d') |}, Ok d')
    end.

Definition clean_dates : Method DataFrame :=
  fun self =>
    match data self with
    | None => (self, no_frame)
    | Some d => let d' := Cleaner.clean_dates d in (set_data self d', Ok d')
    end.

Definition encode_categories : Method DataFrame :=
  fun self =>
    match data self with
    | None => (self, no_frame)
    | Some d => let d' := Cleaner.encode_categories d in (set_data self d', Ok d')
    end.

(** When [astype(int)] raises, [defendant_size] has not been assigned and
    the frame is as [encode_categories] left it. *)
Definition create_features : Method DataFrame :=
  fun self =>
    match data self with
    | None => (self, no_frame)
    | Some d =>
        match Cleaner.create_features d with
        | Ok d' => (set_data self d', Ok d')
        | Raise e => (self, Raise e)
        end
    end.

Definition remove_duplicates : Method DataFrame :=
  fun self =>
    match data self with
    | None => (self, Raise "TypeError: object of type 'NoneType' has no len()")
    | Some d => let d' := Cleaner.remove_duplicates d in (set_data self d', Ok d')
    end.

Definition validate_data : Method (bool * list string) :=
  fun self =>
    match data self with
    | None => (self, Raise "TypeError: object of type 'NoneType' has no len()")
    | Some d => (self, Ok (Cleaner.validate_data d))
    end.

(** [s.endswith(suffix)]. *)
Definition endswith (s suffix : string) : bool :=
  let n := String.length s in
  let m := String.length suffix in
  Nat.leb m n && String.eqb (substring (n - m) m s) suffix.

(** [self.cleaned_data = self.data; return self.cleaned_data]. *)
Definition publish : Method DataFrame :=
  fun self =>
    match data self with
    | None => (self, no_frame)
    | Some d =>
        ({| data := Some d; cleaned_data := Some d; stats := stats self |}, Ok d)
    end.

(** [Series.value_counts().to_dict()]: how often each value occurs, missing
    values left out.  The dict is listed by first occurrence. *)
Definition value_counts (column : list (option string)) : list (string * nat) :=
  let present :=
    flat_map (fun c => match c with Some s => [s] | None => [] end) column in
  map (fun s => (s, count_occ string_dec present s)) (nodup string_dec present).

(** The sum of the counts of a distribution. *)
Definition counted (distribution : list (string * nat)) : nat :=
  fold_right (fun entry n => (snd entry + n)%nat) 0%nat distribution.

(** The dict [get_stats] returns. *)
Record Statistics : Type := {
  total_records : nat;
  amount_stats : option AmountStatistics;
  fraud_type_distribution : list (string * nat);
  industry_distribution : list (string * nat)
}.

Definition get_stats (self : SettlementDataCleaner) : Statistics :=
  {| total_records :=
       match cleaned_data self with
       | Some c => List.length c
       | None => 0%nat
       end;
     amount_stats := stats self;
     fraud_type_distribution :=
       match data self with
       | Some d => value_counts (map fraud_type d)
       | None => []
       end;
     industry_distribution :=
       match data self with
       | Some d => value_counts (map industry d)
       | None => []
       end |}.

(** [save_cleaned_data]: the path and the table handed to [to_csv]. *)
Definition save_cleaned_data (self : SettlementDataCleaner) (output_path : string)
  : result (string * DataFrame) :=
  match cleaned_data self with
  | None => Raise "ValueError: No cleaned data to save. Run clean_all() first."
  | Some c => Ok (output_path, c)
  end.

Section Files.

(** [pd.read_csv] and [pd.read_json] on the files at hand: the frame read,
    or the exception of a missing or malformed file. *)
Variable read_csv : string -> result DataFrame.
Variable read_json : string -> result DataFrame.

Definition read (filepath : string) : result DataFrame :=
  if endswith filepath ".csv" then read_csv filepath
  else if endswith filepath ".json" then read_json filepath
  else Raise "ValueError: File must be CSV or JSON".

Definition load_data (filepath : string) : Method DataFrame :=
  fun self =>
    match read filepath with
    | Ok d => (set_data self d, Ok d)
    | Raise e => (self, Raise e)
    end.

Definition clean_all (filepath : string) : Method DataFrame :=
  load_data filepath >> clean_amounts >> clean_dates >> encode_categories
  >> create_features >> remove_duplicates
  >> and_then validate_data (fun v =>
       if fst v then publish
       else fun self =>
         (self, Raise "ValueError: Data validation failed. Check logs for details.")).

(** A caller that runs [clean_all] on one file after the other, going on
    after an exception. *)
Fixpoint run (self : SettlementDataCleaner) (filepaths : list string)
  : SettlementDataCleaner :=
  match filepaths with
  | [] => self
  | f :: filepaths' => run (fst (clean_all f self)) filepaths'
  end.

(** The frame of the last file of the list on which the cleaning of the
    frame read succeeds. *)
Fixpoint last_cleaned (filepaths : list string) : option DataFrame :=
  match filepaths with
  | [] => None
  | f :: filepaths' =>
      match last_cleaned filepaths' with
      | Some c => Some c
      | None =>
          match bind (read f) Cleaner.clean_all with
          | Ok c => Some c
          | Raise _ => None
          end
      end
  end.

End Files.

End CleanerObject.

(** Files for the examples. *)
Module Files.

Import Cleaner.

Definition sample_path : string := "data/fca_settlements_sample.csv".

(** A file system holding the sample table as a CSV file. *)
Definition sample_read_csv (filepath : string) : result DataFrame :=
  if String.eqb filepath sample_path then Ok Samples.sample_table
  else Raise "FileNotFoundError: No such file or directory".

Definition sample_read_json (filepath : string) : result DataFrame :=
  Raise "FileNotFoundError: No such file or directory".

End Files.

(** ** Further notions about the feature engine and the predictor *)

Module PredictorFacts.

Import FeatureEngine Predictor.

(** The scaler is fitted, on twelve columns. *)
Definition engine_ready (engine : SettlementFeatureEngine) : bool :=
  match scaler engine with
  | Some sc =>
      Nat.eqb (List.length (mean_ sc)) 12
      && Nat.eqb (List.length (scale_ sc)) 12
  | None => false
  end.

(** The values at the leaves of a tree. *)
Fixpoint leaves (t : DecisionTree) : list Q :=
  match t with
  | Leaf v => [v]
  | Node _ _ _ l r => leaves l ++ leaves r
  end.

(** A forest whose trees all answer 13, and a forest of a single tree. *)
Definition agreeing_predictor : SettlementPredictor :=
  {| model := {| estimators_ :=
                   Some {| first_tree := Leaf 13;
                           more_trees := [Leaf 13; Leaf 13] |} |};
     feature_engine := {| scaler := Some Cases.unit_scaler |} |}.

End PredictorFacts.

(** ** Further notions about the serving endpoint *)

Module ServingFacts.

Import Predictor Serving.

(** The request with [fraud_type] and [industry] written in lower case. *)
Definition lowered (r : PredictionRequest) : PredictionRequest :=
  {| fraud_type := lower (fraud_type r);
     damages_claimed := damages_claimed r;
     industry := lower (industry r);
     jurisdiction := jurisdiction r;
     whistleblower_present := whistleblower_present r;
     settlement_year := settlement_year r |}.

(** Both checks of [predict_settlement] on the vocabulary pass. *)
Definition in_vocabulary (r : PredictionRequest) : bool :=
  str_in (lower (fraud_type r)) valid_fraud_types
  && str_in (lower (industry r)) valid_industries.

(** [joblib.load] fails on one of the two files. *)
Definition unreadable {A : Type} (f : File A) : bool :=
  match f with Unreadable => true | _ => false end.

(** The entry of the batch results for a request answered with [pr]. *)
Definition succeeded (req : PredictionRequest) (pr : Prediction) : BatchItem :=
  {| input := req; prediction := Some pr; error := None; status := "success" |}.

(** A models directory whose scaler file is damaged. *)
Definition damaged_models_dir : ModelsDir :=
  {| settlement_model_latest := Stored Cases.sample_forest;
     feature_scaler_latest := Unreadable |}.

(** The sample request shouted. *)
Definition upper_case_request : PredictionRequest :=
  {| fraud_type := "HealthCare"; damages_claimed := 10000000;
     industry := "PHARMACEUTICAL";
     jurisdiction := "Southern District of New York";
     whistleblower_present := true; settlement_year := 2024 |}.

End ServingFacts.

(** ** train_model.py and predict_api.py : the artifact files *)

Module Artifacts.

(** [datetime.now()], to the second. *)
Record DateTime : Type := {
  year : nat;
  month : nat;
  day : nat;
  hour : nat;
  minute : nat;
  second : nat
}.

(** The decimal digit of the units of [n]. *)
Definition digit (n : nat) : ascii := ascii_of_nat (48 + n mod 10).

Definition two_digits (n : nat) : string :=
  String (digit (n / 10)) (String (digit n) EmptyString).

Definition four_digits (n : nat) : string :=
  String (digit (n / 1000)) (String (digit (n / 100)) (two_digits n)).

(** [strftime('%Y%m%d_%H%M%S')], for a year of four digits. *)
Definition strftime (t : DateTime) : string :=
  (four_digits (year t) ++ two_digits (month t) ++ two_digits (day t) ++ "_"
   ++ two_digits (hour t) ++ two_digits (minute t) ++ two_digits (second t))%string.

(** The dict [save_model] returns: the paths of the three files it wrote. *)
Record SavedPaths : Type := {
  model_path : string;
  scaler_path : string;
  metadata_path : string
}.

(** [SettlementPredictor.save_model]: where the model, the scaler and the
    metadata go, for the clock value read at its first line. *)
Definition save_model (model_dir : string) (now : DateTime) : SavedPaths :=
  let timestamp := strftime now in
  {| model_path := (model_dir ++ "/settlement_model_" ++ timestamp ++ ".joblib")%string;
     scaler_path := (model_dir ++ "/feature_scaler_" ++ timestamp ++ ".joblib")%string;
     metadata_path := (model_dir ++ "/model_metadata_" ++ timestamp ++ ".json")%string |}.

(** [os.path.join(a, b)] on POSIX. *)
Definition path_join (a b : string) : string :=
  if String.prefix "/" b then b
  else if (String.eqb a EmptyString || CleanerObject.endswith a "/")%bool
  then (a ++ b)%string
  else (a ++ "/" ++ b)%string.

(** The two paths the startup hook of the API tests and loads; [here] is
    [os.path.dirname(__file__)]. *)
Definition startup_model_path (here : string) : string :=
  path_join here "../models/settlement_model_latest.joblib".

Definition startup_scaler_path (here : string) : string :=
  path_join here "../models/feature_scaler_latest.joblib".

End Artifacts.

(** * Properties *)

Unset Implicit Arguments.

(** ** Arithmetic on float cells *)

Lemma Qltb_lt (x y : Q) : Qltb x y = true <-> (x < y)%Q.
Proof.
  unfold Qltb. rewrite negb_true_iff. split; intro H.
  - apply Qnot_le_lt. intro Hle. apply Qle_bool_iff in Hle. congruence.
  - destruct (Qle_bool y x) eqn:E; [|reflexivity].
    apply Qle_bool_iff in E. exfalso. exact (Qlt_not_le _ _ H E).
Qed.

Lemma Qltb_ge (x y : Q) : Qltb x y = false <-> (y <= x)%Q.
Proof.
  unfold Qltb. rewrite negb_false_iff. apply Qle_bool_iff.
Qed.

Lemma Qle_bool_false (x y : Q) : Qle_bool x y = false -> (y < x)%Q.
Proof.
  intro H. apply Qnot_le_lt. intro Hle. apply Qle_bool_iff in Hle. congruence.
Qed.

(** ** Lists *)

Lemma existsb_false_In {A : Type} (f : A -> bool) (l : list A) (x : A) :
  existsb f l = false -> In x l -> f x = false.
Proof.
  intros H Hin. destruct (f x) eqn:E; [|reflexivity].
  assert (Hex : existsb f l = true) by (apply existsb_exists; eauto).
  congruence.
Qed.

(** ** The cleaner, step by step *)

Section CleanerSteps.

Import Cleaner Clean.
Local Open Scope Q_scope.

Lemma clean_amounts_kept (data : DataFrame) (r : Row) :
  In r (clean_amounts data) -> amount_kept (amount r).
Proof.
  unfold clean_amounts. intro H.
  apply filter_In in H. destruct H as [Hin Hout].
  apply in_map_iff in Hin. destruct Hin as [r0 [Hr _]]. subst r.
  simpl in *. destruct (amount r0) as [|a|s]; simpl in *.
  - left; reflexivity.
  - right. exists a. split; [reflexivity|].
    apply negb_true_iff, orb_false_iff in Hout.
    destruct Hout as [H1 H2]. apply Qltb_ge in H1, H2. split; assumption.
  - left; reflexivity.
Qed.

Lemma clean_dates_In (data : DataFrame) (r : Row) :
  In r (clean_dates data) ->
  exists r0 d, In r0 data /\ date r0 = Some d /\ r = with_dates d r0.
Proof.
  induction data as [|r0 data IH]; simpl; [tauto|].
  destruct (date r0) as [d|] eqn:Ed.
  - intros [<-|H].
    + exists r0, d. auto.
    + destruct (IH H) as (r1 & d1 & ? & ? & ?). exists r1, d1. auto.
  - intro H. destruct (IH H) as (r1 & d1 & ? & ? & ?). exists r1, d1. auto.
Qed.

Lemma drop_duplicates_In (seen data : DataFrame) (r : Row) :
  In r (drop_duplicates seen data) -> In r data.
Proof.
  revert seen. induction data as [|r0 data IH]; simpl; intros seen H; [tauto|].
  destruct (existsb (same_triple r0) seen).
  - right. eapply IH; eassumption.
  - destruct H as [<-|H]; [left; reflexivity|right; eapply IH; eassumption].
Qed.

Lemma create_features_Ok (data data' : DataFrame) :
  create_features data = Ok data' ->
  existsb isna_size data = false /\ data' = map with_size data.
Proof.
  unfold create_features. destruct (existsb isna_size data); [discriminate|].
  intro H. injection H as <-. auto.
Qed.

(** [pd.cut] labels exactly the positive amounts. *)
Lemma cut_size_positive (x : option Q) :
  cut_size x <> None <-> exists q, x = Some q /\ 0 < q.
Proof.
  destruct x as [q|]; simpl; [|split; [congruence|intros (q & H & _); discriminate]].
  unfold size_bins, size_labels; simpl.
  destruct (Qltb 0 q) eqn:E0; simpl.
  - apply Qltb_lt in E0. split; [intros _; exists q; auto|intros _].
    destruct (Qle_bool q 1000000) eqn:E1; [discriminate|].
    apply Qle_bool_false in E1.
    assert (H1 : Qltb 1000000 q = true) by (apply Qltb_lt; assumption).
    rewrite H1; simpl.
    destruct (Qle_bool q 10000000) eqn:E2; [discriminate|].
    apply Qle_bool_false in E2.
    assert (H2 : Qltb 10000000 q = true) by (apply Qltb_lt; assumption).
    rewrite H2; simpl. discriminate.
  - apply Qltb_ge in E0. split.
    + destruct (Qltb 1000000 q) eqn:E1; simpl.
      { apply Qltb_lt in E1. exfalso.
        apply (Qlt_not_le _ _ E1). eapply Qle_trans; [exact E0|]. discriminate. }
      destruct (Qltb 10000000 q) eqn:E2; simpl; [|congruence].
      apply Qltb_lt in E2. exfalso.
      apply (Qlt_not_le _ _ E2). eapply Qle_trans; [exact E0|]. discriminate.
    + intros (q' & Hq & Hpos). injection Hq as <-. exfalso.
      exact (Qlt_not_le _ _ Hpos E0).
Qed.

(** Runs through the keys of the CPI table a lookup of [y] compares with,
    closing with [tac] the case where [y] is the key. *)
Ltac each_key y tac :=
  repeat match goal with
  | |- context [Z.eqb y ?k] => destruct (Z.eqb_spec y k); [tac|]
  end.

(** The CPI table has the keys 2010 .. 2024, each once. *)
Lemma multiplier_in_table (y : Z) (m : Q) :
  In (y, m) cpi_multipliers -> multiplier y = m.
Proof.
  unfold cpi_multipliers. simpl.
  intro H.
  repeat (destruct H as [H|H]; [injection H as <- <-; reflexivity|]).
  contradiction.
Qed.

Lemma table_keys (y : Z) :
  (2010 <= y <= 2024)%Z <-> exists m, In (y, m) cpi_multipliers.
Proof.
  split.
  - intro H.
    assert (Hy : In y (map fst cpi_multipliers)).
    { simpl.
      assert (y = 2024 \/ y = 2023 \/ y = 2022 \/ y = 2021 \/ y = 2020
              \/ y = 2019 \/ y = 2018 \/ y = 2017 \/ y = 2016 \/ y = 2015
              \/ y = 2014 \/ y = 2013 \/ y = 2012 \/ y = 2011 \/ y = 2010)%Z
        as Hc by lia.
      intuition auto. }
    apply in_map_iff in Hy. destruct Hy as [[y' m] [Hf Hin]].
    simpl in Hf. subst y'. exists m. exact Hin.
  - intros [m H]. unfold cpi_multipliers in H. simpl in H.
    repeat (destruct H as [H|H]; [injection H as <- _; lia|]).
    contradiction.
Qed.

Lemma multiplier_outside_table (y : Z) :
  (y < 2010 \/ 2024 < y)%Z -> multiplier y = 1.5.
Proof.
  intro H. unfold multiplier, cpi_multipliers. simpl.
  each_key y lia. reflexivity.
Qed.

Lemma multiplier_ge_1 (y : Z) : 1 <= multiplier y.
Proof.
  unfold multiplier, cpi_multipliers. simpl.
  each_key y discriminate. discriminate.
Qed.

Lemma clean_steps_adjusted (data cleaned : DataFrame) (r : Row) :
  clean_steps data = Ok cleaned -> In r cleaned -> adjusted r.
Proof.
  unfold clean_steps, bind.
  destruct (create_features _) as [data3|] eqn:Ef; [|discriminate].
  intro H. injection H as <-. intro Hin.
  apply create_features_Ok in Ef. destruct Ef as [Hsize ->].
  apply drop_duplicates_In in Hin.
  apply in_map_iff in Hin. destruct Hin as [r2 [<- Hin2]].
  assert (Hna : isna_size r2 = false).
  { eapply existsb_false_In; eassumption. }
  unfold encode_categories in Hin2.
  apply in_map_iff in Hin2. destruct Hin2 as [r1 [<- Hin1]].
  apply clean_dates_In in Hin1. destruct Hin1 as (r0 & d & Hin0 & Hd & ->).
  apply clean_amounts_kept in Hin0.
  unfold isna_size in Hna. simpl in Hna.
  destruct Hin0 as [Hnull|(a & Ha & Hlo & Hhi)].
  - rewrite Hnull in Hna. simpl in Hna. discriminate.
  - exists a, (year d). simpl. rewrite Ha. simpl. auto.
Qed.

Lemma adjusted_value (r : Row) :
  adjusted r -> exists v, amount_2024 r = Some v /\ 10000 <= v.
Proof.
  intros (a & y & _ & Hlo & _ & _ & H2024).
  exists (a * multiplier y). split; [exact H2024|].
  pose proof (multiplier_ge_1 y) as Hm.
  generalize dependent (multiplier y). intros m _ Hm. nra.
Qed.

Lemma adjusted_positive (cleaned : DataFrame) :
  (forall r, In r cleaned -> adjusted r) -> existsb nonpositive cleaned = false.
Proof.
  intro Hrows.
  destruct (existsb nonpositive cleaned) eqn:E; [|reflexivity].
  apply existsb_exists in E. destruct E as (r & Hin & Hnp).
  destruct (adjusted_value _ (Hrows r Hin)) as (v & Hv & Hge).
  unfold nonpositive in Hnp. rewrite Hv in Hnp.
  apply Qle_bool_iff in Hnp. lra.
Qed.

End CleanerSteps.

(** ** A second pass over a cleaned table *)

Section SecondPass.

Import Cleaner Clean.
Local Open Scope Q_scope.





(** Symmetry of the comparison of triples. *)
Lemma same_triple_sym (r1 r2 : Row) : same_triple r1 r2 = same_triple r2 r1.
Proof.
  unfold same_triple. f_equal; [f_equal|].
  - destruct (defendant r1), (defendant r2); simpl; try reflexivity.
    apply String.eqb_sym.
  - destruct (amount r1) as [|x|s], (amount r2) as [|y|s']; simpl;
      try reflexivity.
    + destruct (Qeq_bool x y) eqn:E, (Qeq_bool y x) eqn:E'; try reflexivity.
      * apply Qeq_bool_iff, Qeq_sym, Qeq_bool_iff in E. congruence.
      * apply Qeq_bool_iff, Qeq_sym, Qeq_bool_iff in E'. congruence.
    + apply String.eqb_sym.
  - destruct (settlement_year r1), (settlement_year r2); simpl; try reflexivity.
    apply Z.eqb_sym.
Qed.

Lemma drop_duplicates_fixed (seen data : DataFrame) :
  (forall r, In r data -> existsb (same_triple r) seen = false) ->
  distinct_triples data = true ->
  drop_duplicates seen data = data.
Proof.
  revert seen. induction data as [|r data IH]; simpl; intros seen Hseen Hd;
    [reflexivity|].
  apply andb_true_iff in Hd. destruct Hd as [Hr Hd].
  apply negb_true_iff in Hr.
  rewrite (Hseen r (or_introl eq_refl)). f_equal.
  apply IH; [|exact Hd].
  intros r' Hin. simpl. apply orb_false_iff. split.
  - rewrite same_triple_sym. eapply existsb_false_In; eassumption.
  - apply Hseen. right. exact Hin.
Qed.











End SecondPass.

(** ** Claims about the cleaner *)

Section CleanerClaims.

Import Cleaner Clean.
Local Open Scope Q_scope.

Lemma clean_all_Ok (data cleaned : DataFrame) :
  clean_all data = Ok cleaned -> clean_steps data = Ok cleaned.
Proof.
  unfold clean_all, bind. destruct (clean_steps data) as [c|e]; [|discriminate].
  destruct (fst (validate_data c)); [|discriminate].
  intro H. exact H.
Qed.

(** C1 (the code disagrees with the claim).  [create_features] of the
    cleaner labels amount_2024 = 999,999.99 with 0 and 10,000,000.01 with 2
    as claimed, but labels the thresholds themselves with the lower
    category: 1,000,000 gets 0 and 10,000,000 gets 1, because the bins of
    [pd.cut] are closed on the right.  The size estimate of
    [create_prediction_input] on the same four values is 0, 1, 2, 2. *)
Theorem defendant_size_at_thresholds :
  Samples.sizes_written [999999.99; 1000000; 10000000; 10000000.01]
  = Ok [Some 0%Z; Some 0%Z; Some 1%Z; Some 2%Z]
  /\ map FeatureEngine.estimate_defendant_size
       [999999.99; 1000000; 10000000; 10000000.01]
     = [0%Z; 1%Z; 2%Z; 2%Z].
Proof.
  split; vm_compute; reflexivity.
Qed.

(** C2.  The two jurisdiction encodings are different functions: whatever
    [hash] is, there is a table and a jurisdiction in it whose code written
    by [encode_categories] (its position among the sorted distinct values
    of the column) is not the code [create_prediction_input] gives the same
    string ([hash] modulo 50). *)
Theorem jurisdiction_encodings_differ (hash : string -> Z) :
  exists (data : DataFrame) (r : Row) (j : string),
    In r (encode_categories data)
    /\ jurisdiction r = Some j
    /\ forall ft damages ind w y,
         jurisdiction_code r
         <> Some (FeatureEngine.jurisdiction_code
                    (FeatureEngine.prediction_case hash ft damages ind j w y)).
Proof.
  set (dc := "District of Columbia"%string).
  set (sdny := "Southern District of New York"%string).
  destruct (Z.eq_dec (FeatureEngine.hashed_jurisdiction_code hash sdny) 0)
    as [H0|H0].
  - exists [Samples.row_in_court dc; Samples.row_in_court sdny].
    exists (encode_row [dc; sdny] (Samples.row_in_court sdny)), sdny.
    split; [right; left; reflexivity|]. split; [reflexivity|].
    intros ft damages ind w y. simpl FeatureEngine.jurisdiction_code.
    rewrite H0. vm_compute. discriminate.
  - exists [Samples.row_in_court sdny].
    exists (encode_row [sdny] (Samples.row_in_court sdny)), sdny.
    split; [left; reflexivity|]. split; [reflexivity|].
    intros ft damages ind w y. simpl FeatureEngine.jurisdiction_code.
    intro H. apply H0.
    change (jurisdiction_code (encode_row [sdny] (Samples.row_in_court sdny)))
      with (Some 0%Z) in H.
    injection H as H. symmetry. exact H.
Qed.

(** C6.  In every row that comes out of the cleaning steps, amount_2024 is
    the amount times the multiplier the CPI table holds for the settlement
    year when the year is a key of the table (the keys are 2010 .. 2024),
    the amount times 1.5 when the year is outside the table, and in both
    cases amount_2024 > 0.  The rows [clean_all] returns are such rows
    ([clean_all_Ok]). *)
Theorem amount_2024_is_cpi_adjusted (data cleaned : DataFrame) (r : Row) :
  clean_steps data = Ok cleaned ->
  In r cleaned ->
  exists a y,
    amount r = AmountNum a
    /\ settlement_year r = Some y
    /\ ((2010 <= y <= 2024)%Z -> exists m, In (y, m) cpi_multipliers)
    /\ (forall m, In (y, m) cpi_multipliers -> amount_2024 r = Some (a * m))
    /\ ((y < 2010 \/ 2024 < y)%Z -> amount_2024 r = Some (a * 1.5))
    /\ exists v, amount_2024 r = Some v /\ 0 < v.
Proof.
  intros Hsteps Hin.
  pose proof (clean_steps_adjusted _ _ _ Hsteps Hin) as Hadj.
  destruct (adjusted_value _ Hadj) as (v & Hv & Hpos).
  destruct Hadj as (a & y & Ha & _ & _ & Hy & H2024).
  exists a, y. repeat split; try assumption.
  - apply table_keys.
  - intros m Hm. rewrite (multiplier_in_table _ _ Hm) in H2024. exact H2024.
  - intro Hout. rewrite (multiplier_outside_table _ Hout) in H2024. exact H2024.
  - exists v. split; [exact Hv|]. lra.
Qed.

(** C10.  Every row that reaches [validate_data] through the cleaning steps
    has an amount of at least 10,000 and a multiplier of at least 1, hence
    amount_2024 >= 10,000 > 0: the check [(amount_2024 <= 0).any()] is
    false and "Negative or zero amounts found" is never among the issues. *)
Theorem positivity_check_never_fires (data cleaned : DataFrame) :
  clean_steps data = Ok cleaned ->
  (forall r, In r cleaned ->
     exists a y v,
       amount r = AmountNum a /\ 10000 <= a
       /\ settlement_year r = Some y /\ 1 <= multiplier y
       /\ amount_2024 r = Some v /\ v == a * multiplier y /\ 10000 <= v)
  /\ existsb nonpositive cleaned = false
  /\ ~ In negative_or_zero (issues cleaned)
  /\ ~ In negative_or_zero (snd (validate_data cleaned)).
Proof.
  intro Hsteps.
  assert (Hrows : forall r, In r cleaned -> adjusted r).
  { intros r Hin. eapply clean_steps_adjusted; eassumption. }
  assert (Hcheck : existsb nonpositive cleaned = false).
  { apply adjusted_positive. exact Hrows. }
  assert (Hissues : ~ In negative_or_zero (issues cleaned)).
  { unfold issues. rewrite Hcheck. simpl.
    destruct (Nat.ltb (List.length cleaned) 20); simpl;
      intros H; repeat (destruct H as [H|H]; [discriminate H|]); exact H. }
  split; [|split; [exact Hcheck|split; [exact Hissues|]]].
  - intros r Hin. pose proof (Hrows r Hin) as Hadj.
    destruct (adjusted_value _ Hadj) as (v & Hv & Hge).
    destruct Hadj as (a & y & Ha & Hlo & _ & Hy & H2024).
    exists a, y, v. repeat split; try assumption.
    + apply multiplier_ge_1.
    + rewrite Hv in H2024. injection H2024 as ->. reflexivity.
  - unfold validate_data. destruct (issues cleaned) as [|i rest] eqn:Ei; simpl.
    + tauto.
    + exact Hissues.
Qed.

Lemma amount_2024_is_cpi_adjusted_witness :
  clean_steps Samples.sample_table = Ok Samples.sample_cleaned
  /\ In (nth 0 Samples.sample_cleaned (Samples.row_worth 0)) Samples.sample_cleaned
  /\ exists a y,
       amount (nth 0 Samples.sample_cleaned (Samples.row_worth 0)) = AmountNum a
       /\ settlement_year (nth 0 Samples.sample_cleaned (Samples.row_worth 0)) = Some y
       /\ ((2010 <= y <= 2024)%Z -> exists m, In (y, m) cpi_multipliers)
       /\ (forall m, In (y, m) cpi_multipliers ->
            amount_2024 (nth 0 Samples.sample_cleaned (Samples.row_worth 0))
            = Some (a * m))
       /\ ((y < 2010 \/ 2024 < y)%Z ->
            amount_2024 (nth 0 Samples.sample_cleaned (Samples.row_worth 0))
            = Some (a * 1.5))
       /\ exists v,
            amount_2024 (nth 0 Samples.sample_cleaned (Samples.row_worth 0)) = Some v
            /\ 0 < v.
Proof.
  assert (H1 : clean_steps Samples.sample_table = Ok Samples.sample_cleaned)
    by (vm_compute; reflexivity).
  assert (H2 : In (nth 0 Samples.sample_cleaned (Samples.row_worth 0))
                 Samples.sample_cleaned)
    by (left; reflexivity).
  split; [exact H1|]. split; [exact H2|].
  exact (amount_2024_is_cpi_adjusted _ _ _ H1 H2).
Defined.

Lemma positivity_check_never_fires_witness :
  clean_steps Samples.sample_table = Ok Samples.sample_cleaned
  /\ existsb nonpositive Samples.sample_cleaned = false
  /\ ~ In negative_or_zero (issues Samples.sample_cleaned).
Proof.
  assert (H1 : clean_steps Samples.sample_table = Ok Samples.sample_cleaned)
    by (vm_compute; reflexivity).
  split; [exact H1|].
  destruct (positivity_check_never_fires _ _ H1) as (_ & H2 & H3 & _).
  split; assumption.
Defined.



(** The precondition on duplicates cannot be dropped: when the first run
    removes a duplicate that was the only row of its jurisdiction, the
    second run renumbers the jurisdictions that sort after it. *)
Example second_pass_after_duplicates :
  exists cleaned again,
    clean_steps Samples.table_with_duplicate = Ok cleaned
    /\ clean_steps cleaned = Ok again
    /\ map jurisdiction_code cleaned = [Some 0%Z; Some 2%Z]
    /\ map jurisdiction_code again = [Some 0%Z; Some 1%Z].
Proof.
  eexists. eexists.
  split; [vm_compute; reflexivity|].
  split; [vm_compute; reflexivity|].
  split; reflexivity.
Qed.

End CleanerClaims.

(** ** Percentiles of the tree predictions *)

Section Percentiles.

Import Predictor.
Local Open Scope Q_scope.

Lemma insert_Q_Forall (y x : Q) (l : list Q) :
  y <= x -> Forall (Qle y) l -> Forall (Qle y) (insert_Q x l).
Proof.
  intros Hyx Hl. induction Hl as [|z l Hz Hl IH]; simpl.
  - constructor; [exact Hyx|constructor].
  - destruct (Qle_bool x z); repeat constructor; assumption.
Qed.

Lemma insert_Q_sorted (x : Q) (l : list Q) :
  StronglySorted Qle l -> StronglySorted Qle (insert_Q x l).
Proof.
  intro Hs. induction Hs as [|z l Hs IH Hz]; simpl.
  - repeat constructor.
  - destruct (Qle_bool x z) eqn:E.
    + apply Qle_bool_iff in E. constructor.
      * constructor; assumption.
      * constructor; [exact E|].
        eapply Forall_impl; [|exact Hz].
        intros w Hw. eapply Qle_trans; eassumption.
    + apply Qle_bool_false in E. constructor; [exact IH|].
      apply insert_Q_Forall; [apply Qlt_le_weak; exact E|exact Hz].
Qed.

Lemma sort_Q_sorted (l : list Q) : StronglySorted Qle (sort_Q l).
Proof.
  induction l as [|x l IH]; simpl; [constructor|].
  apply insert_Q_sorted. exact IH.
Qed.

Lemma insert_Q_length (x : Q) (l : list Q) :
  List.length (insert_Q x l) = S (List.length l).
Proof.
  induction l as [|y l IH]; simpl; [reflexivity|].
  destruct (Qle_bool x y); simpl; [reflexivity|]. rewrite IH. reflexivity.
Qed.

Lemma sort_Q_length (l : list Q) : List.length (sort_Q l) = List.length l.
Proof.
  induction l as [|x l IH]; simpl; [reflexivity|].
  rewrite insert_Q_length, IH. reflexivity.
Qed.

Lemma sorted_nth (l : list Q) :
  StronglySorted Qle l ->
  forall i j, (i <= j)%nat -> (j < List.length l)%nat ->
              nth i l 0 <= nth j l 0.
Proof.
  intro Hs. induction Hs as [|x l Hs IH Hx]; intros i j Hij Hj; simpl in Hj.
  - lia.
  - destruct i as [|i], j as [|j]; simpl.
    + apply Qle_refl.
    + rewrite Forall_forall in Hx. apply Hx. apply nth_In. lia.
    + lia.
    + apply IH; lia.
Qed.

Lemma percentile_interpolate (a : list Q) (q : Z) :
  percentile a q
  = interpolate (sort_Q a) (q * (Z.of_nat (List.length (sort_Q a)) - 1)).
Proof. reflexivity. Qed.

Lemma gamma_range (pos : Z) :
  0 <= (pos mod 100)%Z # 100 /\ (pos mod 100)%Z # 100 <= 1.
Proof.
  pose proof (Z.mod_pos_bound pos 100 eq_refl) as H.
  unfold Qle; simpl. lia.
Qed.

(** The interpolated value lies between its two neighbours. *)
Lemma interpolate_between (s : list Q) (pos : Z) :
  StronglySorted Qle s ->
  (0 <= pos <= 100 * (Z.of_nat (List.length s) - 1))%Z ->
  nth (Z.to_nat (pos / 100)) s 0 <= interpolate s pos
  /\ interpolate s pos
     <= nth (Z.to_nat (Z.min (pos / 100 + 1) (Z.of_nat (List.length s) - 1))) s 0.
Proof.
  intros Hs Hpos. unfold interpolate.
  set (n := Z.of_nat (List.length s)) in *.
  set (lo := (pos / 100)%Z). set (hi := Z.min (lo + 1) (n - 1)).
  assert (Hlo : (0 <= lo <= n - 1)%Z).
  { unfold lo. Z.div_mod_to_equations. lia. }
  assert (Hle : nth (Z.to_nat lo) s 0 <= nth (Z.to_nat hi) s 0).
  { apply sorted_nth; [exact Hs| |]; unfold hi, n in *; lia. }
  destruct (gamma_range pos) as [G0 G1].
  generalize dependent ((pos mod 100)%Z # 100). intros g G0 G1.
  generalize dependent (nth (Z.to_nat lo) s 0). intros b.
  generalize (nth (Z.to_nat hi) s 0). intros t Hle.
  split; nra.
Qed.

Lemma interpolate_mono (s : list Q) (p1 p2 : Z) :
  StronglySorted Qle s ->
  (0 <= p1)%Z -> (p1 <= p2)%Z ->
  (p2 <= 100 * (Z.of_nat (List.length s) - 1))%Z ->
  interpolate s p1 <= interpolate s p2.
Proof.
  intros Hs H0 H12 H2.
  destruct (Z.eq_dec (p1 / 100) (p2 / 100)) as [Heq|Hne].
  - unfold interpolate. rewrite Heq.
    set (n := Z.of_nat (List.length s)) in *.
    set (lo := (p2 / 100)%Z) in *. set (hi := Z.min (lo + 1) (n - 1)).
    assert (Hlo : (0 <= lo <= n - 1)%Z).
    { unfold lo. Z.div_mod_to_equations. lia. }
    assert (Hle : nth (Z.to_nat lo) s 0 <= nth (Z.to_nat hi) s 0).
    { apply sorted_nth; [exact Hs| |]; unfold hi, n in *; lia. }
    assert (Hg : (p1 mod 100)%Z # 100 <= (p2 mod 100)%Z # 100).
    { unfold Qle; simpl. unfold lo in *. Z.div_mod_to_equations. lia. }
    generalize dependent ((p1 mod 100)%Z # 100). intros g1.
    generalize ((p2 mod 100)%Z # 100). intros g2 Hg.
    generalize dependent (nth (Z.to_nat lo) s 0). intros b.
    generalize (nth (Z.to_nat hi) s 0). intros t Hle.
    nra.
  - destruct (interpolate_between s p1 Hs) as [_ Hup]; [lia|].
    destruct (interpolate_between s p2 Hs) as [Hdown _]; [lia|].
    eapply Qle_trans; [exact Hup|]. eapply Qle_trans; [|exact Hdown].
    apply sorted_nth; [exact Hs| |].
    + assert (p1 / 100 < p2 / 100)%Z.
      { assert (p1 / 100 <= p2 / 100)%Z by (apply Z.div_le_mono; lia). lia. }
      assert (0 <= p1 / 100)%Z by (apply Z.div_pos; lia).
      lia.
    + assert (0 <= p2 / 100)%Z by (apply Z.div_pos; lia).
      assert (p2 / 100 <= Z.of_nat (List.length s) - 1)%Z.
      { Z.div_mod_to_equations. lia. }
      lia.
Qed.

(** Percentiles of a non-empty array grow with the rank. *)
Lemma percentile_mono (a : list Q) (q1 q2 : Z) :
  a <> [] -> (0 <= q1)%Z -> (q1 <= q2)%Z -> (q2 <= 100)%Z ->
  percentile a q1 <= percentile a q2.
Proof.
  intros Ha H0 H12 H2. rewrite !percentile_interpolate.
  assert (Hn : (1 <= Z.of_nat (List.length (sort_Q a)))%Z).
  { rewrite sort_Q_length. destruct a; [congruence|simpl; lia]. }
  apply interpolate_mono; [apply sort_Q_sorted| | |]; nia.
Qed.

Lemma expm1_mono (x y : R) : (x <= y)%R -> (expm1 x <= expm1 y)%R.
Proof.
  intro H. unfold expm1.
  destruct (Rle_lt_or_eq_dec x y H) as [Hlt|Heq].
  - pose proof (exp_increasing x y Hlt). lra.
  - subst. lra.
Qed.

End Percentiles.

(** ** The predictor on a fitted model *)

Section FittedPredictor.

Import FeatureEngine Predictor.

Variable hash : string -> Z.
Variable trees_accept_nan : bool.

Lemma select_cells (c : Case) (d : Derived) :
  select c d
  = [ Finite (IZR (fraud_type_code c)); Finite (IZR (industry_code c));
      Finite (IZR (jurisdiction_code c)); Finite (IZR (whistleblower c));
      Finite (IZR (defendant_size c)); Finite (IZR (settlement_year c));
      fraud_severity c;
      Finite (IZR (industry_fraud_interaction d));
      Finite (IZR (years_since_2010 d));
      Finite (IZR (whistleblower_fraud_interaction d));
      Finite (IZR (jurisdiction_risk d));
      Finite (IZR (size_fraud_interaction d)) ].
Proof. reflexivity. Qed.

Lemma standardize_length (X : list Cell) (means scales : list Q) :
  List.length means = List.length X -> List.length scales = List.length X ->
  List.length (standardize X means scales) = List.length X.
Proof.
  revert means scales. induction X as [|x X IH]; intros means scales Hm Hs.
  - reflexivity.
  - destruct means as [|m means]; [discriminate|].
    destruct scales as [|s scales]; [discriminate|].
    simpl. f_equal. apply IH; simpl in *; lia.
Qed.

(** The severity cell of a query with damages above -1 is a number. *)
Lemma fraud_severity_finite (ft : string) (damages : Q) (ind jur : string)
    (wb : bool) (yr : Z) :
  (-1 < damages)%Q ->
  exists v,
    fraud_severity (prediction_case hash ft damages ind jur wb yr) = Finite v.
Proof.
  intro Hd. apply Qltb_lt in Hd.
  cbn [prediction_case fraud_severity]. unfold log1p_cell, log1p.
  rewrite Hd. cbn [times]. eexists. reflexivity.
Qed.

(** With a scaler fitted on twelve columns and damages above -1, the
    feature row is built and scaled, and holds no NaN. *)
Lemma create_prediction_input_Ok (engine : SettlementFeatureEngine)
    (sc : StandardScaler) (ft : string) (damages : Q) (ind jur : string)
    (wb : bool) (yr : Z) :
  scaler engine = Some sc ->
  List.length (mean_ sc) = 12%nat -> List.length (scale_ sc) = 12%nat ->
  (-1 < damages)%Q ->
  exists X, create_prediction_input hash engine ft damages ind jur wb yr = Ok X
            /\ List.length X = 12%nat
            /\ has_nan X = false.
Proof.
  intros Hsc Hm Hs Hd.
  destruct (fraud_severity_finite ft damages ind jur wb yr Hd) as [v Hv].
  unfold create_prediction_input, transform_new_data, scaler_transform.
  rewrite Hsc, select_cells, Hv.
  cbn [map fillna_median existsb is_infinite orb List.length].
  rewrite Hm, Hs. cbn [Nat.eqb andb].
  eexists. split; [reflexivity|].
  destruct (mean_ sc) as [|m1 [|m2 [|m3 [|m4 [|m5 [|m6 [|m7 [|m8 [|m9
             [|m10 [|m11 [|m12 [|]]]]]]]]]]]]]; try discriminate.
  destruct (scale_ sc) as [|s1 [|s2 [|s3 [|s4 [|s5 [|s6 [|s7 [|s8 [|s9
             [|s10 [|s11 [|s12 [|]]]]]]]]]]]]]; try discriminate.
  split; reflexivity.
Qed.

Lemma is_fitted_inv (p : SettlementPredictor) :
  Cases.is_fitted p = true ->
  exists e sc,
    estimators_ (model p) = Some e
    /\ scaler (feature_engine p) = Some sc
    /\ List.length (mean_ sc) = 12%nat /\ List.length (scale_ sc) = 12%nat.
Proof.
  unfold Cases.is_fitted.
  destruct (estimators_ (model p)) as [e|]; [|discriminate].
  destruct (scaler (feature_engine p)) as [sc|]; [|discriminate].
  intro H. apply andb_true_iff in H. destruct H as [H1 H2].
  apply Nat.eqb_eq in H1, H2. exists e, sc. auto.
Qed.

(** A fitted predictor answers every case with damages above -1, and this
    is the dict it returns. *)
Lemma predict_settlement_range_fitted (p : SettlementPredictor)
    (ft : string) (damages : Q) (ind jur : string) (wb : bool) (yr : Z) :
  Cases.is_fitted p = true -> (-1 < damages)%Q ->
  exists X e,
    create_prediction_input hash (feature_engine p) ft damages ind jur wb yr
    = Ok X
    /\ estimators_ (model p) = Some e
    /\ predict_settlement_range hash trees_accept_nan p ft damages ind jur wb yr
       = Ok (let tree_predictions :=
               map (fun tree => tree_predict tree X) (trees e) in
             {| predicted_low := expm1 (Q2R (percentile tree_predictions 25));
                predicted_mid := expm1 (Q2R (percentile tree_predictions 50));
                predicted_high := expm1 (Q2R (percentile tree_predictions 75));
                confidence := (1 - Rmin (std tree_predictions / 2) (1 / 2))%R;
                input_damages := damages |}).
Proof.
  intros Hfit Hd.
  destruct (is_fitted_inv p Hfit) as (e & sc & He & Hsc & Hm & Hs).
  destruct (create_prediction_input_Ok (feature_engine p) sc ft damages ind
              jur wb yr Hsc Hm Hs Hd) as (X & HX & _ & Hnan).
  exists X, e. split; [exact HX|]. split; [exact He|].
  unfold predict_settlement_range. rewrite HX. cbn [bind]. rewrite He, Hnan.
  reflexivity.
Qed.

End FittedPredictor.

Lemma positive_above_minus_one (x : Q) : (0 < x)%Q -> (-1 < x)%Q.
Proof. intro H. lra. Qed.

(** C7.  For a fitted predictor and a case with positive damages,
    [predict_settlement_range] returns, and its three amounts are ordered:
    predicted_low <= predicted_mid <= predicted_high (they are the 25th,
    50th and 75th percentiles of one array of tree predictions, mapped
    through the increasing [expm1]). *)
Theorem predicted_range_is_ordered (hash : string -> Z)
    (trees_accept_nan : bool)
    (p : Predictor.SettlementPredictor) (fraud_type : string)
    (damages_claimed : Q) (industry jurisdiction : string)
    (whistleblower_present : bool) (settlement_year : Z) :
  Cases.is_fitted p = true ->
  (0 < damages_claimed)%Q ->
  exists res X e,
    Predictor.predict_settlement_range hash trees_accept_nan p fraud_type damages_claimed
      industry jurisdiction whistleblower_present settlement_year = Ok res
    /\ FeatureEngine.create_prediction_input hash (Predictor.feature_engine p)
         fraud_type damages_claimed industry jurisdiction
         whistleblower_present settlement_year = Ok X
    /\ Predictor.estimators_ (Predictor.model p) = Some e
    /\ (let tree_predictions :=
          map (fun tree => Predictor.tree_predict tree X) (Predictor.trees e) in
        Predictor.predicted_low res
        = expm1 (Q2R (Predictor.percentile tree_predictions 25))
        /\ Predictor.predicted_mid res
           = expm1 (Q2R (Predictor.percentile tree_predictions 50))
        /\ Predictor.predicted_high res
           = expm1 (Q2R (Predictor.percentile tree_predictions 75)))
    /\ (Predictor.predicted_low res <= Predictor.predicted_mid res)%R
    /\ (Predictor.predicted_mid res <= Predictor.predicted_high res)%R.
Proof.
  intros Hfit Hd.
  destruct (predict_settlement_range_fitted hash trees_accept_nan p fraud_type damages_claimed
              industry jurisdiction whistleblower_present settlement_year
              Hfit (positive_above_minus_one _ Hd)) as (X & e & HX & He & Hres).
  eexists. exists X, e. split; [exact Hres|].
  split; [exact HX|]. split; [exact He|].
  cbv zeta. cbn [Predictor.predicted_low Predictor.predicted_mid
                 Predictor.predicted_high].
  split; [repeat split|].
  assert (Hne : map (fun tree => Predictor.tree_predict tree X)
                  (Predictor.trees e) <> []).
  { unfold Predictor.trees. simpl. discriminate. }
  split; apply expm1_mono, Qle_Rle, percentile_mono; try exact Hne; lia.
Qed.

Lemma predicted_range_is_ordered_witness :
  Cases.is_fitted Cases.sample_predictor = true
  /\ (0 < 10000000)%Q
  /\ exists res,
       Predictor.predict_settlement_range Cases.sample_hash true
         Cases.sample_predictor "healthcare" 10000000 "pharmaceutical"
         "Southern District of New York" true 2024 = Ok res
       /\ (Predictor.predicted_low res <= Predictor.predicted_mid res)%R
       /\ (Predictor.predicted_mid res <= Predictor.predicted_high res)%R.
Proof.
  assert (H1 : Cases.is_fitted Cases.sample_predictor = true) by reflexivity.
  assert (H2 : (0 < 10000000)%Q) by reflexivity.
  split; [exact H1|]. split; [exact H2|].
  destruct (predicted_range_is_ordered Cases.sample_hash true Cases.sample_predictor
           "healthcare" 10000000 "pharmaceutical"
           "Southern District of New York" true 2024 H1 H2)
    as (res & _ & _ & Hres & _ & _ & _ & Hlow & Hhigh).
  exists res. split; [exact Hres|]. split; assumption.
Defined.

(** C8.  For a fitted predictor and a case with positive damages, the
    confidence returned is 1 - min(std / 2, 0.5) for the standard deviation
    of the tree predictions, and lies in [0.5, 1]. *)
Theorem confidence_in_range (hash : string -> Z)
    (trees_accept_nan : bool)
    (p : Predictor.SettlementPredictor) (fraud_type : string)
    (damages_claimed : Q) (industry jurisdiction : string)
    (whistleblower_present : bool) (settlement_year : Z) :
  Cases.is_fitted p = true ->
  (0 < damages_claimed)%Q ->
  exists res X e,
    Predictor.predict_settlement_range hash trees_accept_nan p fraud_type damages_claimed
      industry jurisdiction whistleblower_present settlement_year = Ok res
    /\ FeatureEngine.create_prediction_input hash (Predictor.feature_engine p)
         fraud_type damages_claimed industry jurisdiction
         whistleblower_present settlement_year = Ok X
    /\ Predictor.estimators_ (Predictor.model p) = Some e
    /\ Predictor.confidence res
       = (1 - Rmin (Predictor.std
                      (map (fun tree => Predictor.tree_predict tree X)
                         (Predictor.trees e)) / 2) (1 / 2))%R
    /\ (0 <= Predictor.std (map (fun tree => Predictor.tree_predict tree X)
                              (Predictor.trees e)))%R
    /\ (1 / 2 <= Predictor.confidence res <= 1)%R.
Proof.
  intros Hfit Hd.
  destruct (predict_settlement_range_fitted hash trees_accept_nan p fraud_type damages_claimed
              industry jurisdiction whistleblower_present settlement_year
              Hfit (positive_above_minus_one _ Hd)) as (X & e & HX & He & Hres).
  eexists. exists X, e. split; [exact Hres|].
  split; [exact HX|]. split; [exact He|].
  cbv zeta. cbn [Predictor.confidence].
  split; [reflexivity|].
  set (sd := Predictor.std _).
  assert (Hsd : (0 <= sd)%R) by (unfold sd, Predictor.std; apply sqrt_pos).
  split; [exact Hsd|].
  unfold Rmin. destruct (Rle_dec (sd / 2) (1 / 2)); lra.
Qed.

Lemma confidence_in_range_witness :
  Cases.is_fitted Cases.sample_predictor = true
  /\ (0 < 10000000)%Q
  /\ exists res,
       Predictor.predict_settlement_range Cases.sample_hash true
         Cases.sample_predictor "healthcare" 10000000 "pharmaceutical"
         "Southern District of New York" true 2024 = Ok res
       /\ (1 / 2 <= Predictor.confidence res <= 1)%R.
Proof.
  assert (H1 : Cases.is_fitted Cases.sample_predictor = true) by reflexivity.
  assert (H2 : (0 < 10000000)%Q) by reflexivity.
  split; [exact H1|]. split; [exact H2|].
  destruct (confidence_in_range Cases.sample_hash true Cases.sample_predictor
           "healthcare" 10000000 "pharmaceutical"
           "Southern District of New York" true 2024 H1 H2)
    as (res & _ & _ & Hres & _ & _ & _ & _ & Hrange).
  exists res. split; [exact Hres|exact Hrange].
Defined.

(** ** The serving endpoint *)

Section ServingLemmas.

Import FeatureEngine Predictor Serving.

Variable hash : string -> Z.
Variable trees_accept_nan : bool.

(** Every request gets its own entry, whatever happened to the others. *)
Lemma batch_loop_map (p : SettlementPredictor) (requests : list PredictionRequest) :
  batch_loop hash trees_accept_nan p requests = (map (batch_item hash trees_accept_nan p) requests, requests).
Proof.
  induction requests as [|req requests IH]; simpl; [reflexivity|].
  rewrite IH. reflexivity.
Qed.

Lemma batch_item_status (p : SettlementPredictor) (req : PredictionRequest) :
  (exists pr, call_predictor hash trees_accept_nan p req = Ok pr
              /\ prediction (batch_item hash trees_accept_nan p req) = Some pr
              /\ status (batch_item hash trees_accept_nan p req) = "success"%string)
  \/ (exists e, call_predictor hash trees_accept_nan p req = Raise e
                /\ error (batch_item hash trees_accept_nan p req) = Some e
                /\ status (batch_item hash trees_accept_nan p req) = "failed"%string).
Proof.
  unfold batch_item. destruct (call_predictor hash trees_accept_nan p req) as [pr|e].
  - left. exists pr. auto.
  - right. exists e. auto.
Qed.

Lemma count_status_total (p : SettlementPredictor)
    (requests : list PredictionRequest) :
  (count_status "success" (map (batch_item hash trees_accept_nan p) requests)
   + count_status "failed" (map (batch_item hash trees_accept_nan p) requests))%nat
  = List.length requests.
Proof.
  unfold count_status.
  induction requests as [|req requests IH]; [reflexivity|].
  cbn [map filter List.length].
  destruct (batch_item_status p req) as [(pr & _ & _ & Hs)|(e & _ & _ & Hs)];
    rewrite Hs; simpl; lia.
Qed.

Lemma field_constraints_damages (req : PredictionRequest) :
  field_constraints req = true -> (0 < damages_claimed req)%Q.
Proof.
  unfold field_constraints. repeat rewrite andb_true_iff.
  intros [[H _] _]. apply Qltb_lt. exact H.
Qed.

(** A string outside the vocabulary of the endpoint is no key of the
    mapping of the feature engine. *)
Lemma unknown_fraud_type_unmapped (s : string) :
  str_in s valid_fraud_types = false -> dict_get fraud_type_mapping s = None.
Proof.
  unfold str_in, valid_fraud_types, fraud_type_mapping. simpl.
  repeat rewrite orb_false_iff.
  intros (H1 & H2 & H3 & H4 & H5 & H6 & H7 & H8 & _).
  rewrite H1, H2, H3, H4, H5, H6, H7, H8. reflexivity.
Qed.

Lemma unknown_industry_unmapped (s : string) :
  str_in s valid_industries = false -> dict_get industry_mapping s = None.
Proof.
  unfold str_in, valid_industries, industry_mapping. simpl.
  repeat rewrite orb_false_iff.
  intros (H1 & H2 & H3 & H4 & H5 & H6 & H7 & H8 & _).
  rewrite H1, H2, H3, H4, H5, H6, H7, H8. reflexivity.
Qed.

(** An unfitted predictor raises on every case. *)
Lemma new_predictor_raises (req : PredictionRequest) :
  exists e, call_predictor hash trees_accept_nan new_predictor req = Raise e.
Proof.
  eexists. reflexivity.
Qed.

End ServingLemmas.

(** ** Claims about the serving endpoint *)

(** C3 (the code disagrees with the claim).  When the model or the scaler
    artifact is missing at startup, the startup hook still leaves a
    predictor object in the global: an unfitted [SettlementPredictor()].
    The guard of [POST /predict] tests only that the object exists, so the
    endpoint never answers 503: a request that passes validation reaches
    the unfitted predictor and is answered 500.  The health check does not
    report a model-not-loaded state either: it raises, on the truth value
    of the unfitted forest, before it has built its answer. *)
Theorem predict_without_artifacts (hash : string -> Z)
    (trees_accept_nan : bool)
    (dir : Serving.ModelsDir) (request : Serving.PredictionRequest) :
  Serving.exists_ (Serving.settlement_model_latest dir)
  && Serving.exists_ (Serving.feature_scaler_latest dir) = false ->
  Serving.load_model dir = Some Predictor.new_predictor
  /\ Serving.health_check (Serving.load_model dir)
     = Raise "AttributeError: 'RandomForestRegressor' object has no attribute 'estimators_'"
  /\ Serving.status_code_of
       (Serving.post_predict hash trees_accept_nan (Serving.load_model dir)
          request) <> 503%Z
  /\ (Serving.field_constraints request = true ->
      str_in (lower (Serving.fraud_type request)) Serving.valid_fraud_types = true ->
      str_in (lower (Serving.industry request)) Serving.valid_industries = true ->
      Serving.status_code_of
        (Serving.post_predict hash trees_accept_nan (Serving.load_model dir)
           request) = 500%Z).
Proof.
  intro Habsent.
  assert (Hload : Serving.load_model dir = Some Predictor.new_predictor).
  { unfold Serving.load_model. rewrite Habsent. reflexivity. }
  rewrite Hload. split; [reflexivity|]. split; [reflexivity|].
  unfold Serving.post_predict, Serving.predict_settlement.
  destruct (new_predictor_raises hash trees_accept_nan request) as [e He].
  rewrite He.
  split.
  - destruct (Serving.field_constraints request); [|discriminate].
    destruct (negb (str_in _ Serving.valid_fraud_types)); [discriminate|].
    destruct (negb (str_in _ Serving.valid_industries)); discriminate.
  - intros -> -> ->. reflexivity.
Qed.

Lemma predict_without_artifacts_witness :
  Serving.exists_ (Serving.settlement_model_latest Cases.empty_models_dir)
  && Serving.exists_ (Serving.feature_scaler_latest Cases.empty_models_dir)
  = false
  /\ Serving.health_check (Serving.load_model Cases.empty_models_dir)
     = Raise "AttributeError: 'RandomForestRegressor' object has no attribute 'estimators_'"
  /\ Serving.status_code_of
       (Serving.post_predict Cases.sample_hash true
          (Serving.load_model Cases.empty_models_dir) Cases.sample_request)
     = 500%Z.
Proof.
  assert (H : Serving.exists_
                (Serving.settlement_model_latest Cases.empty_models_dir)
              && Serving.exists_
                   (Serving.feature_scaler_latest Cases.empty_models_dir)
              = false) by reflexivity.
  split; [exact H|].
  destruct (predict_without_artifacts Cases.sample_hash true
              Cases.empty_models_dir Cases.sample_request H)
    as (_ & Hhealth & _ & H500).
  split; [exact Hhealth|].
  apply H500; reflexivity.
Defined.

(** The handler itself, called on a list that skipped request validation,
    marks an item with [damages_claimed = 0] succeeded: [log1p 0] is 0 and
    nothing raises. *)
Lemma handler_accepts_zero_damages :
  exists resp calls,
    Serving.batch_predict Cases.sample_hash true (Some Cases.sample_predictor)
      Cases.batch_with_bad_item_50 = (Serving.Body resp, calls)
    /\ option_map Serving.status (nth_error (Serving.results resp) 49)
       = Some "success"%string.
Proof.
  unfold Serving.batch_predict.
  replace (Nat.ltb 100 (List.length Cases.batch_with_bad_item_50))
    with false by (vm_compute; reflexivity).
  rewrite batch_loop_map. eexists. eexists. split; [reflexivity|].
  cbn [Serving.results].
  rewrite (map_nth_error _ 49 Cases.batch_with_bad_item_50
             (d := Cases.zero_damages_request)) by reflexivity.
  cbn [option_map].
  destruct (batch_item_status Cases.sample_hash true Cases.sample_predictor
              Cases.zero_damages_request)
    as [(pr & _ & _ & Hs)|(e & He & _ & _)]; [rewrite Hs; reflexivity|].
  exfalso.
  destruct (predict_settlement_range_fitted Cases.sample_hash true
              Cases.sample_predictor
              (Serving.fraud_type Cases.zero_damages_request)
              (Serving.damages_claimed Cases.zero_damages_request)
              (Serving.industry Cases.zero_damages_request)
              (Serving.jurisdiction Cases.zero_damages_request)
              (Serving.whistleblower_present Cases.zero_damages_request)
              (Serving.settlement_year Cases.zero_damages_request)
              eq_refl eq_refl)
    as (X & est & _ & _ & Hres).
  unfold Serving.call_predictor in He. rewrite Hres in He.
  discriminate.
Qed.

(** C4, as stated, fails on the second half: a body of 100 items whose
    item #50 has [damages_claimed = 0] never reaches the handler.  The
    whole request is answered 422 and there is no per-item result. *)
Lemma batch_with_bad_item_50_is_rejected :
  List.length Cases.batch_with_bad_item_50 = 100%nat
  /\ (Serving.damages_claimed
        (nth 49 Cases.batch_with_bad_item_50 Cases.sample_request) <= 0)%Q
  /\ Serving.post_batch_predict Cases.sample_hash true
       (Some Cases.sample_predictor) Cases.batch_with_bad_item_50
     = (Serving.HTTPException 422 "Unprocessable Entity", [])
  /\ ~ (exists resp calls,
          Serving.post_batch_predict Cases.sample_hash true
            (Some Cases.sample_predictor) Cases.batch_with_bad_item_50
          = (Serving.Body resp, calls)
          /\ List.length (Serving.results resp) = 100%nat).
Proof.
  assert (H : Serving.post_batch_predict Cases.sample_hash true
                (Some Cases.sample_predictor) Cases.batch_with_bad_item_50
              = (Serving.HTTPException 422 "Unprocessable Entity", [])).
  { unfold Serving.post_batch_predict.
    replace (forallb Serving.field_constraints Cases.batch_with_bad_item_50)
      with false by (vm_compute; reflexivity).
    reflexivity. }
  split; [reflexivity|]. split; [vm_compute; discriminate|].
  split; [exact H|].
  intros (resp & calls & Hbody & _). rewrite H in Hbody. discriminate.
Qed.

(** C4, amended.  With a predictor loaded: a body of more than 100 items
    that passes request validation is answered 400 and no item reaches the
    predictor; a body with an item whose damages_claimed <= 0 is answered
    422 as a whole and no item reaches the predictor; a body of at most 100
    valid items is answered with one result per item, in order, each marked
    failed exactly when the predictor raised on that item and succeeded
    otherwise, so that one failing item never aborts the batch. *)
Theorem batch_endpoint_contract (hash : string -> Z)
    (trees_accept_nan : bool)
    (p : Predictor.SettlementPredictor)
    (body : list Serving.PredictionRequest) :
  ((100 < List.length body)%nat ->
   forallb Serving.field_constraints body = true ->
   Serving.post_batch_predict hash trees_accept_nan (Some p) body
   = (Serving.HTTPException 400 "Batch size limited to 100 predictions", []))
  /\ (forall req, In req body -> (Serving.damages_claimed req <= 0)%Q ->
      Serving.post_batch_predict hash trees_accept_nan (Some p) body
      = (Serving.HTTPException 422 "Unprocessable Entity", []))
  /\ ((List.length body <= 100)%nat ->
      forallb Serving.field_constraints body = true ->
      exists resp,
        Serving.post_batch_predict hash trees_accept_nan (Some p) body = (Serving.Body resp, body)
        /\ Serving.total resp = List.length body
        /\ List.length (Serving.results resp) = List.length body
        /\ (Serving.successful resp + Serving.failed resp)%nat
           = List.length body
        /\ forall i req, nth_error body i = Some req ->
             exists item,
               nth_error (Serving.results resp) i = Some item
               /\ Serving.input item = req
               /\ ((exists pr, Serving.call_predictor hash trees_accept_nan p req = Ok pr
                               /\ Serving.prediction item = Some pr
                               /\ Serving.status item = "success"%string)
                   \/ (exists e, Serving.call_predictor hash trees_accept_nan p req = Raise e
                                 /\ Serving.error item = Some e
                                 /\ Serving.status item = "failed"%string))).
Proof.
  split; [|split].
  - intros Hlen Hvalid. unfold Serving.post_batch_predict, Serving.batch_predict.
    rewrite Hvalid.
    apply Nat.ltb_lt in Hlen. rewrite Hlen. reflexivity.
  - intros req Hin Hbad. unfold Serving.post_batch_predict.
    destruct (forallb Serving.field_constraints body) eqn:E; [|reflexivity].
    rewrite forallb_forall in E.
    pose proof (field_constraints_damages req (E req Hin)) as Hpos.
    exfalso. exact (Qlt_not_le _ _ Hpos Hbad).
  - intros Hlen Hvalid. unfold Serving.post_batch_predict, Serving.batch_predict.
    rewrite Hvalid.
    destruct (Nat.ltb_spec 100 (List.length body)) as [Hgt|_]; [lia|].
    rewrite batch_loop_map.
    eexists. split; [reflexivity|].
    cbn [Serving.total Serving.results Serving.successful Serving.failed].
    split; [reflexivity|]. split; [apply length_map|].
    split; [apply count_status_total|].
    intros i req Hi. exists (Serving.batch_item hash trees_accept_nan p req).
    split; [apply map_nth_error; exact Hi|].
    split.
    + unfold Serving.batch_item. destruct (Serving.call_predictor hash trees_accept_nan p req); reflexivity.
    + apply batch_item_status.
Qed.

Lemma batch_endpoint_contract_witness :
  (100 < List.length Cases.batch_of_101)%nat
  /\ forallb Serving.field_constraints Cases.batch_of_101 = true
  /\ Serving.post_batch_predict Cases.sample_hash true (Some Cases.sample_predictor)
       Cases.batch_of_101
     = (Serving.HTTPException 400 "Batch size limited to 100 predictions", [])
  /\ In Cases.zero_damages_request Cases.batch_with_bad_item_50
  /\ (Serving.damages_claimed Cases.zero_damages_request <= 0)%Q
  /\ Serving.post_batch_predict Cases.sample_hash true (Some Cases.sample_predictor)
       Cases.batch_with_bad_item_50
     = (Serving.HTTPException 422 "Unprocessable Entity", [])
  /\ exists resp,
       Serving.post_batch_predict Cases.sample_hash true
         (Some Cases.sample_predictor)
         [Cases.sample_request; Cases.unknown_fraud_request]
       = (Serving.Body resp,
          [Cases.sample_request; Cases.unknown_fraud_request])
       /\ List.length (Serving.results resp) = 2%nat.
Proof.
  assert (H1 : (100 < List.length Cases.batch_of_101)%nat)
    by (vm_compute; lia).
  assert (H2 : forallb Serving.field_constraints Cases.batch_of_101 = true)
    by (vm_compute; reflexivity).
  assert (H3 : In Cases.zero_damages_request Cases.batch_with_bad_item_50).
  { unfold Cases.batch_with_bad_item_50. apply in_or_app. right.
    left. reflexivity. }
  assert (H4 : (Serving.damages_claimed Cases.zero_damages_request <= 0)%Q)
    by (vm_compute; discriminate).
  destruct (batch_endpoint_contract Cases.sample_hash true Cases.sample_predictor
              Cases.batch_of_101) as (P1 & _ & _).
  destruct (batch_endpoint_contract Cases.sample_hash true Cases.sample_predictor
              Cases.batch_with_bad_item_50) as (_ & P2 & _).
  destruct (batch_endpoint_contract Cases.sample_hash true Cases.sample_predictor
              [Cases.sample_request; Cases.unknown_fraud_request])
    as (_ & _ & P3).
  split; [exact H1|]. split; [exact H2|]. split; [exact (P1 H1 H2)|].
  split; [exact H3|]. split; [exact H4|].
  split; [exact (P2 _ H3 H4)|].
  destruct P3 as (resp & Hresp & _ & Hlen & _).
  - simpl. lia.
  - vm_compute. reflexivity.
  - exists resp. split; [exact Hresp|exact Hlen].
Defined.

(** C5 (the code disagrees with the claim on the batch path).  For a
    request that passes the field constraints and whose fraud type is
    outside the eight accepted values, [POST /predict] answers 400 with the
    list of the eight values, but [POST /batch-predict] on a loaded, fitted
    predictor hands the item to the feature engine, which gives the unknown
    type the code 7 of "other", and marks the item succeeded. *)
Theorem batch_accepts_unknown_fraud_type (hash : string -> Z)
    (trees_accept_nan : bool)
    (p : Predictor.SettlementPredictor) (req : Serving.PredictionRequest) :
  Cases.is_fitted p = true ->
  Serving.field_constraints req = true ->
  str_in (lower (Serving.fraud_type req)) Serving.valid_fraud_types = false ->
  Serving.post_predict hash trees_accept_nan (Some p) req
  = Serving.HTTPException 400
      "Invalid fraud_type. Must be one of: healthcare, defense, covid, procurement, grant, housing, education, other"
  /\ FeatureEngine.fraud_type_code
       (FeatureEngine.prediction_case hash (Serving.fraud_type req)
          (Serving.damages_claimed req) (Serving.industry req)
          (Serving.jurisdiction req) (Serving.whistleblower_present req)
          (Serving.settlement_year req)) = 7%Z
  /\ exists resp item pr,
       Serving.post_batch_predict hash trees_accept_nan (Some p) [req] = (Serving.Body resp, [req])
       /\ Serving.results resp = [item]
       /\ Serving.input item = req
       /\ Serving.prediction item = Some pr
       /\ Serving.status item = "success"%string
       /\ Serving.successful resp = 1%nat
       /\ Serving.failed resp = 0%nat.
Proof.
  intros Hfit Hvalid Hunknown. split; [|split].
  - unfold Serving.post_predict, Serving.predict_settlement.
    rewrite Hvalid, Hunknown. reflexivity.
  - cbn [FeatureEngine.fraud_type_code FeatureEngine.prediction_case].
    unfold dict_get_default.
    rewrite (unknown_fraud_type_unmapped _ Hunknown). reflexivity.
  - destruct (predict_settlement_range_fitted hash trees_accept_nan p (Serving.fraud_type req)
                (Serving.damages_claimed req) (Serving.industry req)
                (Serving.jurisdiction req) (Serving.whistleblower_present req)
                (Serving.settlement_year req) Hfit
                (positive_above_minus_one _
                   (field_constraints_damages req Hvalid)))
      as (X & e & _ & _ & Hres).
    unfold Serving.post_batch_predict, Serving.batch_predict.
    cbn [forallb]. rewrite Hvalid. cbn [andb List.length Nat.ltb Nat.leb].
    rewrite batch_loop_map. cbn [map].
    unfold Serving.batch_item, Serving.call_predictor. rewrite Hres.
    eexists. eexists. eexists.
    split; [reflexivity|].
    cbn [Serving.results Serving.successful Serving.failed Serving.input
         Serving.prediction Serving.status].
    repeat split.
Qed.

Lemma batch_accepts_unknown_fraud_type_witness :
  Cases.is_fitted Cases.sample_predictor = true
  /\ Serving.field_constraints Cases.unknown_fraud_request = true
  /\ str_in (lower (Serving.fraud_type Cases.unknown_fraud_request))
       Serving.valid_fraud_types = false
  /\ Serving.status_code_of
       (Serving.post_predict Cases.sample_hash true (Some Cases.sample_predictor)
          Cases.unknown_fraud_request) = 400%Z
  /\ exists resp,
       Serving.post_batch_predict Cases.sample_hash true
         (Some Cases.sample_predictor) [Cases.unknown_fraud_request]
       = (Serving.Body resp, [Cases.unknown_fraud_request])
       /\ map Serving.status (Serving.results resp) = ["success"%string]
       /\ Serving.failed resp = 0%nat.
Proof.
  assert (H1 : Cases.is_fitted Cases.sample_predictor = true) by reflexivity.
  assert (H2 : Serving.field_constraints Cases.unknown_fraud_request = true)
    by (vm_compute; reflexivity).
  assert (H3 : str_in (lower (Serving.fraud_type Cases.unknown_fraud_request))
                 Serving.valid_fraud_types = false)
    by (vm_compute; reflexivity).
  destruct (batch_accepts_unknown_fraud_type Cases.sample_hash true
              Cases.sample_predictor Cases.unknown_fraud_request H1 H2 H3)
    as (Hsingle & _ & resp & item & pr & Hresp & Hitems & _ & _ & Hstatus
        & _ & Hfailed).
  split; [exact H1|]. split; [exact H2|]. split; [exact H3|].
  split; [rewrite Hsingle; reflexivity|].
  exists resp. split; [exact Hresp|].
  split; [rewrite Hitems; simpl; rewrite Hstatus; reflexivity|exact Hfailed].
Defined.

(** ** Further properties of the cleaner *)

Section CleanerOutcome.

Import Cleaner Clean CleanerFacts.
Local Open Scope Q_scope.

Lemma clean_amounts_In (data : DataFrame) (r : Row) :
  In r (clean_amounts data) <->
  exists r0, In r0 data
             /\ r = with_amount (to_numeric (amount r0)) r0
             /\ isna_amount (amount r0) = false
             /\ outlier (to_numeric (amount r0)) = false.
Proof.
  unfold clean_amounts. rewrite filter_In, in_map_iff. split.
  - intros [(r0 & <- & Hin) Hout]. apply filter_In in Hin.
    destruct Hin as [Hin Hna]. exists r0. repeat split; try assumption.
    + apply negb_true_iff. exact Hna.
    + apply negb_true_iff. exact Hout.
  - intros (r0 & Hin & -> & Hna & Hout). split.
    + exists r0. split; [reflexivity|]. apply filter_In. split; [exact Hin|].
      apply negb_true_iff. exact Hna.
    + apply negb_true_iff. exact Hout.
Qed.

Lemma clean_dates_keeps (data : DataFrame) (r : Row) (d : Date) :
  In r data -> date r = Some d -> In (with_dates d r) (clean_dates data).
Proof.
  induction data as [|r0 data IH]; simpl; [tauto|].
  intros [->|Hin] Hd.
  - rewrite Hd. left. reflexivity.
  - destruct (date r0); [right|]; apply IH; assumption.
Qed.

(** [create_features] meets a NaN label exactly when a non-numeric amount
    came with a parseable date. *)
Lemma isna_size_encoded (data : DataFrame) :
  existsb isna_size (encoded data) = existsb nan_amount_survives data.
Proof.
  apply eq_true_iff_eq. rewrite !existsb_exists. split.
  - intros (r3 & Hin & Hna). unfold encoded, encode_categories in Hin.
    apply in_map_iff in Hin. destruct Hin as (r2 & <- & Hin).
    apply clean_dates_In in Hin. destruct Hin as (r1 & d & Hin & Hd & ->).
    apply clean_amounts_In in Hin.
    destruct Hin as (r0 & Hin & -> & Hnull & Hout).
    exists r0. split; [exact Hin|].
    unfold isna_size in Hna. cbn [amount_2024 encode_row with_dates amount
                                  with_amount] in Hna.
    cbn [date with_amount] in Hd.
    unfold nan_amount_survives. rewrite Hd. cbn [present].
    destruct (amount r0) as [|a|s]; try discriminate; [|reflexivity].
    exfalso. cbn [to_numeric amount_value _adjust_for_inflation option_map]
      in Hna.
    cbn [to_numeric outlier] in Hout. apply orb_false_iff in Hout.
    destruct Hout as [_ Hlo]. apply Qltb_ge in Hlo.
    assert (Hpos : cut_size (Some (a * multiplier (year d))) <> None).
    { apply cut_size_positive. eexists. split; [reflexivity|].
      pose proof (multiplier_ge_1 (year d)) as Hm. clear Hna.
      generalize dependent (multiplier (year d)). intros m Hm. nra. }
    destruct (cut_size (Some (a * multiplier (year d)))) eqn:E;
      [discriminate|].
    exact (Hpos eq_refl).
  - intros (r0 & Hin & Hp). unfold nan_amount_survives in Hp.
    apply andb_true_iff in Hp. destruct Hp as [Ht Hd].
    destruct (amount r0) as [|a|s] eqn:Ea; try discriminate.
    destruct (date r0) as [d|] eqn:Ed; [|discriminate].
    exists (encode_row
              (map (fun r => fillna "Unknown" (jurisdiction r))
                 (clean_dates (clean_amounts data)))
              (with_dates d (with_amount AmountNull r0))).
    split.
    + unfold encoded, encode_categories. apply in_map.
      apply clean_dates_keeps; [|exact Ed].
      apply clean_amounts_In. exists r0. rewrite Ea. auto.
    + reflexivity.
Qed.

Lemma steps_Ok_length (data cleaned : DataFrame) :
  clean_steps data = Ok cleaned ->
  existsb nonpositive cleaned = false.
Proof.
  intro H. apply adjusted_positive.
  intros r Hin. eapply clean_steps_adjusted; eassumption.
Qed.

Lemma clean_steps_outcome (data : DataFrame) :
  clean_steps data
  = if existsb nan_amount_survives data
    then Raise "ValueError: Cannot convert float NaN to integer"
    else Ok (deduplicated data).
Proof.
  unfold clean_steps, create_features. fold (encoded data).
  rewrite isna_size_encoded.
  destruct (existsb nan_amount_survives data); reflexivity.
Qed.

(** X1.  [clean_all] has three outcomes and which one it is can be read
    off the input: it raises the ValueError of [astype(int)] as soon as one
    row combines an unreadable amount with a parseable date; otherwise it
    raises the validation error when fewer than 20 rows are left after the
    removal of duplicates; otherwise it returns those rows. *)
Theorem clean_all_outcome (data : DataFrame) :
  clean_all data
  = if existsb nan_amount_survives data
    then Raise "ValueError: Cannot convert float NaN to integer"
    else if Nat.leb 20 (List.length (deduplicated data))
         then Ok (deduplicated data)
         else Raise "ValueError: Data validation failed. Check logs for details.".
Proof.
  pose proof (clean_steps_outcome data) as Hsteps.
  unfold clean_all. rewrite Hsteps.
  destruct (existsb nan_amount_survives data); [reflexivity|].
  cbn [bind].
  assert (Hpos : existsb nonpositive (deduplicated data) = false).
  { apply steps_Ok_length with (data := data). exact Hsteps. }
  unfold validate_data, issues. rewrite Hpos.
  destruct (Nat.leb_spec 20 (List.length (deduplicated data))) as [Hge|Hlt].
  - destruct (Nat.ltb_spec (List.length (deduplicated data)) 20); [lia|].
    reflexivity.
  - destruct (Nat.ltb_spec (List.length (deduplicated data)) 20); [|lia].
    reflexivity.
Qed.

End CleanerOutcome.

Section Duplicates.

Import Cleaner Clean CleanerFacts.

Lemma same_triple_refl (r : Row) : same_triple r r = true.
Proof.
  unfold same_triple. repeat (apply andb_true_iff; split).
  - destruct (defendant r); simpl; [apply String.eqb_refl|reflexivity].
  - destruct (amount r) as [|a|s]; simpl;
      [reflexivity|apply Qeq_bool_iff; reflexivity|apply String.eqb_refl].
  - destruct (settlement_year r); simpl; [apply Z.eqb_refl|reflexivity].
Qed.

Lemma same_triple_trans (r1 r2 r3 : Row) :
  same_triple r1 r2 = true -> same_triple r2 r3 = true ->
  same_triple r1 r3 = true.
Proof.
  unfold same_triple. rewrite !andb_true_iff.
  intros [[Hd Ha] Hy] [[Hd' Ha'] Hy']. repeat split.
  - destruct (defendant r1), (defendant r2), (defendant r3); simpl in *;
      try discriminate; try reflexivity.
    apply String.eqb_eq in Hd, Hd'. subst. apply String.eqb_refl.
  - destruct (amount r1), (amount r2), (amount r3); simpl in *;
      try discriminate; try reflexivity.
    + apply Qeq_bool_iff in Ha, Ha'. apply Qeq_bool_iff.
      eapply Qeq_trans; eassumption.
    + apply String.eqb_eq in Ha, Ha'. subst. apply String.eqb_refl.
  - destruct (settlement_year r1), (settlement_year r2), (settlement_year r3);
      simpl in *; try discriminate; try reflexivity.
    apply Z.eqb_eq in Hy, Hy'. subst. apply Z.eqb_refl.
Qed.

Lemma drop_duplicates_unseen (seen data : DataFrame) (r : Row) :
  In r (drop_duplicates seen data) -> existsb (same_triple r) seen = false.
Proof.
  revert seen. induction data as [|r0 data IH]; simpl; intros seen Hin;
    [contradiction|].
  destruct (existsb (same_triple r0) seen) eqn:E.
  - apply IH. exact Hin.
  - destruct Hin as [<-|Hin]; [exact E|].
    apply IH in Hin. simpl in Hin. apply orb_false_iff in Hin. tauto.
Qed.

Lemma drop_duplicates_distinct (seen data : DataFrame) :
  distinct_triples (drop_duplicates seen data) = true.
Proof.
  revert seen. induction data as [|r data IH]; simpl; intro seen;
    [reflexivity|].
  destruct (existsb (same_triple r) seen) eqn:E; [apply IH|].
  simpl. apply andb_true_iff. split; [|apply IH].
  apply negb_true_iff.
  destruct (existsb (same_triple r) (drop_duplicates (r :: seen) data)) eqn:Ex;
    [|reflexivity].
  apply existsb_exists in Ex. destruct Ex as (r' & Hin & Hsame).
  apply drop_duplicates_unseen in Hin. simpl in Hin.
  apply orb_false_iff in Hin. destruct Hin as [Hr _].
  rewrite same_triple_sym in Hr. congruence.
Qed.

(** Comparing with the rows kept so far finds the same duplicates as
    comparing with all earlier rows. *)
Lemma drop_duplicates_keep_firsts (seen earlier data : DataFrame) :
  (forall r, existsb (same_triple r) seen = existsb (same_triple r) earlier) ->
  drop_duplicates seen data = keep_firsts earlier data.
Proof.
  revert seen earlier. induction data as [|r data IH]; simpl;
    intros seen earlier Hcover; [reflexivity|].
  rewrite <- Hcover.
  destruct (existsb (same_triple r) seen) eqn:E.
  - apply IH. intro x. simpl. rewrite <- Hcover.
    destruct (same_triple x r) eqn:Ex; [|reflexivity]. simpl.
    apply existsb_exists in E. destruct E as (s & Hs & Hrs).
    apply existsb_exists. exists s. split; [exact Hs|].
    eapply same_triple_trans; eassumption.
  - f_equal. apply IH. intro x. simpl. rewrite Hcover. reflexivity.
Qed.

(** X2.  [remove_duplicates] keeps a row exactly when no earlier row of
    the frame has the same (defendant, amount, settlement_year); no two rows
    of the result share their triple; every row of the input has a row with
    its triple in the result; a second call changes nothing. *)
Theorem remove_duplicates_keeps_firsts (data : DataFrame) :
  remove_duplicates data = keep_firsts [] data
  /\ distinct_triples (remove_duplicates data) = true
  /\ (forall r, In r data ->
        exists r', In r' (remove_duplicates data) /\ same_triple r r' = true)
  /\ remove_duplicates (remove_duplicates data) = remove_duplicates data.
Proof.
  split; [|split; [|split]].
  - unfold remove_duplicates. apply drop_duplicates_keep_firsts. reflexivity.
  - apply drop_duplicates_distinct.
  - unfold remove_duplicates.
    assert (Hgen : forall seen r, In r data ->
              existsb (same_triple r) seen = true
              \/ exists r', In r' (drop_duplicates seen data)
                            /\ same_triple r r' = true).
    { induction data as [|r0 data IH]; intros seen r Hin; [contradiction|].
      simpl. destruct Hin as [->|Hin].
      - destruct (existsb (same_triple r) seen) eqn:E; [left; reflexivity|].
        right. exists r. split; [left; reflexivity|apply same_triple_refl].
      - destruct (existsb (same_triple r0) seen) eqn:E.
        + apply IH. exact Hin.
        + destruct (IH (r0 :: seen) r Hin) as [Hseen|(r' & Hr' & Hs)].
          * simpl in Hseen. apply orb_true_iff in Hseen.
            destruct Hseen as [H0|Hseen]; [|left; exact Hseen].
            right. exists r0. split; [left; reflexivity|exact H0].
          * right. exists r'. split; [right; exact Hr'|exact Hs]. }
    intros r Hin. destruct (Hgen [] r Hin) as [H|H]; [discriminate|exact H].
  - unfold remove_duplicates at 1. apply drop_duplicates_fixed.
    + intros r _. reflexivity.
    + apply drop_duplicates_distinct.
Qed.

End Duplicates.

Section Categorical.

Import Cleaner Clean CleanerFacts.

Lemma ascii_compare_refl (c : ascii) : Ascii.compare c c = Eq.
Proof. unfold Ascii.compare. apply N.compare_refl. Qed.

Lemma string_compare_lt_trans (s1 s2 s3 : string) :
  String.compare s1 s2 = Lt -> String.compare s2 s3 = Lt ->
  String.compare s1 s3 = Lt.
Proof.
  revert s2 s3. induction s1 as [|c1 s1 IH]; intros [|c2 s2] [|c3 s3];
    simpl; try discriminate; try reflexivity.
  destruct (Ascii.compare c1 c2) eqn:E12; try discriminate;
    destruct (Ascii.compare c2 c3) eqn:E23; try discriminate.
  - apply Ascii.compare_eq_iff in E12, E23. subst.
    rewrite ascii_compare_refl. apply IH.
  - apply Ascii.compare_eq_iff in E12. subst. rewrite E23. reflexivity.
  - apply Ascii.compare_eq_iff in E23. subst. rewrite E12. reflexivity.
  - unfold Ascii.compare in *. rewrite N.compare_lt_iff in E12, E23.
    assert (H : (N_of_ascii c1 < N_of_ascii c3)%N) by lia.
    apply N.compare_lt_iff in H. rewrite H. reflexivity.
Qed.

Lemma leb_true_iff (s t : string) :
  leb_true s t <-> String.compare s t = Lt \/ s = t.
Proof.
  unfold leb_true, String.leb. destruct (String.compare s t) eqn:E.
  - apply String.compare_eq_iff in E. tauto.
  - tauto.
  - split; [discriminate|]. intros [H| ->]; [discriminate|].
    assert (String.compare t t = Eq) as Hrefl.
    { clear E. induction t as [|c t IH]; simpl; [reflexivity|].
      rewrite ascii_compare_refl. exact IH. }
    congruence.
Qed.

Lemma leb_true_refl (s : string) : leb_true s s.
Proof. apply leb_true_iff. right. reflexivity. Qed.

Lemma leb_true_trans (s1 s2 s3 : string) :
  leb_true s1 s2 -> leb_true s2 s3 -> leb_true s1 s3.
Proof.
  rewrite !leb_true_iff. intros [H12| ->] [H23| ->]; auto.
  left. eapply string_compare_lt_trans; eassumption.
Qed.

Lemma insert_sorted_In (s x : string) (l : list string) :
  In x (insert_sorted s l) <-> x = s \/ In x l.
Proof.
  induction l as [|y l IH]; simpl.
  - intuition auto.
  - destruct (String.leb s y); simpl; [intuition auto|].
    rewrite IH. intuition auto.
Qed.

Lemma sort_strings_In (x : string) (l : list string) :
  In x (sort_strings l) <-> In x l.
Proof.
  induction l as [|y l IH]; simpl; [tauto|].
  rewrite insert_sorted_In, IH. intuition auto.
Qed.

Lemma insert_sorted_sorted (s : string) (l : list string) :
  StronglySorted leb_true l -> StronglySorted leb_true (insert_sorted s l).
Proof.
  intro Hs. induction Hs as [|y l Hs IH Hy]; simpl.
  - repeat constructor.
  - destruct (String.leb s y) eqn:E.
    + constructor; [constructor; assumption|].
      constructor; [exact E|].
      eapply Forall_impl; [|exact Hy].
      intros z Hz. eapply leb_true_trans; eassumption.
    + constructor; [exact IH|].
      apply Forall_forall. intros z Hz. apply insert_sorted_In in Hz.
      destruct Hz as [->|Hz].
      * destruct (String.leb_total y s) as [H|H]; [exact H|congruence].
      * rewrite Forall_forall in Hy. apply Hy. exact Hz.
Qed.

Lemma sort_strings_sorted (l : list string) :
  StronglySorted leb_true (sort_strings l).
Proof.
  induction l as [|x l IH]; simpl; [constructor|].
  apply insert_sorted_sorted. exact IH.
Qed.

Lemma insert_sorted_length (s : string) (l : list string) :
  List.length (insert_sorted s l) = S (List.length l).
Proof.
  induction l as [|y l IH]; simpl; [reflexivity|].
  destruct (String.leb s y); simpl; [reflexivity|]. rewrite IH. reflexivity.
Qed.

Lemma sort_strings_length (l : list string) :
  List.length (sort_strings l) = List.length l.
Proof.
  induction l as [|x l IH]; simpl; [reflexivity|].
  rewrite insert_sorted_length, IH. reflexivity.
Qed.

(** [index_of] finds the first position of a string, if it occurs. *)
Lemma index_of_nth (s : string) (l : list string) (i : Z) :
  index_of s l = Some i ->
  (0 <= i < Z.of_nat (List.length l))%Z
  /\ nth (Z.to_nat i) l EmptyString = s.
Proof.
  revert i. induction l as [|x l IH]; simpl; intros i H; [discriminate|].
  destruct (String.eqb_spec s x) as [->|Hne].
  - injection H as <-. split; [lia|reflexivity].
  - destruct (index_of s l) as [k|]; [|discriminate].
    injection H as <-. destruct (IH k eq_refl) as [Hk Hnth].
    split; [lia|].
    replace (Z.to_nat (Z.succ k)) with (S (Z.to_nat k)) by lia. exact Hnth.
Qed.

Lemma index_of_In (s : string) (l : list string) :
  In s l -> exists i, index_of s l = Some i.
Proof.
  induction l as [|x l IH]; simpl; [contradiction|].
  intro Hin. destruct (String.eqb_spec s x) as [->|Hne]; [eauto|].
  destruct Hin as [->|Hin]; [congruence|].
  destruct (IH Hin) as [i ->]. simpl. eauto.
Qed.

Lemma sorted_strings_nth (l : list string) :
  StronglySorted leb_true l ->
  forall i j, (i <= j)%nat -> (j < List.length l)%nat ->
              leb_true (nth i l EmptyString) (nth j l EmptyString).
Proof.
  intro Hs. induction Hs as [|x l Hs IH Hx]; intros i j Hij Hj; simpl in Hj.
  - lia.
  - destruct i as [|i], j as [|j]; simpl.
    + apply leb_true_refl.
    + rewrite Forall_forall in Hx. apply Hx. apply nth_In. lia.
    + lia.
    + apply IH; lia.
Qed.

(** The codes of [pd.Categorical]: defined on the values of the column,
    below the number of distinct values, equal only for equal values and
    ordered like the values. *)
Lemma categorical_code_spec (column : list string) (s t : string) :
  In s column -> In t column ->
  exists c d,
    categorical_code column s = Some c
    /\ categorical_code column t = Some d
    /\ (0 <= c < Z.of_nat (List.length (nodup string_dec column)))%Z
    /\ (c = d <-> s = t)
    /\ ((c <= d)%Z <-> leb_true s t).
Proof.
  intros Hs Ht. unfold categorical_code, categories.
  set (cats := sort_strings (nodup string_dec column)).
  assert (Hsorted : StronglySorted leb_true cats) by apply sort_strings_sorted.
  assert (Hlen : List.length cats = List.length (nodup string_dec column))
    by apply sort_strings_length.
  destruct (index_of_In s cats) as [c Hc].
  { apply sort_strings_In, nodup_In. exact Hs. }
  destruct (index_of_In t cats) as [d Hd].
  { apply sort_strings_In, nodup_In. exact Ht. }
  exists c, d. rewrite Hc, Hd.
  destruct (index_of_nth _ _ _ Hc) as [Hcr Hcn].
  destruct (index_of_nth _ _ _ Hd) as [Hdr Hdn].
  assert (Hinj : c = d -> s = t) by (intros ->; congruence).
  assert (Hmono : forall i j a b,
            index_of a cats = Some i -> index_of b cats = Some j ->
            (i <= j)%Z -> leb_true a b).
  { intros i j a b Hi Hj Hij.
    destruct (index_of_nth _ _ _ Hi) as [Hir <-].
    destruct (index_of_nth _ _ _ Hj) as [Hjr <-].
    apply sorted_strings_nth; [exact Hsorted|lia|lia]. }
  split; [reflexivity|]. split; [reflexivity|].
  split; [rewrite <- Hlen; lia|]. split; [|split].
  - split; [exact Hinj|]. intros ->. congruence.
  - apply (Hmono c d s t Hc Hd).
  - intro Hle. destruct (Z.le_gt_cases c d) as [H|H]; [exact H|].
    assert (Hts : leb_true t s) by (apply (Hmono d c t s Hd Hc); lia).
    assert (s = t) by (apply String.leb_antisym; assumption).
    subst. assert (c = d) by congruence. lia.
Qed.

(** X3.  The jurisdiction codes [encode_categories] writes follow the
    names: every row gets a code, from 0 up to the number of distinct
    (filled) jurisdictions of the frame; two rows have the same code exactly
    when they have the same jurisdiction, and the codes are ordered like the
    names. *)
Theorem jurisdiction_codes_follow_names (data : DataFrame) (r1 r2 : Row) :
  In r1 (encode_categories data) ->
  In r2 (encode_categories data) ->
  exists j1 j2 c1 c2,
    jurisdiction r1 = Some j1 /\ jurisdiction r2 = Some j2
    /\ jurisdiction_code r1 = Some c1 /\ jurisdiction_code r2 = Some c2
    /\ (0 <= c1
        < Z.of_nat (List.length (nodup string_dec (filled_jurisdictions data))))%Z
    /\ (c1 = c2 <-> j1 = j2)
    /\ ((c1 <= c2)%Z <-> String.leb j1 j2 = true).
Proof.
  unfold encode_categories. intros H1 H2.
  apply in_map_iff in H1. destruct H1 as (a & <- & Ha).
  apply in_map_iff in H2. destruct H2 as (b & <- & Hb).
  fold (filled_jurisdictions data).
  destruct (categorical_code_spec (filled_jurisdictions data)
              (fillna "Unknown" (jurisdiction a))
              (fillna "Unknown" (jurisdiction b)))
    as (c & d & Hc & Hd & Hrange & Heq & Hle).
  { unfold filled_jurisdictions.
    apply (in_map (fun r => fillna "Unknown" (jurisdiction r))). exact Ha. }
  { unfold filled_jurisdictions.
    apply (in_map (fun r => fillna "Unknown" (jurisdiction r))). exact Hb. }
  exists (fillna "Unknown" (jurisdiction a)),
         (fillna "Unknown" (jurisdiction b)), c, d.
  cbn [jurisdiction jurisdiction_code encode_row].
  split; [reflexivity|]. split; [reflexivity|].
  split; [exact Hc|]. split; [exact Hd|].
  split; [exact Hrange|]. split; [exact Heq|exact Hle].
Qed.

Lemma jurisdiction_codes_follow_names_witness :
  In (nth 0 (encode_categories Samples.table_with_duplicate)
        (Samples.row_worth 0))
     (encode_categories Samples.table_with_duplicate)
  /\ In (nth 2 (encode_categories Samples.table_with_duplicate)
           (Samples.row_worth 0))
        (encode_categories Samples.table_with_duplicate)
  /\ exists j1 j2 c1 c2,
       jurisdiction (nth 0 (encode_categories Samples.table_with_duplicate)
                       (Samples.row_worth 0)) = Some j1
       /\ jurisdiction (nth 2 (encode_categories Samples.table_with_duplicate)
                          (Samples.row_worth 0)) = Some j2
       /\ jurisdiction_code
            (nth 0 (encode_categories Samples.table_with_duplicate)
               (Samples.row_worth 0)) = Some c1
       /\ jurisdiction_code
            (nth 2 (encode_categories Samples.table_with_duplicate)
               (Samples.row_worth 0)) = Some c2
       /\ (0 <= c1
           < Z.of_nat (List.length
                         (nodup string_dec
                            (filled_jurisdictions Samples.table_with_duplicate))))%Z
       /\ (c1 = c2 <-> j1 = j2)
       /\ ((c1 <= c2)%Z <-> String.leb j1 j2 = true).
Proof.
  assert (H1 : In (nth 0 (encode_categories Samples.table_with_duplicate)
                     (Samples.row_worth 0))
                  (encode_categories Samples.table_with_duplicate))
    by (apply nth_In; vm_compute; lia).
  assert (H2 : In (nth 2 (encode_categories Samples.table_with_duplicate)
                     (Samples.row_worth 0))
                  (encode_categories Samples.table_with_duplicate))
    by (apply nth_In; vm_compute; lia).
  split; [exact H1|]. split; [exact H2|].
  exact (jurisdiction_codes_follow_names Samples.table_with_duplicate _ _ H1 H2).
Defined.

End Categorical.

Section CategoryCodes.

Import Cleaner Clean CleanerFacts.

(** Splits on whether [s] is one of the keys a dict literal is probed
    with. *)
Ltac each_entry s :=
  repeat match goal with
  | |- context [String.eqb s ?k] => destruct (String.eqb_spec s k); [subst s|]
  | H : context [String.eqb s ?k] |- _ =>
      destruct (String.eqb_spec s k); [subst s|]
  end.

Lemma fraud_code_known (ft : string) :
  match dict_get fraud_type_mapping ft with
  | Some c =>
      str_in ft Serving.valid_fraud_types = true
      /\ (0 <= c <= 7)%Z /\ query_fraud_code ft = c
  | None => str_in ft Serving.valid_fraud_types = false
  end.
Proof.
  unfold fraud_type_mapping, Serving.valid_fraud_types, str_in. simpl.
  each_entry ft; simpl; try (split; [reflexivity|split; [lia|reflexivity]]).
  reflexivity.
Qed.

Lemma industry_code_known (ind : string) :
  match dict_get industry_mapping ind with
  | Some c =>
      str_in ind Serving.valid_industries = true
      /\ (0 <= c <= 7)%Z /\ query_industry_code ind = c
  | None => str_in ind Serving.valid_industries = false
  end.
Proof.
  unfold industry_mapping, Serving.valid_industries, str_in. simpl.
  each_entry ind; simpl; try (split; [reflexivity|split; [lia|reflexivity]]).
  reflexivity.
Qed.

(** X4.  How [encode_categories] codes fraud type and industry: a missing
    value becomes "other" with code 7; a value spelled exactly like one of
    the eight accepted names gets its code 0..7, the same code
    [create_prediction_input] gives it; any other value (another name, or
    another spelling such as a capital letter) keeps its text and gets NaN
    as code, where [create_prediction_input] would give a number. *)
Theorem category_codes_at_cleaning (data : DataFrame) (r0 : Row) :
  In r0 data ->
  let r := encode_row (filled_jurisdictions data) r0 in
  In r (encode_categories data)
  /\ fraud_type r = Some (fillna "other" (fraud_type r0))
  /\ industry r = Some (fillna "other" (industry r0))
  /\ (fraud_type r0 = None -> fraud_type_code r = Some 7%Z)
  /\ (industry r0 = None -> industry_code r = Some 7%Z)
  /\ match fraud_type_code r with
     | Some c =>
         str_in (fillna "other" (fraud_type r0)) Serving.valid_fraud_types = true
         /\ (0 <= c <= 7)%Z
         /\ query_fraud_code (fillna "other" (fraud_type r0)) = c
     | None =>
         str_in (fillna "other" (fraud_type r0)) Serving.valid_fraud_types = false
     end
  /\ match industry_code r with
     | Some c =>
         str_in (fillna "other" (industry r0)) Serving.valid_industries = true
         /\ (0 <= c <= 7)%Z
         /\ query_industry_code (fillna "other" (industry r0)) = c
     | None =>
         str_in (fillna "other" (industry r0)) Serving.valid_industries = false
     end.
Proof.
  intros Hin r. subst r.
  split; [unfold encode_categories; apply in_map; exact Hin|].
  cbn [fraud_type industry fraud_type_code industry_code encode_row].
  split; [reflexivity|]. split; [reflexivity|].
  split; [intros ->; reflexivity|]. split; [intros ->; reflexivity|].
  split; [apply fraud_code_known|apply industry_code_known].
Qed.

Lemma category_codes_at_cleaning_witness :
  In (Samples.row_in_court "District of Columbia") Samples.table_with_duplicate
  /\ fraud_type_code
       (encode_row (filled_jurisdictions Samples.table_with_duplicate)
          (Samples.row_in_court "District of Columbia")) = Some 0%Z.
Proof.
  assert (H : In (Samples.row_in_court "District of Columbia")
                Samples.table_with_duplicate) by (left; reflexivity).
  split; [exact H|].
  destruct (category_codes_at_cleaning Samples.table_with_duplicate _ H)
    as (_ & _ & _ & _ & _ & Hcode & _).
  destruct (fraud_type_code _) as [c|] eqn:E; [|discriminate Hcode].
  destruct Hcode as (_ & _ & Hq). rewrite <- Hq. reflexivity.
Defined.

End CategoryCodes.

Section CleanedTable.

Import Cleaner Clean CleanerFacts.
Local Open Scope Q_scope.

Lemma cut_size_value (q : Q) : 0 < q -> cut_size (Some q) = Some (size_of q).
Proof.
  intro Hpos. unfold cut_size, size_bins, size_labels, size_of. simpl.
  assert (H0 : Qltb 0 q = true) by (apply Qltb_lt; exact Hpos).
  rewrite H0. simpl.
  destruct (Qle_bool q 1000000) eqn:E1; [reflexivity|].
  apply Qle_bool_false in E1.
  assert (H1 : Qltb 1000000 q = true) by (apply Qltb_lt; exact E1).
  rewrite H1. simpl.
  destruct (Qle_bool q 10000000) eqn:E2; [reflexivity|].
  apply Qle_bool_false in E2.
  assert (H2 : Qltb 10000000 q = true) by (apply Qltb_lt; exact E2).
  rewrite H2. reflexivity.
Qed.

Lemma encoded_In (data : DataFrame) (r : Row) :
  In r (encoded data) ->
  exists r0 d,
    In r0 data
    /\ isna_amount (amount r0) = false
    /\ outlier (to_numeric (amount r0)) = false
    /\ date r0 = Some d
    /\ r = encode_row (filled_jurisdictions (clean_dates (clean_amounts data)))
             (with_dates d (with_amount (to_numeric (amount r0)) r0)).
Proof.
  unfold encoded, encode_categories. intro Hin.
  apply in_map_iff in Hin. destruct Hin as (r2 & <- & Hin).
  apply clean_dates_In in Hin. destruct Hin as (r1 & d & Hin & Hd & ->).
  apply clean_amounts_In in Hin.
  destruct Hin as (r0 & Hin & -> & Hnull & Hout).
  exists r0, d. repeat split; assumption.
Qed.

Lemma clean_all_validated (data cleaned : DataFrame) :
  clean_all data = Ok cleaned ->
  (20 <= List.length cleaned)%nat
  /\ distinct_triples cleaned = true
  /\ forall r, In r cleaned -> cleaned_record r.
Proof.
  intro Hall.
  pose proof (clean_all_Ok _ _ Hall) as Hsteps.
  assert (H20 : (20 <= List.length cleaned)%nat).
  { unfold clean_all in Hall. rewrite Hsteps in Hall. cbn [bind] in Hall.
    unfold validate_data, issues in Hall.
    destruct (Nat.ltb_spec (List.length cleaned) 20) as [Hlt|Hge];
      [|exact Hge].
    simpl in Hall. discriminate. }
  rewrite clean_steps_outcome in Hsteps.
  destruct (existsb nan_amount_survives data) eqn:Hp; [discriminate|].
  injection Hsteps as <-.
  split; [exact H20|]. split; [apply drop_duplicates_distinct|].
  intros r Hin. unfold deduplicated, remove_duplicates in Hin.
  apply drop_duplicates_In in Hin.
  apply in_map_iff in Hin. destruct Hin as (r2 & <- & Hin).
  pose proof Hin as Hin2.
  apply encoded_In in Hin.
  destruct Hin as (r0 & d & Hin0 & Hnull & Hout & Hd & ->).
  assert (Hnum : exists a, amount r0 = AmountNum a).
  { destruct (amount r0) as [|a|s] eqn:Ea; [discriminate|eauto|].
    exfalso.
    assert (Hx : nan_amount_survives r0 = false)
      by (eapply existsb_false_In; eassumption).
    unfold nan_amount_survives in Hx. rewrite Ea, Hd in Hx. discriminate. }
  destruct Hnum as [a Ha]. rewrite Ha in Hout. cbn [to_numeric outlier] in Hout.
  apply orb_false_iff in Hout. destruct Hout as [Hhi Hlo].
  apply Qltb_ge in Hhi, Hlo.
  assert (Hadj : 10000 <= a * multiplier (year d)).
  { pose proof (multiplier_ge_1 (year d)) as Hm.
    generalize dependent (multiplier (year d)). intros m Hm. nra. }
  set (column := filled_jurisdictions (clean_dates (clean_amounts data))) in *.
  destruct (categorical_code_spec column
              (fillna "Unknown" (jurisdiction r0))
              (fillna "Unknown" (jurisdiction r0)))
    as (c & _ & Hc & _ & Hrange & _).
  { unfold encoded, encode_categories in Hin2. fold column in Hin2.
    unfold column, filled_jurisdictions.
    apply in_map_iff.
    exists (with_dates d (with_amount (to_numeric (amount r0)) r0)).
    split; [reflexivity|].
    apply clean_dates_keeps; [|exact Hd].
    apply clean_amounts_In. exists r0. rewrite Ha. cbn [to_numeric outlier].
    repeat split; try assumption.
    apply orb_false_iff. split; apply Qltb_ge; assumption. }
  { unfold column, filled_jurisdictions. apply in_map_iff.
    exists (with_dates d (with_amount (to_numeric (amount r0)) r0)).
    split; [reflexivity|].
    apply clean_dates_keeps; [|exact Hd].
    apply clean_amounts_In. exists r0. rewrite Ha. cbn [to_numeric outlier].
    repeat split; try assumption.
    apply orb_false_iff. split; apply Qltb_ge; assumption. }
  exists a, d, (fillna "other" (fraud_type r0)),
         (fillna "other" (industry r0)),
         (fillna "Unknown" (jurisdiction r0)), c,
         (whistle_int (whistleblower r0)).
  cbn [amount date settlement_date settlement_year amount_2024 fraud_type
       fraud_type_code industry industry_code jurisdiction jurisdiction_code
       whistleblower defendant_size with_size encode_row with_dates
       with_amount].
  rewrite Ha. cbn [to_numeric amount_value _adjust_for_inflation option_map].
  rewrite cut_size_value by lra.
  repeat split; try assumption; try reflexivity; try lia.
Qed.

(** X5.  A table [clean_all] returns has at least 20 rows, no two of them
    with the same (defendant, amount, settlement_year), and every row has a
    numeric amount within [10,000, 1,000,000,000], a parsed date with its
    year, amount_2024 = amount x multiplier(year) >= 10,000, fraud type,
    industry and jurisdiction filled in, a jurisdiction code >= 0, an
    integer whistleblower flag and the defendant size of the right-closed
    bin of amount_2024.  (Fraud type and industry codes may still be NaN.) *)
Theorem clean_all_postcondition (data cleaned : DataFrame) :
  clean_all data = Ok cleaned ->
  (20 <= List.length cleaned)%nat
  /\ distinct_triples cleaned = true
  /\ forall r, In r cleaned -> cleaned_record r.
Proof. exact (clean_all_validated data cleaned). Qed.

Lemma clean_all_postcondition_witness :
  clean_all Samples.sample_table = Ok Samples.sample_cleaned
  /\ (20 <= List.length Samples.sample_cleaned)%nat
  /\ distinct_triples Samples.sample_cleaned = true
  /\ forall r, In r Samples.sample_cleaned -> cleaned_record r.
Proof.
  assert (H : clean_all Samples.sample_table = Ok Samples.sample_cleaned)
    by (vm_compute; reflexivity).
  split; [exact H|].
  exact (clean_all_postcondition _ _ H).
Defined.



End CleanedTable.

(** ** The cleaner object across calls *)

Section CleanerCalls.

Import Cleaner Clean CleanerFacts.
Import CleanerObject.
Local Open Scope Q_scope.

Variable read_csv : string -> result DataFrame.
Variable read_json : string -> result DataFrame.

(** What one call of [clean_all] leaves in the object and answers. *)
Lemma clean_all_call (filepath : string) (self : SettlementDataCleaner) :
  CleanerObject.clean_all read_csv read_json filepath self
  = match read read_csv read_json filepath with
    | Raise e => (self, Raise e)
    | Ok raw =>
        let st := Some (amount_statistics (Cleaner.clean_amounts raw)) in
        match Cleaner.create_features (encoded raw) with
        | Raise e =>
            ({| data := Some (encoded raw); cleaned_data := cleaned_data self;
                stats := st |}, Raise e)
        | Ok sized =>
            let d := Cleaner.remove_duplicates sized in
            if fst (Cleaner.validate_data d)
            then ({| data := Some d; cleaned_data := Some d; stats := st |},
                  Ok d)
            else ({| data := Some d; cleaned_data := cleaned_data self;
                     stats := st |},
                  Raise "ValueError: Data validation failed. Check logs for details.")
        end
    end.
Proof.
  unfold CleanerObject.clean_all, and_then, load_data.
  destruct (read read_csv read_json filepath) as [raw|e]; [|reflexivity].
  cbn. unfold encoded.
  destruct (Cleaner.create_features _) as [sized|e]; [|reflexivity].
  cbn. destruct (fst (Cleaner.validate_data _)); reflexivity.
Qed.

Lemma clean_all_call_answer (filepath : string) (self : SettlementDataCleaner) :
  snd (CleanerObject.clean_all read_csv read_json filepath self)
  = bind (read read_csv read_json filepath) Cleaner.clean_all.
Proof.
  rewrite clean_all_call.
  destruct (read read_csv read_json filepath) as [raw|e]; [|reflexivity].
  cbn [bind]. unfold Cleaner.clean_all, clean_steps. fold (encoded raw).
  destruct (Cleaner.create_features (encoded raw)) as [sized|e];
    [|reflexivity].
  cbn [bind]. destruct (fst (Cleaner.validate_data _)); reflexivity.
Qed.

Lemma clean_all_call_cleaned (filepath : string) (self : SettlementDataCleaner) :
  cleaned_data (fst (CleanerObject.clean_all read_csv read_json filepath self))
  = match bind (read read_csv read_json filepath) Cleaner.clean_all with
    | Ok c => Some c
    | Raise _ => cleaned_data self
    end.
Proof.
  rewrite clean_all_call.
  destruct (read read_csv read_json filepath) as [raw|e]; [|reflexivity].
  cbn [bind]. unfold Cleaner.clean_all, clean_steps. fold (encoded raw).
  destruct (Cleaner.create_features (encoded raw)) as [sized|e];
    [|reflexivity].
  cbn [bind]. destruct (fst (Cleaner.validate_data _)); reflexivity.
Qed.

Lemma run_cleaned (filepaths : list string) (self : SettlementDataCleaner) :
  cleaned_data (run read_csv read_json self filepaths)
  = match last_cleaned read_csv read_json filepaths with
    | Some c => Some c
    | None => cleaned_data self
    end.
Proof.
  revert self. induction filepaths as [|f filepaths IH]; intro self;
    [reflexivity|].
  cbn [run last_cleaned]. rewrite IH.
  destruct (last_cleaned read_csv read_json filepaths); [reflexivity|].
  rewrite clean_all_call_cleaned.
  destruct (bind (read read_csv read_json f) Cleaner.clean_all); reflexivity.
Qed.

Lemma last_cleaned_validated (filepaths : list string) (c : DataFrame) :
  last_cleaned read_csv read_json filepaths = Some c ->
  exists f raw,
    In f filepaths /\ read read_csv read_json f = Ok raw
    /\ Cleaner.clean_all raw = Ok c.
Proof.
  induction filepaths as [|f filepaths IH]; [discriminate|].
  cbn [last_cleaned].
  destruct (last_cleaned read_csv read_json filepaths) as [c'|].
  - intro H. injection H as <-.
    destruct (IH eq_refl) as (f' & raw & Hin & Hread & Hclean).
    exists f', raw. split; [right; exact Hin|]. auto.
  - destruct (read read_csv read_json f) as [raw|e] eqn:Er; [|discriminate].
    cbn [bind]. destruct (Cleaner.clean_all raw) as [c'|e] eqn:Ec;
      [|discriminate].
    intro H. injection H as <-.
    exists f, raw. split; [left; reflexivity|]. auto.
Qed.

(** X7.  Over any sequence of [clean_all] calls on a fresh cleaner, with
    the caller going on after exceptions, [cleaned_data] is the table of the
    last call that succeeded (None when none did); whatever the later calls
    did, it is a table that passed validation: at least 20 rows, no
    duplicate triple, every row a cleaned record.  [save_cleaned_data]
    raises exactly when no call has succeeded, and otherwise writes that
    table. *)
Theorem cleaned_data_is_last_success (filepaths : list string)
    (output_path : string) :
  let self := run read_csv read_json init filepaths in
  cleaned_data self = last_cleaned read_csv read_json filepaths
  /\ (forall c, cleaned_data self = Some c ->
        (20 <= List.length c)%nat
        /\ distinct_triples c = true
        /\ (forall r, In r c -> cleaned_record r)
        /\ exists f raw, In f filepaths
                         /\ read read_csv read_json f = Ok raw
                         /\ Cleaner.clean_all raw = Ok c)
  /\ save_cleaned_data self output_path
     = match last_cleaned read_csv read_json filepaths with
       | Some c => Ok (output_path, c)
       | None =>
           Raise "ValueError: No cleaned data to save. Run clean_all() first."
       end.
Proof.
  intro self.
  assert (Hlast : cleaned_data self
                  = last_cleaned read_csv read_json filepaths).
  { unfold self. rewrite run_cleaned.
    destruct (last_cleaned read_csv read_json filepaths); reflexivity. }
  split; [exact Hlast|]. split.
  - intros c Hc. rewrite Hlast in Hc.
    destruct (last_cleaned_validated _ _ Hc) as (f & raw & Hin & Hread & Hclean).
    destruct (clean_all_validated raw c Hclean) as (H20 & Hd & Hrows).
    repeat split; try assumption. exists f, raw. auto.
  - unfold save_cleaned_data. rewrite Hlast.
    destruct (last_cleaned read_csv read_json filepaths); reflexivity.
Qed.

End CleanerCalls.

Section Distributions.

Import Cleaner Clean CleanerFacts.
Import CleanerObject.

Lemma counted_cons (s : string) (n : nat) (d : list (string * nat)) :
  counted ((s, n) :: d) = (n + counted d)%nat.
Proof. reflexivity. Qed.

Lemma counted_count_cons (x : string) (l keys : list string) :
  NoDup keys ->
  counted (map (fun s => (s, count_occ string_dec (x :: l) s)) keys)
  = ((if in_dec string_dec x keys then 1 else 0)
     + counted (map (fun s => (s, count_occ string_dec l s)) keys))%nat.
Proof.
  intro Hnd. induction Hnd as [|k ks Hk Hnd IH]; [reflexivity|].
  cbn [map]. rewrite !counted_cons, IH. cbn [count_occ].
  destruct (string_dec x k) as [->|Hne].
  - destruct (in_dec string_dec k ks) as [Hin|_]; [contradiction|].
    destruct (in_dec string_dec k (k :: ks)) as [_|Hout];
      [lia|exfalso; apply Hout; left; reflexivity].
  - destruct (in_dec string_dec x ks) as [Hin|Hout];
      destruct (in_dec string_dec x (k :: ks)) as [Hin'|Hout']; try lia.
    + exfalso. apply Hout'. right. exact Hin.
    + exfalso. destruct Hin' as [Heq|Hin']; [congruence|contradiction].
Qed.

Lemma counted_count (l keys : list string) :
  NoDup keys -> incl l keys ->
  counted (map (fun s => (s, count_occ string_dec l s)) keys) = List.length l.
Proof.
  intros Hnd. induction l as [|x l IH]; intro Hincl.
  - clear Hnd Hincl. induction keys as [|k ks IHk]; [reflexivity|].
    cbn [map]. rewrite counted_cons, IHk. reflexivity.
  - rewrite counted_count_cons by exact Hnd.
    destruct (in_dec string_dec x keys) as [_|Hout].
    + rewrite IH; [reflexivity|].
      intros y Hy. apply Hincl. right. exact Hy.
    + exfalso. apply Hout. apply Hincl. left. reflexivity.
Qed.

(** The counts of [value_counts] add up to the number of values present. *)
Lemma value_counts_total (column : list (option string)) :
  counted (value_counts column)
  = List.length
      (flat_map (fun c => match c with Some s => [s] | None => [] end) column).
Proof.
  unfold value_counts. apply counted_count.
  - apply NoDup_nodup.
  - intros s Hs. apply nodup_In. exact Hs.
Qed.

Lemma present_all (A : Type) (f : A -> option string) (l : list A) :
  (forall x, In x l -> exists s, f x = Some s) ->
  List.length
    (flat_map (fun c => match c with Some s => [s] | None => [] end) (map f l))
  = List.length l.
Proof.
  induction l as [|x l IH]; intro H; [reflexivity|].
  cbn [map flat_map]. destruct (H x (or_introl eq_refl)) as [s ->].
  cbn [app List.length]. f_equal. apply IH.
  intros y Hy. apply H. right. exact Hy.
Qed.

Variable read_csv : string -> result DataFrame.
Variable read_json : string -> result DataFrame.

(** X9.  After a call of [clean_all] that returns, [get_stats] is
    consistent: total_records is the number of rows returned (at least 20),
    the counts of the fraud type distribution and those of the industry
    distribution each add up to it, and the amount statistics are
    present. *)
Theorem get_stats_after_clean_all (filepath : string)
    (self : SettlementDataCleaner) (c : DataFrame) :
  snd (CleanerObject.clean_all read_csv read_json filepath self) = Ok c ->
  let s := get_stats
             (fst (CleanerObject.clean_all read_csv read_json filepath self)) in
  total_records s = List.length c
  /\ (20 <= total_records s)%nat
  /\ counted (fraud_type_distribution s) = total_records s
  /\ counted (industry_distribution s) = total_records s
  /\ amount_stats s <> None.
Proof.
  intros Hok s. subst s.
  pose proof (clean_all_call_answer read_csv read_json filepath self) as Hans.
  rewrite Hok in Hans. symmetry in Hans.
  rewrite clean_all_call in *.
  destruct (read read_csv read_json filepath) as [raw|e]; [|discriminate].
  cbn [bind] in Hans.
  destruct (clean_all_validated raw c Hans) as (H20 & _ & Hrows).
  cbv zeta in *.
  destruct (Cleaner.create_features (encoded raw)) as [sized|e];
    [|discriminate].
  destruct (fst (Cleaner.validate_data (Cleaner.remove_duplicates sized)));
    [|discriminate].
  cbn [snd] in Hok. injection Hok as Hc. rewrite Hc.
  unfold get_stats. cbn [fst data cleaned_data stats total_records
                         fraud_type_distribution industry_distribution
                         amount_stats].
  split; [reflexivity|]. split; [exact H20|].
  rewrite !value_counts_total. split; [|split; [|discriminate]].
  - apply present_all. intros r Hr.
    destruct (Hrows r Hr)
      as (a & d & ft & ind & j & cd & w & _ & _ & _ & _ & _ & _ & _ & _
          & Hft & _).
    exists ft. exact Hft.
  - apply present_all. intros r Hr.
    destruct (Hrows r Hr)
      as (a & d & ft & ind & j & cd & w & _ & _ & _ & _ & _ & _ & _ & _
          & _ & _ & Hind & _).
    exists ind. exact Hind.
Qed.

End Distributions.

Lemma get_stats_after_clean_all_witness :
  snd (CleanerObject.clean_all Files.sample_read_csv Files.sample_read_json
         Files.sample_path CleanerObject.init) = Ok Samples.sample_cleaned
  /\ CleanerObject.total_records
       (CleanerObject.get_stats
          (fst (CleanerObject.clean_all Files.sample_read_csv
                  Files.sample_read_json Files.sample_path
                  CleanerObject.init))) = 20%nat.
Proof.
  assert (H : snd (CleanerObject.clean_all Files.sample_read_csv
                     Files.sample_read_json Files.sample_path
                     CleanerObject.init) = Ok Samples.sample_cleaned).
  { rewrite clean_all_call_answer. vm_compute. reflexivity. }
  split; [exact H|].
  destruct (get_stats_after_clean_all Files.sample_read_csv
              Files.sample_read_json Files.sample_path CleanerObject.init
              Samples.sample_cleaned H) as (Htotal & _).
  rewrite Htotal. reflexivity.
Defined.

(** ** The statistics of the amount column *)

Section AmountStatisticsBounds.

Import Cleaner Clean CleanerFacts.
Import CleanerObject.
Local Open Scope Q_scope.

Lemma minimum_spec (l : list Q) :
  l <> [] ->
  exists m, minimum l = Some m /\ In m l /\ forall x, In x l -> m <= x.
Proof.
  induction l as [|x l IH]; [congruence|]. intros _. simpl.
  destruct l as [|y l].
  - simpl. exists x. split; [reflexivity|]. split; [left; reflexivity|].
    intros z [<-|[]]. apply Qle_refl.
  - destruct IH as (m & -> & Hin & Hle); [discriminate|].
    destruct (Qle_bool x m) eqn:E.
    + apply Qle_bool_iff in E. exists x. split; [reflexivity|].
      split; [left; reflexivity|].
      intros z [<-|Hz]; [apply Qle_refl|].
      eapply Qle_trans; [exact E|apply Hle; exact Hz].
    + apply Qle_bool_false in E. exists m. split; [reflexivity|].
      split; [right; exact Hin|].
      intros z [<-|Hz]; [apply Qlt_le_weak; exact E|apply Hle; exact Hz].
Qed.

Lemma maximum_spec (l : list Q) :
  l <> [] ->
  exists m, maximum l = Some m /\ In m l /\ forall x, In x l -> x <= m.
Proof.
  induction l as [|x l IH]; [congruence|]. intros _. simpl.
  destruct l as [|y l].
  - simpl. exists x. split; [reflexivity|]. split; [left; reflexivity|].
    intros z [<-|[]]. apply Qle_refl.
  - destruct IH as (m & -> & Hin & Hle); [discriminate|].
    destruct (Qle_bool m x) eqn:E.
    + apply Qle_bool_iff in E. exists x. split; [reflexivity|].
      split; [left; reflexivity|].
      intros z [<-|Hz]; [apply Qle_refl|].
      eapply Qle_trans; [apply Hle; exact Hz|exact E].
    + apply Qle_bool_false in E. exists m. split; [reflexivity|].
      split; [right; exact Hin|].
      intros z [<-|Hz]; [apply Qlt_le_weak; exact E|apply Hle; exact Hz].
Qed.

Lemma insert_Q_In (x y : Q) (l : list Q) :
  In y (Predictor.insert_Q x l) <-> y = x \/ In y l.
Proof.
  induction l as [|z l IH]; simpl.
  - intuition auto.
  - destruct (Qle_bool x z); simpl; [intuition auto|].
    rewrite IH. intuition auto.
Qed.

Lemma sort_Q_In (y : Q) (l : list Q) :
  In y (Predictor.sort_Q l) <-> In y l.
Proof.
  induction l as [|x l IH]; simpl; [tauto|].
  rewrite insert_Q_In, IH. intuition auto.
Qed.

Lemma middle_between (lo hi : Q) (l : list Q) :
  l <> [] ->
  (forall x, In x l -> lo <= x /\ x <= hi) ->
  exists m, middle l = Some m /\ lo <= m /\ m <= hi.
Proof.
  intros Hne H. unfold middle.
  set (s := Predictor.sort_Q l).
  assert (Hlen : List.length s = List.length l) by apply sort_Q_length.
  assert (Hs : forall i, (i < List.length s)%nat ->
                         lo <= nth i s 0 /\ nth i s 0 <= hi).
  { intros i Hi. apply H. apply sort_Q_In. apply nth_In. exact Hi. }
  destruct (List.length s) as [|n] eqn:En.
  - destruct l; [congruence|discriminate].
  - assert (Hhalf : (S n / 2 < S n)%nat)
      by (apply Nat.div_lt; lia).
    destruct (Nat.even (S n)).
    + destruct (Hs (S n / 2 - 1)%nat) as [A1 A2]; [lia|].
      destruct (Hs (S n / 2)%nat) as [B1 B2]; [exact Hhalf|].
      eexists. split; [reflexivity|].
      split.
      * apply Qle_shift_div_l; [reflexivity|]. lra.
      * apply Qle_shift_div_r; [reflexivity|]. lra.
    + destruct (Hs (S n / 2)%nat) as [B1 B2]; [exact Hhalf|].
      eexists. split; [reflexivity|]. split; assumption.
Qed.

Lemma numbers_kept (data : DataFrame) (x : Q) :
  In x (numbers (Cleaner.clean_amounts data)) ->
  10000 <= x /\ x <= 1000000000.
Proof.
  unfold numbers. intro H. apply in_flat_map in H.
  destruct H as (r & Hr & Hx).
  apply clean_amounts_kept in Hr.
  destruct Hr as [Hnull|(a & Ha & Hlo & Hhi)].
  - rewrite Hnull in Hx. contradiction.
  - rewrite Ha in Hx. destruct Hx as [<-|[]]. split; assumption.
Qed.

(** X8.  The statistics [clean_amounts] stores describe the amounts it
    kept: when it kept a number, minimum, maximum, mean and median are
    numbers with 10,000 <= min <= median <= max <= 1,000,000,000; when it
    kept none, all four are NaN.  The standard deviation, where it is a
    number, is not negative. *)
Theorem amount_statistics_within_bounds (data : DataFrame) :
  let st := amount_statistics (Cleaner.clean_amounts data) in
  match stat_min st, stat_max st, stat_mean st, stat_median st with
  | Some mn, Some mx, Some _, Some md =>
      10000 <= mn /\ mn <= md /\ md <= mx /\ mx <= 1000000000
  | None, None, None, None => numbers (Cleaner.clean_amounts data) = []
  | _, _, _, _ => False
  end
  /\ forall sd, stat_std st = Some sd -> (0 <= sd)%R.
Proof.
  intro st. subst st. unfold amount_statistics.
  cbn [stat_min stat_max stat_mean stat_median stat_std].
  set (l := numbers (Cleaner.clean_amounts data)).
  assert (Hb : forall x, In x l -> 10000 <= x /\ x <= 1000000000)
    by (intros x Hx; apply (numbers_kept data); exact Hx).
  split.
  - destruct l as [|x0 l0] eqn:El; [reflexivity|].
    assert (Hne : x0 :: l0 <> []) by discriminate.
    destruct (minimum_spec _ Hne) as (mn & -> & Hmn & Hmin).
    destruct (maximum_spec _ Hne) as (mx & -> & Hmx & Hmax).
    cbn [average].
    destruct (middle_between mn mx _ Hne) as (md & -> & Hmd1 & Hmd2).
    { intros x Hx. split; [apply Hmin|apply Hmax]; exact Hx. }
    destruct (Hb mn Hmn) as [Hlo _]. destruct (Hb mx Hmx) as [_ Hhi].
    repeat split; assumption.
  - intros sd. unfold deviation.
    destruct (average l) as [m|]; [|discriminate].
    destruct (Nat.ltb (List.length l) 2); [discriminate|].
    intro H. injection H as <-. apply sqrt_pos.
Qed.

End AmountStatisticsBounds.

(** ** Further properties of the feature engine and the predictor *)

Section QueryFeatures.

Import FeatureEngine Predictor PredictorFacts CleanerFacts.

Variable hash : string -> Z.

Ltac each_key_of s :=
  repeat match goal with
  | |- context [String.eqb s ?k] => destruct (String.eqb s k)
  end.

Lemma query_fraud_code_range (ft : string) : (0 <= query_fraud_code ft <= 7)%Z.
Proof.
  unfold query_fraud_code, dict_get_default, fraud_type_mapping. simpl.
  generalize (lower ft). intro s. each_key_of s; lia.
Qed.

Lemma query_industry_code_range (ind : string) :
  (0 <= query_industry_code ind <= 7)%Z.
Proof.
  unfold query_industry_code, dict_get_default, industry_mapping. simpl.
  generalize (lower ind). intro s. each_key_of s; lia.
Qed.

Lemma estimate_defendant_size_range (damages : Q) :
  (0 <= estimate_defendant_size damages <= 2)%Z.
Proof.
  unfold estimate_defendant_size.
  destruct (Qltb damages 1000000); [lia|].
  destruct (Qltb damages 10000000); lia.
Qed.

(** X10.  Whatever the request and whatever [hash] is, the integer
    features of the row [create_prediction_input] builds are bounded: both
    category codes within 0..7, the jurisdiction code within 0..49, the
    whistleblower flag 0 or 1, the defendant size within 0..2, and so the
    interaction terms within 0..49, 0..7 and 0..14 and the jurisdiction
    risk within 0..2; years_since_2010 is the settlement year minus 2010. *)
Theorem prediction_case_ranges (fraud_type : string) (damages_claimed : Q)
    (industry jurisdiction : string) (whistleblower_present : bool)
    (settlement_year : Z) :
  let c := prediction_case hash fraud_type damages_claimed industry
             jurisdiction whistleblower_present settlement_year in
  let d := create_features c in
  (0 <= fraud_type_code c <= 7)%Z
  /\ (0 <= industry_code c <= 7)%Z
  /\ (0 <= jurisdiction_code c <= 49)%Z
  /\ (0 <= whistleblower c <= 1)%Z
  /\ (0 <= defendant_size c <= 2)%Z
  /\ FeatureEngine.settlement_year c = settlement_year
  /\ (0 <= industry_fraud_interaction d <= 49)%Z
  /\ years_since_2010 d = (settlement_year - 2010)%Z
  /\ (0 <= whistleblower_fraud_interaction d <= 7)%Z
  /\ (0 <= jurisdiction_risk d <= 2)%Z
  /\ (0 <= size_fraud_interaction d <= 14)%Z.
Proof.
  intros c d. subst c d.
  cbn [fraud_type_code industry_code jurisdiction_code whistleblower
       defendant_size FeatureEngine.settlement_year prediction_case
       create_features industry_fraud_interaction years_since_2010
       whistleblower_fraud_interaction jurisdiction_risk
       size_fraud_interaction].
  pose proof (query_fraud_code_range fraud_type) as Hf.
  pose proof (query_industry_code_range industry) as Hi.
  pose proof (estimate_defendant_size_range damages_claimed) as Hs.
  unfold query_fraud_code in Hf. unfold query_industry_code in Hi.
  unfold hashed_jurisdiction_code.
  pose proof (Z.mod_pos_bound (hash jurisdiction) 50 eq_refl) as Hj.
  pose proof (Z.mod_pos_bound (hash jurisdiction mod 50) 3 eq_refl) as Hr.
  set (f := dict_get_default fraud_type_mapping (lower fraud_type) 7%Z) in *.
  set (i := dict_get_default industry_mapping (lower industry) 7%Z) in *.
  set (s := estimate_defendant_size damages_claimed) in *.
  assert (Hw : (0 <= (if whistleblower_present then 1 else 0) <= 1)%Z)
    by (destruct whistleblower_present; lia).
  set (w := (if whistleblower_present then 1 else 0)%Z) in *.
  repeat split; try lia; try nia.
Qed.

Lemma severity_weight_positive (s : string) :
  (0 < dict_get_default severity_weights s 1.0)%Q.
Proof.
  unfold dict_get_default, severity_weights. simpl.
  each_key_of s; reflexivity.
Qed.

(** The severity cell of a query: a number for damages above -1, minus
    infinity at -1, NaN below. *)
Lemma fraud_severity_cell (ft : string) (damages : Q) (ind jur : string)
    (wb : bool) (yr : Z) :
  let cell := fraud_severity (prediction_case hash ft damages ind jur wb yr) in
  ((-1 < damages)%Q /\ exists v, cell = Finite v)
  \/ ((damages == -1)%Q /\ cell = NegInf)
  \/ ((damages < -1)%Q /\ cell = NaN).
Proof.
  cbn [prediction_case fraud_severity]. unfold log1p_cell, log1p.
  destruct (Qltb (-1) damages) eqn:H1.
  - left. split; [apply Qltb_lt; exact H1|]. cbn [times]. eexists. reflexivity.
  - apply Qltb_ge in H1. destruct (Qeq_bool damages (-1)) eqn:H2.
    + right. left. split; [apply Qeq_bool_iff; exact H2|].
      cbn [times].
      pose proof (severity_weight_positive (lower ft)) as Hw.
      apply Qltb_lt in Hw. rewrite Hw. reflexivity.
    + right. right. split; [|reflexivity].
      apply Qeq_bool_neq in H2.
      destruct (Qle_lt_or_eq _ _ H1) as [Hlt|Heq]; [exact Hlt|].
      exfalso. exact (H2 Heq).
Qed.

(** The two ways [create_prediction_input] ends. *)
Lemma create_prediction_input_outcome (engine : SettlementFeatureEngine)
    (fraud_type : string) (damages_claimed : Q)
    (industry jurisdiction : string) (whistleblower_present : bool)
    (settlement_year : Z) :
  match create_prediction_input hash engine fraud_type damages_claimed
          industry jurisdiction whistleblower_present settlement_year with
  | Ok X =>
      engine_ready engine = true /\ ~ (damages_claimed == -1)%Q
      /\ List.length X = 12%nat
      /\ has_nan X = Qltb damages_claimed (-1)
      /\ ((damages_claimed < -1)%Q -> nth_error X 6 = Some None)
  | Raise _ =>
      engine_ready engine = false \/ (damages_claimed == -1)%Q
  end.
Proof.
  unfold engine_ready.
  destruct (scaler engine) as [sc|] eqn:Hsc.
  2: { unfold create_prediction_input, transform_new_data, scaler_transform.
       rewrite Hsc. left. reflexivity. }
  unfold create_prediction_input, transform_new_data, scaler_transform.
  rewrite Hsc, select_cells.
  destruct (fraud_severity_cell fraud_type damages_claimed industry
              jurisdiction whistleblower_present settlement_year)
    as [(Hd & v & Hv)|[(Hd & Hv)|(Hd & Hv)]];
    rewrite Hv;
    cbn [map fillna_median existsb is_infinite orb List.length].
  - rewrite (Nat.eqb_sym 12 (List.length (mean_ sc))).
    rewrite (Nat.eqb_sym 12 (List.length (scale_ sc))).
    destruct (Nat.eqb (List.length (mean_ sc)) 12) eqn:Hm;
      [|left; reflexivity].
    destruct (Nat.eqb (List.length (scale_ sc)) 12) eqn:Hs;
      [|left; reflexivity].
    cbn [andb]. apply Nat.eqb_eq in Hm, Hs.
    split; [reflexivity|].
    split; [intro Heq; rewrite Heq in Hd; discriminate|].
    assert (Hge : Qltb damages_claimed (-1) = false)
      by (apply Qltb_ge; apply Qlt_le_weak; exact Hd).
    rewrite Hge.
    destruct (mean_ sc) as [|m1 [|m2 [|m3 [|m4 [|m5 [|m6 [|m7 [|m8 [|m9
               [|m10 [|m11 [|m12 [|]]]]]]]]]]]]]; try discriminate.
    destruct (scale_ sc) as [|s1 [|s2 [|s3 [|s4 [|s5 [|s6 [|s7 [|s8 [|s9
               [|s10 [|s11 [|s12 [|]]]]]]]]]]]]]; try discriminate.
    split; [reflexivity|]. split; [reflexivity|].
    intro Hlt. exfalso. exact (Qlt_irrefl _ (Qlt_trans _ _ _ Hd Hlt)).
  - right. exact Hd.
  - rewrite (Nat.eqb_sym 12 (List.length (mean_ sc))).
    rewrite (Nat.eqb_sym 12 (List.length (scale_ sc))).
    destruct (Nat.eqb (List.length (mean_ sc)) 12) eqn:Hm;
      [|left; reflexivity].
    destruct (Nat.eqb (List.length (scale_ sc)) 12) eqn:Hs;
      [|left; reflexivity].
    cbn [andb]. apply Nat.eqb_eq in Hm, Hs.
    split; [reflexivity|].
    split; [intro Heq; rewrite Heq in Hd; discriminate|].
    assert (Hlt : Qltb damages_claimed (-1) = true)
      by (apply Qltb_lt; exact Hd).
    rewrite Hlt.
    destruct (mean_ sc) as [|m1 [|m2 [|m3 [|m4 [|m5 [|m6 [|m7 [|m8 [|m9
               [|m10 [|m11 [|m12 [|]]]]]]]]]]]]]; try discriminate.
    destruct (scale_ sc) as [|s1 [|s2 [|s3 [|s4 [|s5 [|s6 [|s7 [|s8 [|s9
               [|s10 [|s11 [|s12 [|]]]]]]]]]]]]]; try discriminate.
    split; [reflexivity|]. split; [reflexivity|].
    intros _. reflexivity.
Qed.

(** X11.  [create_prediction_input] raises exactly when the scaler of the
    engine is not fitted on twelve columns or damages_claimed is -1 (its
    logarithm is minus infinity, which the scaler refuses); otherwise it
    returns a row of twelve scaled features, and that row holds a NaN, in
    the fraud_severity column, exactly when damages_claimed < -1: the
    scaler lets NaN through. *)
Theorem create_prediction_input_returns (engine : SettlementFeatureEngine)
    (fraud_type : string) (damages_claimed : Q)
    (industry jurisdiction : string) (whistleblower_present : bool)
    (settlement_year : Z) :
  match create_prediction_input hash engine fraud_type damages_claimed
          industry jurisdiction whistleblower_present settlement_year with
  | Ok X =>
      engine_ready engine = true /\ ~ (damages_claimed == -1)%Q
      /\ List.length X = 12%nat
      /\ has_nan X = Qltb damages_claimed (-1)
      /\ ((damages_claimed < -1)%Q -> nth_error X 6 = Some None)
  | Raise _ =>
      engine_ready engine = false \/ (damages_claimed == -1)%Q
  end.
Proof.
  exact (create_prediction_input_outcome engine fraud_type damages_claimed
           industry jurisdiction whistleblower_present settlement_year).
Qed.

End QueryFeatures.

Section PredictorAnswers.

Import FeatureEngine Predictor PredictorFacts.

Variable hash : string -> Z.
Variable trees_accept_nan : bool.

Lemma is_fitted_ready (p : SettlementPredictor) :
  Cases.is_fitted p
  = match estimators_ (model p) with
    | Some _ => engine_ready (feature_engine p)
    | None => false
    end.
Proof.
  unfold Cases.is_fitted, engine_ready.
  destruct (estimators_ (model p)); destruct (scaler (feature_engine p));
    reflexivity.
Qed.

(** When [predict_settlement_range] returns, this is why and what. *)
Lemma predict_settlement_range_Ok (p : SettlementPredictor)
    (ft : string) (damages : Q) (ind jur : string) (wb : bool) (yr : Z)
    (res : Prediction) :
  predict_settlement_range hash trees_accept_nan p ft damages ind jur wb yr
  = Ok res ->
  Cases.is_fitted p = true
  /\ ((-1 < damages)%Q \/ ((damages < -1)%Q /\ trees_accept_nan = true))
  /\ exists X e,
       create_prediction_input hash (feature_engine p) ft damages ind jur wb yr
       = Ok X
       /\ estimators_ (model p) = Some e
       /\ res = (let tree_predictions :=
                   map (fun tree => tree_predict tree X) (trees e) in
                 {| predicted_low := expm1 (Q2R (percentile tree_predictions 25));
                    predicted_mid := expm1 (Q2R (percentile tree_predictions 50));
                    predicted_high := expm1 (Q2R (percentile tree_predictions 75));
                    confidence := (1 - Rmin (std tree_predictions / 2) (1 / 2))%R;
                    input_damages := damages |}).
Proof.
  intro H. unfold predict_settlement_range in H.
  pose proof (create_prediction_input_outcome hash (feature_engine p) ft
                damages ind jur wb yr) as Hin.
  destruct (create_prediction_input hash (feature_engine p) ft damages ind jur
              wb yr) as [X|e] eqn:EX; [|discriminate].
  cbn [bind] in H. destruct Hin as (Hready & Hd & _ & Hnan & _).
  destruct (estimators_ (model p)) as [e|] eqn:Ee; [|discriminate].
  destruct (has_nan X && negb trees_accept_nan) eqn:Ereject; [discriminate|].
  injection H as <-.
  split; [rewrite is_fitted_ready, Ee; exact Hready|].
  split; [|exists X, e; auto].
  destruct (Qlt_le_dec (-1) damages) as [Hgt|Hle]; [left; exact Hgt|].
  right.
  assert (Hlt : (damages < -1)%Q).
  { destruct (Qle_lt_or_eq _ _ Hle) as [Hlt|Heq]; [exact Hlt|].
    exfalso. exact (Hd Heq). }
  split; [exact Hlt|].
  apply Qltb_lt in Hlt. rewrite Hnan, Hlt in Ereject.
  destruct trees_accept_nan; [reflexivity|discriminate].
Qed.


Lemma tree_predictions_nonempty (X : list (option R)) (e : Estimators) :
  map (fun tree => tree_predict tree X) (trees e) <> [].
Proof. unfold trees. simpl. discriminate. Qed.


(** A tree answers with the value of one of its leaves. *)
Lemma tree_predict_leaf (t : DecisionTree) (X : list (option R)) :
  In (tree_predict t X) (leaves t).
Proof.
  induction t as [v|f th mgl l IHl r IHr]; simpl.
  - left. reflexivity.
  - apply in_or_app.
    destruct (nth f X (Some 0%R)) as [x|];
      [destruct (Rle_dec _ _)|destruct mgl]; [left|right|left|right];
      assumption.
Qed.

Lemma percentile_between (a : list Q) (q : Z) (lo hi : Q) :
  a <> [] -> (0 <= q <= 100)%Z ->
  (forall x, In x a -> (lo <= x)%Q /\ (x <= hi)%Q) ->
  (lo <= percentile a q)%Q /\ (percentile a q <= hi)%Q.
Proof.
  intros Hne Hq Hb. rewrite percentile_interpolate.
  set (s := sort_Q a).
  assert (Hlen : List.length s = List.length a) by apply sort_Q_length.
  assert (Hn : (1 <= List.length s)%nat).
  { rewrite Hlen. destruct a; [congruence|simpl; lia]. }
  destruct (interpolate_between s (q * (Z.of_nat (List.length s) - 1))
              (sort_Q_sorted a)) as [Hdown Hup]; [nia|].
  assert (Hs : forall i, (i < List.length s)%nat ->
                         (lo <= nth i s 0)%Q /\ (nth i s 0 <= hi)%Q).
  { intros i Hi. apply Hb. apply sort_Q_In. apply nth_In. exact Hi. }
  set (pos := (q * (Z.of_nat (List.length s) - 1))%Z) in *.
  assert (Hlo : (0 <= pos / 100 <= Z.of_nat (List.length s) - 1)%Z).
  { unfold pos. split; [apply Z.div_pos; nia|].
    apply Z.div_le_upper_bound; nia. }
  destruct (Hs (Z.to_nat (pos / 100))) as [A _]; [lia|].
  destruct (Hs (Z.to_nat (Z.min (pos / 100 + 1)
                            (Z.of_nat (List.length s) - 1)))) as [_ B]; [lia|].
  split; [eapply Qle_trans; eassumption|eapply Qle_trans; eassumption].
Qed.

(** X13.  A forest never answers outside its leaves: when every leaf of
    every tree holds a value within [lo, hi], then for every case the
    predictor answers, expm1 lo <= predicted_low and
    predicted_high <= expm1 hi. *)
Theorem predicted_range_within_leaves (p : SettlementPredictor)
    (fraud_type : string) (damages_claimed : Q)
    (industry jurisdiction : string) (whistleblower_present : bool)
    (settlement_year : Z) (e : Estimators) (res : Prediction) (lo hi : Q) :
  estimators_ (model p) = Some e ->
  (forall t v, In t (trees e) -> In v (leaves t) -> (lo <= v)%Q /\ (v <= hi)%Q) ->
  predict_settlement_range hash trees_accept_nan p fraud_type damages_claimed
    industry jurisdiction whistleblower_present settlement_year = Ok res ->
  (expm1 (Q2R lo) <= predicted_low res)%R
  /\ (predicted_high res <= expm1 (Q2R hi))%R.
Proof.
  intros He Hleaves Hres.
  destruct (predict_settlement_range_Ok _ _ _ _ _ _ _ _ Hres)
    as (_ & _ & X & e' & _ & He' & ->).
  rewrite He in He'. injection He' as <-.
  cbv zeta. cbn [predicted_low predicted_high].
  assert (Hb : forall x, In x (map (fun tree => tree_predict tree X) (trees e)) ->
                         (lo <= x)%Q /\ (x <= hi)%Q).
  { intros x Hx. apply in_map_iff in Hx. destruct Hx as (t & <- & Ht).
    apply (Hleaves t); [exact Ht|apply tree_predict_leaf]. }
  pose proof (tree_predictions_nonempty X e) as Hne.
  destruct (percentile_between _ 25 lo hi Hne ltac:(lia) Hb) as [H25 _].
  destruct (percentile_between _ 75 lo hi Hne ltac:(lia) Hb) as [_ H75].
  split; apply expm1_mono, Qle_Rle; assumption.
Qed.

(** X14.  When every tree of the forest answers the same value v on the
    scaled row of a case (a forest of one tree always does), the range
    has no width: predicted_low = predicted_mid = predicted_high =
    expm1 v. *)
Theorem agreeing_trees_give_one_amount (p : SettlementPredictor)
    (fraud_type : string) (damages_claimed : Q)
    (industry jurisdiction : string) (whistleblower_present : bool)
    (settlement_year : Z) (X : list (option R)) (e : Estimators)
    (res : Prediction) (v : Q) :
  create_prediction_input hash (feature_engine p) fraud_type damages_claimed
    industry jurisdiction whistleblower_present settlement_year = Ok X ->
  estimators_ (model p) = Some e ->
  (forall t, In t (trees e) -> (tree_predict t X == v)%Q) ->
  predict_settlement_range hash trees_accept_nan p fraud_type damages_claimed
    industry jurisdiction whistleblower_present settlement_year = Ok res ->
  predicted_low res = expm1 (Q2R v)
  /\ predicted_mid res = expm1 (Q2R v)
  /\ predicted_high res = expm1 (Q2R v).
Proof.
  intros HX He Hagree Hres.
  destruct (predict_settlement_range_Ok _ _ _ _ _ _ _ _ Hres)
    as (_ & _ & X' & e' & HX' & He' & ->).
  rewrite HX in HX'. injection HX' as <-.
  rewrite He in He'. injection He' as <-.
  cbv zeta.
  cbn [predicted_low predicted_mid predicted_high].
  pose proof (tree_predictions_nonempty X e) as Hne.
  assert (Hb : forall x,
             In x (map (fun tree => tree_predict tree X) (trees e)) ->
             (v <= x)%Q /\ (x <= v)%Q).
  { intros x Hx. apply in_map_iff in Hx. destruct Hx as (t & <- & Ht).
    rewrite (Hagree t Ht). split; apply Qle_refl. }
  assert (Hq : forall q, (0 <= q <= 100)%Z ->
             Q2R (percentile (map (fun tree => tree_predict tree X) (trees e)) q)
             = Q2R v).
  { intros q Hq. destruct (percentile_between _ q v v Hne Hq Hb) as [A B].
    apply Qeq_eqR. apply Qle_antisym; assumption. }
  rewrite !Hq by lia. repeat split.
Qed.

End PredictorAnswers.

Lemma predicted_range_within_leaves_witness :
  exists res,
    Predictor.predict_settlement_range Cases.sample_hash true
      Cases.sample_predictor "healthcare" 10000000 "pharmaceutical"
      "Southern District of New York" true 2024 = Ok res
    /\ (expm1 (Q2R 12) <= Predictor.predicted_low res)%R
    /\ (Predictor.predicted_high res <= expm1 (Q2R 16))%R.
Proof.
  destruct (predict_settlement_range_fitted Cases.sample_hash true
              Cases.sample_predictor "healthcare" 10000000 "pharmaceutical"
              "Southern District of New York" true 2024 eq_refl eq_refl)
    as (X & e & _ & He & Hres).
  eexists. split; [exact Hres|].
  apply (predicted_range_within_leaves Cases.sample_hash true
           Cases.sample_predictor "healthcare" 10000000 "pharmaceutical"
           "Southern District of New York" true 2024 e _ 12 16 He);
    [|exact Hres].
  cbn in He. injection He as <-.
  intros t v Ht Hv. simpl in Ht.
  destruct Ht as [<-|[<-|[<-|[]]]]; simpl in Hv;
    repeat (destruct Hv as [<-|Hv]; [split; discriminate|]);
    destruct Hv.
Defined.

Lemma agreeing_trees_give_one_amount_witness :
  exists res,
    Predictor.predict_settlement_range Cases.sample_hash true
      PredictorFacts.agreeing_predictor "healthcare" 10000000 "pharmaceutical"
      "Southern District of New York" true 2024 = Ok res
    /\ Predictor.predicted_low res = expm1 (Q2R 13)
    /\ Predictor.predicted_mid res = expm1 (Q2R 13)
    /\ Predictor.predicted_high res = expm1 (Q2R 13).
Proof.
  destruct (predict_settlement_range_fitted Cases.sample_hash true
              PredictorFacts.agreeing_predictor "healthcare" 10000000
              "pharmaceutical" "Southern District of New York" true 2024
              eq_refl eq_refl)
    as (X & e & HX & He & Hres).
  eexists. split; [exact Hres|].
  apply (agreeing_trees_give_one_amount Cases.sample_hash true
           PredictorFacts.agreeing_predictor "healthcare" 10000000
           "pharmaceutical" "Southern District of New York" true 2024
           X e _ 13 HX He); [|exact Hres].
  cbn in He. injection He as <-.
  intros t Ht. simpl in Ht.
  destruct Ht as [<-|[<-|[<-|[]]]]; reflexivity.
Defined.

(** ** Further properties of the serving endpoint *)

Section Endpoints.

Import FeatureEngine Predictor Serving ServingFacts.

Variable hash : string -> Z.
Variable trees_accept_nan : bool.

(** The predictor answers a request that passed the [Field] constraints
    exactly when it is fitted. *)
Lemma call_predictor_fitted (p : SettlementPredictor) (req : PredictionRequest) :
  field_constraints req = true ->
  match call_predictor hash trees_accept_nan p req with
  | Ok _ => Cases.is_fitted p = true
  | Raise _ => Cases.is_fitted p = false
  end.
Proof.
  intro Hc. pose proof (field_constraints_damages req Hc) as Hd.
  destruct (Cases.is_fitted p) eqn:Hfit.
  - destruct (predict_settlement_range_fitted hash trees_accept_nan p (fraud_type req)
                (damages_claimed req) (industry req) (jurisdiction req)
                (whistleblower_present req) (settlement_year req) Hfit
                (positive_above_minus_one _ Hd)) as (X & e & _ & _ & Hres).
    unfold call_predictor. rewrite Hres. reflexivity.
  - destruct (call_predictor hash trees_accept_nan p req) as [pr|e] eqn:E; [|reflexivity].
    destruct (predict_settlement_range_Ok hash trees_accept_nan _ _ _ _ _ _ _ _ E) as (H & _).
    rewrite Hfit in H. discriminate.
Qed.

(** The decision table of [POST /predict]. *)
Lemma post_predict_decision (predictor : option SettlementPredictor)
    (body : PredictionRequest) :
  status_code_of (post_predict hash trees_accept_nan predictor body)
  = if negb (field_constraints body) then 422%Z
    else match predictor with
         | None => 503%Z
         | Some p =>
             if negb (in_vocabulary body) then 400%Z
             else if Cases.is_fitted p then 200%Z else 500%Z
         end.
Proof.
  unfold post_predict.
  destruct (field_constraints body) eqn:Hc; [|reflexivity].
  cbn [negb]. destruct predictor as [p|]; [|reflexivity].
  unfold predict_settlement, in_vocabulary.
  destruct (str_in (lower (fraud_type body)) valid_fraud_types);
    [|reflexivity].
  destruct (str_in (lower (industry body)) valid_industries); [|reflexivity].
  cbn [negb andb].
  pose proof (call_predictor_fitted p body Hc) as H.
  destruct (call_predictor hash trees_accept_nan p body); rewrite H; reflexivity.
Qed.

(** X15.  For a body with a finite damages_claimed, the status of
    [POST /predict] is decided in this order: 422 when a [Field]
    constraint fails; 503 when the startup hook left no predictor object;
    400 when the lower-cased fraud type or industry is outside the
    vocabulary; then 200 when the predictor is fitted and 500 when it is
    not.  No other status is answered. *)
Theorem post_predict_status (predictor : option SettlementPredictor)
    (body : PredictionRequest) :
  status_code_of (post_predict hash trees_accept_nan predictor body)
  = if negb (field_constraints body) then 422%Z
    else match predictor with
         | None => 503%Z
         | Some p =>
             if negb (in_vocabulary body) then 400%Z
             else if Cases.is_fitted p then 200%Z else 500%Z
         end.
Proof.
  exact (post_predict_decision predictor body).
Qed.

Lemma batch_item_fitted (p : SettlementPredictor) (req : PredictionRequest) :
  field_constraints req = true ->
  status (batch_item hash trees_accept_nan p req)
  = if Cases.is_fitted p then "success"%string else "failed"%string.
Proof.
  intro Hc. pose proof (call_predictor_fitted p req Hc) as H.
  unfold batch_item. destruct (call_predictor hash trees_accept_nan p req); rewrite H;
    reflexivity.
Qed.

Lemma count_status_fitted (p : SettlementPredictor) (s : string)
    (requests : list PredictionRequest) :
  forallb field_constraints requests = true ->
  count_status s (map (batch_item hash trees_accept_nan p) requests)
  = if String.eqb (if Cases.is_fitted p then "success" else "failed") s
    then List.length requests else 0%nat.
Proof.
  unfold count_status.
  induction requests as [|req requests IH]; intro Hv.
  - destruct (String.eqb _ s); reflexivity.
  - cbn [forallb] in Hv. apply andb_true_iff in Hv. destruct Hv as [Hc Hv].
    cbn [map filter]. rewrite (batch_item_fitted p req Hc).
    specialize (IH Hv).
    destruct (String.eqb (if Cases.is_fitted p then "success" else "failed") s);
      cbn [List.length]; rewrite IH; reflexivity.
Qed.

(** X16.  A batch of finite requests that passes validation succeeds or
    fails as a whole: with a fitted predictor every item is marked
    succeeded, with an unfitted one (as the startup hook leaves when the
    artifacts are missing) the answer is still 200 and every item is
    marked failed. *)
Theorem batch_succeeds_or_fails_as_a_whole (p : SettlementPredictor)
    (body : list PredictionRequest) :
  (List.length body <= 100)%nat ->
  forallb field_constraints body = true ->
  exists resp,
    post_batch_predict hash trees_accept_nan (Some p) body = (Body resp, body)
    /\ total resp = List.length body
    /\ successful resp = (if Cases.is_fitted p then List.length body else 0%nat)
    /\ failed resp = (if Cases.is_fitted p then 0%nat else List.length body)
    /\ forall item, In item (results resp) ->
         status item
         = if Cases.is_fitted p then "success"%string else "failed"%string.
Proof.
  intros Hlen Hv. unfold post_batch_predict, batch_predict. rewrite Hv.
  destruct (Nat.ltb_spec 100 (List.length body)) as [Hgt|_]; [lia|].
  rewrite batch_loop_map. eexists. split; [reflexivity|].
  cbn [total successful failed results].
  split; [reflexivity|].
  rewrite !count_status_fitted by exact Hv.
  split; [destruct (Cases.is_fitted p); reflexivity|].
  split; [destruct (Cases.is_fitted p); reflexivity|].
  intros item Hitem. apply in_map_iff in Hitem.
  destruct Hitem as (req & <- & Hreq). apply batch_item_fitted.
  rewrite forallb_forall in Hv. apply Hv. exact Hreq.
Qed.

Lemma post_predict_Body (p : SettlementPredictor) (req : PredictionRequest)
    (pr : Prediction) :
  post_predict hash trees_accept_nan (Some p) req = Body pr ->
  field_constraints req = true /\ call_predictor hash trees_accept_nan p req = Ok pr.
Proof.
  unfold post_predict, predict_settlement.
  destruct (field_constraints req); [|discriminate].
  destruct (negb (str_in _ valid_fraud_types)); [discriminate|].
  destruct (negb (str_in _ valid_industries)); [discriminate|].
  destruct (call_predictor hash trees_accept_nan p req); [|discriminate].
  intro H. injection H as ->. auto.
Qed.

(** X17.  The two endpoints agree: when [POST /predict] answers every
    request of a list of at most 100 with a prediction, [POST
    /batch-predict] on the list answers with the same predictions, in
    order, all marked succeeded, and none failed. *)
Theorem batch_agrees_with_predict (p : SettlementPredictor)
    (body : list PredictionRequest) (answers : list Prediction) :
  (List.length body <= 100)%nat ->
  Forall2 (fun req pr => post_predict hash trees_accept_nan (Some p) req = Body pr) body answers ->
  post_batch_predict hash trees_accept_nan (Some p) body
  = (Body {| total := List.length body;
             successful := List.length body;
             failed := 0;
             results := map (fun entry => succeeded (fst entry) (snd entry))
                          (combine body answers) |}, body).
Proof.
  intros Hlen Hall.
  assert (Hv : forallb field_constraints body = true).
  { induction Hall as [|req pr body answers H _ IH]; [reflexivity|].
    cbn [forallb]. destruct (post_predict_Body p req pr H) as [-> _].
    apply IH. cbn [List.length] in Hlen. lia. }
  assert (Hitems : map (batch_item hash trees_accept_nan p) body
                   = map (fun entry => succeeded (fst entry) (snd entry))
                       (combine body answers)).
  { clear Hlen Hv.
    induction Hall as [|req pr body answers H _ IH]; [reflexivity|].
    cbn [map combine fst snd]. rewrite IH. f_equal.
    destruct (post_predict_Body p req pr H) as [_ Hcall].
    unfold batch_item. rewrite Hcall. reflexivity. }
  assert (Hcount : forall s,
             count_status s (map (fun entry => succeeded (fst entry) (snd entry))
                               (combine body answers))
             = if String.eqb "success" s then List.length body else 0%nat).
  { intro s. unfold count_status. clear Hlen Hv Hitems.
    induction Hall as [|req pr body answers _ _ IH].
    - destruct (String.eqb "success" s); reflexivity.
    - cbn [map combine filter fst snd succeeded status].
      destruct (String.eqb "success" s); cbn [List.length]; rewrite IH;
        reflexivity. }
  unfold post_batch_predict, batch_predict. rewrite Hv.
  destruct (Nat.ltb_spec 100 (List.length body)) as [Hgt|_]; [lia|].
  rewrite batch_loop_map, Hitems, !Hcount. reflexivity.
Qed.

(** X18.  Only a damaged artifact makes the service count as not loaded:
    [POST /predict] answers 503 to a request that passes validation, and
    the health check answers status model_not_loaded with model_loaded =
    false, exactly when both artifact files exist and joblib cannot load
    one of them.  With a file missing the health check does not answer at
    all: it raises on the truth value of the unfitted forest. *)
Theorem not_loaded_only_with_a_damaged_artifact (dir : ModelsDir)
    (body : PredictionRequest) :
  field_constraints body = true ->
  let damaged :=
    exists_ (settlement_model_latest dir) && exists_ (feature_scaler_latest dir)
    && (unreadable (settlement_model_latest dir)
        || unreadable (feature_scaler_latest dir)) in
  (status_code_of (post_predict hash trees_accept_nan (load_model dir) body)
   = 503%Z <-> damaged = true)
  /\ (health_check (load_model dir)
      = Ok {| health_status := "model_not_loaded"; model_loaded := false |}
      <-> damaged = true)
  /\ (exists_ (settlement_model_latest dir)
      && exists_ (feature_scaler_latest dir) = false ->
      exists e, health_check (load_model dir) = Raise e).
Proof.
  intros Hc damaged. subst damaged.
  rewrite post_predict_decision. rewrite Hc. cbn [negb].
  unfold load_model.
  destruct (settlement_model_latest dir) as [ | |m];
    destruct (feature_scaler_latest dir) as [ | |sc];
    cbn [exists_ unreadable andb orb health_check Predictor.load_model
         new_predictor model estimators_];
    (split; [|split]);
    try (split; reflexivity);
    try (intros _; eexists; reflexivity);
    try (intro H; discriminate H);
    try (split; discriminate);
    try (destruct (estimators_ m); split; discriminate);
    (split; [|discriminate]); intro H;
    (destruct (negb (in_vocabulary body)); [discriminate|]);
    match type of H with
    | context [Cases.is_fitted ?p] => destruct (Cases.is_fitted p)
    end; discriminate.
Qed.

Lemma lower_ascii_lower (c : ascii) : lower_ascii (lower_ascii c) = lower_ascii c.
Proof.
  destruct c as [[] [] [] [] [] [] [] []]; reflexivity.
Qed.

Lemma lower_lower (s : string) : lower (lower s) = lower s.
Proof.
  induction s as [|c s IH]; [reflexivity|].
  cbn [lower]. rewrite lower_ascii_lower, IH. reflexivity.
Qed.

Lemma create_prediction_input_lower (engine : SettlementFeatureEngine)
    (ft : string) (damages : Q) (ind jur : string) (wb : bool) (yr : Z) :
  create_prediction_input hash engine (lower ft) damages (lower ind) jur wb yr
  = create_prediction_input hash engine ft damages ind jur wb yr.
Proof.
  unfold create_prediction_input, prediction_case.
  rewrite !lower_lower. reflexivity.
Qed.

(** X19.  Letter case in [fraud_type] and [industry] changes nothing:
    writing both in lower case leaves the answer of the predictor and the
    answer of [POST /predict] as they were. *)
Theorem fraud_type_and_industry_ignore_case
    (predictor : option SettlementPredictor) (p : SettlementPredictor)
    (body : PredictionRequest) :
  call_predictor hash trees_accept_nan p (lowered body) = call_predictor hash trees_accept_nan p body
  /\ post_predict hash trees_accept_nan predictor (lowered body)
     = post_predict hash trees_accept_nan predictor body.
Proof.
  assert (Hcall : forall q, call_predictor hash trees_accept_nan q (lowered body)
                            = call_predictor hash trees_accept_nan q body).
  { intro q. unfold call_predictor, predict_settlement_range, lowered.
    cbn [fraud_type damages_claimed industry jurisdiction
         whistleblower_present settlement_year].
    rewrite create_prediction_input_lower. reflexivity. }
  split; [apply Hcall|].
  unfold post_predict.
  assert (Hf : field_constraints (lowered body) = field_constraints body)
    by reflexivity.
  rewrite Hf. destruct (field_constraints body); [|reflexivity].
  unfold predict_settlement. destruct predictor as [q|]; [|reflexivity].
  rewrite Hcall. unfold lowered. cbn [fraud_type industry].
  rewrite !lower_lower. reflexivity.
Qed.

End Endpoints.

Lemma batch_succeeds_or_fails_as_a_whole_witness :
  exists resp,
    Serving.post_batch_predict Cases.sample_hash true (Some Predictor.new_predictor)
      [Cases.sample_request; Cases.unknown_fraud_request]
    = (Serving.Body resp, [Cases.sample_request; Cases.unknown_fraud_request])
    /\ Serving.successful resp = 0%nat /\ Serving.failed resp = 2%nat.
Proof.
  destruct (batch_succeeds_or_fails_as_a_whole Cases.sample_hash true
              Predictor.new_predictor
              [Cases.sample_request; Cases.unknown_fraud_request])
    as (resp & Hresp & _ & Hs & Hf & _).
  - simpl. lia.
  - reflexivity.
  - exists resp. split; [exact Hresp|]. split; [exact Hs|exact Hf].
Defined.

Lemma not_loaded_only_with_a_damaged_artifact_witness :
  Serving.field_constraints Cases.sample_request = true
  /\ Serving.status_code_of
       (Serving.post_predict Cases.sample_hash true
          (Serving.load_model ServingFacts.damaged_models_dir)
          Cases.sample_request) = 503%Z
  /\ Serving.health_check (Serving.load_model ServingFacts.damaged_models_dir)
     = Ok {| Serving.health_status := "model_not_loaded";
             Serving.model_loaded := false |}.
Proof.
  assert (H : Serving.field_constraints Cases.sample_request = true)
    by reflexivity.
  split; [exact H|].
  destruct (not_loaded_only_with_a_damaged_artifact Cases.sample_hash true
              ServingFacts.damaged_models_dir Cases.sample_request H)
    as ([_ H503] & [_ Hhealth] & _).
  split; [apply H503; reflexivity|apply Hhealth; reflexivity].
Defined.

Lemma batch_agrees_with_predict_witness :
  exists pr,
    Serving.post_predict Cases.sample_hash true (Some Cases.sample_predictor)
      Cases.sample_request = Serving.Body pr
    /\ Serving.post_batch_predict Cases.sample_hash true
         (Some Cases.sample_predictor) [Cases.sample_request]
       = (Serving.Body
            {| Serving.total := 1; Serving.successful := 1;
               Serving.failed := 0;
               Serving.results :=
                 [ServingFacts.succeeded Cases.sample_request pr] |},
          [Cases.sample_request]).
Proof.
  destruct (predict_settlement_range_fitted Cases.sample_hash true
              Cases.sample_predictor "healthcare" 10000000 "pharmaceutical"
              "Southern District of New York" true 2024 eq_refl eq_refl)
    as (X & e & _ & _ & Hres).
  match type of Hres with _ = Ok ?pr => exists pr end.
  assert (Hone : Serving.post_predict Cases.sample_hash true
                   (Some Cases.sample_predictor) Cases.sample_request
                 = Serving.Body
                     (let tree_predictions :=
                        map (fun tree => Predictor.tree_predict tree X)
                          (Predictor.trees e) in
                      {| Predictor.predicted_low :=
                           expm1 (Q2R (Predictor.percentile tree_predictions 25));
                         Predictor.predicted_mid :=
                           expm1 (Q2R (Predictor.percentile tree_predictions 50));
                         Predictor.predicted_high :=
                           expm1 (Q2R (Predictor.percentile tree_predictions 75));
                         Predictor.confidence :=
                           (1 - Rmin (Predictor.std tree_predictions / 2)
                                  (1 / 2))%R;
                         Predictor.input_damages := 10000000 |})).
  { unfold Serving.post_predict, Serving.predict_settlement,
      Serving.call_predictor.
    replace (Serving.field_constraints Cases.sample_request) with true
      by reflexivity.
    replace (str_in (lower (Serving.fraud_type Cases.sample_request))
               Serving.valid_fraud_types) with true by reflexivity.
    replace (str_in (lower (Serving.industry Cases.sample_request))
               Serving.valid_industries) with true by reflexivity.
    cbn [negb]. unfold Cases.sample_request at 1 2 3 4 5 6.
    cbn [Serving.fraud_type Serving.damages_claimed Serving.industry
         Serving.jurisdiction Serving.whistleblower_present
         Serving.settlement_year].
    rewrite Hres. reflexivity. }
  split; [exact Hone|].
  apply (batch_agrees_with_predict Cases.sample_hash true Cases.sample_predictor
           [Cases.sample_request] [_]).
  - simpl. lia.
  - constructor; [exact Hone|constructor].
Defined.

(** ** Further properties of the artifact files *)

Section ArtifactPaths.

Import Artifacts.
Local Open Scope string_scope.

Lemma string_length_app (a b : string) :
  String.length (a ++ b) = (String.length a + String.length b)%nat.
Proof.
  induction a as [|c a IH]; simpl; [reflexivity|]. rewrite IH. reflexivity.
Qed.

Lemma string_app_assoc (a b c : string) : (a ++ b) ++ c = a ++ (b ++ c).
Proof.
  induction a as [|x a IH]; simpl; [reflexivity|]. rewrite IH. reflexivity.
Qed.

Lemma string_app_inj (a x y : string) : a ++ x = a ++ y -> x = y.
Proof.
  induction a as [|c a IH]; simpl; intro H; [exact H|].
  injection H as H. apply IH. exact H.
Qed.

Lemma substring_app_skip (a b : string) (k m : nat) :
  substring (String.length a + k) m (a ++ b) = substring k m b.
Proof.
  induction a as [|c a IH]; simpl; [reflexivity|]. exact IH.
Qed.

(** Whether a string ends with a suffix is decided by its last
    characters. *)
Lemma endswith_app (a b s : string) :
  (String.length s <= String.length b)%nat ->
  CleanerObject.endswith (a ++ b) s = CleanerObject.endswith b s.
Proof.
  intro H. unfold CleanerObject.endswith. cbv zeta.
  rewrite string_length_app.
  replace (String.length a + String.length b - String.length s)%nat
    with (String.length a + (String.length b - String.length s))%nat by lia.
  rewrite substring_app_skip.
  destruct (Nat.leb_spec (String.length s) (String.length b)) as [_|Hlt];
    [|lia].
  destruct (Nat.leb_spec (String.length s)
              (String.length a + String.length b)) as [_|Hlt]; [|lia].
  reflexivity.
Qed.

Lemma digit_cases (n : nat) :
  In (digit n) ["0"; "1"; "2"; "3"; "4"; "5"; "6"; "7"; "8"; "9"]%char.
Proof.
  unfold digit. pose proof (Nat.mod_upper_bound n 10 ltac:(lia)) as H.
  set (k := (n mod 10)%nat) in *.
  do 10 (destruct k as [|k]; [simpl; tauto|]). lia.
Qed.

Lemma digit_not_l (n : nat) : Ascii.eqb (digit n) "l" = false.
Proof.
  pose proof (digit_cases n) as H. simpl in H.
  repeat (destruct H as [<-|H]; [reflexivity|]). destruct H.
Qed.

Lemma digit_not_underscore (n : nat) : Ascii.eqb (digit n) "_" = false.
Proof.
  pose proof (digit_cases n) as H. simpl in H.
  repeat (destruct H as [<-|H]; [reflexivity|]). destruct H.
Qed.

Lemma strftime_length (t : DateTime) : String.length (strftime t) = 15%nat.
Proof. reflexivity. Qed.

(** A name made of a timestamp and an extension does not end with
    [_latest.joblib]. *)
Lemma stamped_joblib (a : string) (t : DateTime) :
  CleanerObject.endswith (a ++ strftime t ++ ".joblib") "_latest.joblib"
  = false.
Proof.
  rewrite endswith_app by (rewrite string_length_app, strftime_length; simpl; lia).
  unfold CleanerObject.endswith, strftime, four_digits, two_digits.
  cbn [append String.length Nat.leb Nat.sub substring andb String.eqb].
  change (Ascii.eqb "_" "_") with true. cbn [andb].
  rewrite digit_not_l. reflexivity.
Qed.

Lemma stamped_json (a : string) (t : DateTime) :
  CleanerObject.endswith (a ++ strftime t ++ ".json") "_latest.joblib" = false.
Proof.
  rewrite endswith_app by (rewrite string_length_app, strftime_length; simpl; lia).
  unfold CleanerObject.endswith, strftime, four_digits, two_digits.
  cbn [append String.length Nat.leb Nat.sub substring andb String.eqb].
  rewrite digit_not_underscore. reflexivity.
Qed.

Lemma path_join_latest (here name : string) :
  String.prefix "/" name = false ->
  CleanerObject.endswith name "_latest.joblib" = true ->
  (14 <= String.length name)%nat ->
  CleanerObject.endswith (path_join here name) "_latest.joblib" = true.
Proof.
  intros Hrel Hname Hlen. unfold path_join. rewrite Hrel.
  destruct (String.eqb here "" || CleanerObject.endswith here "/")%bool.
  - rewrite endswith_app by exact Hlen. exact Hname.
  - rewrite <- string_app_assoc. rewrite endswith_app by exact Hlen.
    exact Hname.
Qed.

(** X20.  The files [save_model] writes are never the files the API loads
    at startup: for every model directory and every clock value, the three
    paths it writes are pairwise different and none ends with
    [_latest.joblib], whereas both paths the startup hook tests and loads
    end with it, wherever the API module lies. *)
Theorem save_model_never_writes_latest (model_dir here : string)
    (now : DateTime) :
  let saved := save_model model_dir now in
  let written := [model_path saved; scaler_path saved; metadata_path saved] in
  let looked_for := [startup_model_path here; startup_scaler_path here] in
  NoDup written
  /\ (forall w, In w written ->
        CleanerObject.endswith w "_latest.joblib" = false)
  /\ (forall r, In r looked_for ->
        CleanerObject.endswith r "_latest.joblib" = true)
  /\ (forall w r, In w written -> In r looked_for -> w <> r).
Proof.
  intros saved written looked_for.
  assert (Hw : forall w, In w written ->
                 CleanerObject.endswith w "_latest.joblib" = false).
  { intros w Hin. unfold written, saved, save_model in Hin.
    cbn [model_path scaler_path metadata_path In] in Hin.
    destruct Hin as [<-|[<-|[<-|[]]]].
    - rewrite <- (string_app_assoc model_dir). apply stamped_joblib.
    - rewrite <- (string_app_assoc model_dir). apply stamped_joblib.
    - rewrite <- (string_app_assoc model_dir). apply stamped_json. }
  assert (Hr : forall r, In r looked_for ->
                 CleanerObject.endswith r "_latest.joblib" = true).
  { intros r Hin. unfold looked_for in Hin. cbn [In] in Hin.
    destruct Hin as [<-|[<-|[]]];
      (apply path_join_latest; [reflexivity|reflexivity|simpl; lia]). }
  split; [|split; [exact Hw|split; [exact Hr|]]].
  - unfold written, saved, save_model.
    cbn [model_path scaler_path metadata_path].
    repeat constructor; cbn [In]; intro H;
      repeat (destruct H as [H|H]; [apply string_app_inj in H; discriminate|]);
      exact H.
  - intros w r Hin Hin' Heq. subst r.
    pose proof (Hr w Hin') as Hlatest. rewrite (Hw w Hin) in Hlatest.
    discriminate.
Qed.

End ArtifactPaths.
